(** * table-extractor-web: the browser client [frontend/app.js]

    A shallow embedding of the client controller: the session state
    (staged files, upload-identifier cache, processing flag), the parts of
    the page the handlers write to, the notifications they raise and the
    HTTP exchanges of a batch run.

    Conventions of the embedding.
    - A handler is a function on [World]; the [async] batch routine
      [handleProcess] is written in a small state-and-exception monad and
      takes the backend as an oracle that answers each request from the
      exchanges made so far.
    - [handleProcess] is one batch run in isolation, followed from its
      first statement to the end of its [finally] block; in a [session]
      each run is taken to its end before the next event is handled.
    - [live_session] is the session turn by turn: [handleProcess] and
      [checkServerStatus] are cut at their awaits, and listeners are
      handled while a run waits, with the processing flag true.  A
      [session] is the [live_session] in which nothing comes between the
      start of a run and its end.
    - A [FileReader] started by [previewFirstImage] stays pending in the
      world until its load event is handled; a read that fails stays
      pending for ever, since no error handler is set.
    - JSON payloads have the shapes of the backend's interface: members are
      strings, integers or a grid of strings, and an absent member is
      [None] (a [null] cell or count is read by the code the same way).
      Counts are the doubles the integers of the payload are read as, and
      they are multiplied and printed as doubles are.
    - Markup that depends on the formatting of fractions (file sizes in
      the list, the progress bar width) is kept as the data it is computed
      from. *)

From Stdlib Require Import ZArith DecimalString.
From stdpp Require Import base gmap strings list.

Open Scope string_scope.

(** ** Numbers in template literals *)

Definition string_of_Z (z : Z) : string := NilZero.string_of_int (Z.to_int z).
Definition string_of_nat (n : nat) : string := string_of_Z (Z.of_nat n).

(** ** Numbers of the program that come from integers

    A count is a double: the value [JSON.parse] gives the integer written
    in the payload, or a product of two such values.  Such a double is
    [NaN], an infinity, or a finite double whose value is an integer, kept
    here as that integer. *)
Inductive Number :=
| NaN
| Infinity (negative : bool)
| Finite (value : Z).

(** The double nearest to a non-negative integer, ties to the even
    significand of 53 bits. *)
Definition round_magnitude (z : Z) : Z :=
  if bool_decide (z < 2 ^ 53)%Z then z
  else
    let e := (Z.log2 z - 52)%Z in
    let q := (z / 2 ^ e)%Z in
    let r := (z - q * 2 ^ e)%Z in
    let half := (2 ^ (e - 1))%Z in
    let q := if bool_decide (half < r)%Z
                || (bool_decide (r = half) && Z.odd q)
             then (q + 1)%Z else q in
    (q * 2 ^ e)%Z.

(** The double an integer is read or rounded to; beyond the largest double
    it is an infinity. *)
Definition round_double (z : Z) : Number :=
  let m := round_magnitude (Z.abs z) in
  if bool_decide (2 ^ 1024 <= m)%Z then Infinity (bool_decide (z < 0)%Z)
  else Finite (Z.sgn z * m).


(** [a * b] on doubles with integer values: the exact product, rounded. *)
Definition number_mul (a b : Number) : Number :=
  match a, b with
  | NaN, _ | _, NaN => NaN
  | Finite x, Finite y => round_double (x * y)
  | Infinity s, Finite y | Finite y, Infinity s =>
    if bool_decide (y = 0)%Z then NaN else Infinity (xorb s (bool_decide (y < 0)%Z))
  | Infinity s, Infinity t => Infinity (xorb s t)
  end.

(** The digits [s] and the power [j] of the shortest decimal [s * 10 ^ j]
    that reads back as the double [x]: [lo2] and [hi2] are twice the bounds
    of the reals that round to [x], which belong to them when [closed];
    among the decimals of the largest power the one nearest to [x] is
    taken, the even one on a tie. *)
Fixpoint shortest_decimal (x lo2 hi2 : Z) (closed : bool) (j : nat) : Z * nat :=
  let p := (10 ^ Z.of_nat j)%Z in
  let below := (x / p * p)%Z in
  let above := (below + p)%Z in
  let inside c :=
    if closed then bool_decide (lo2 <= 2 * c)%Z && bool_decide (2 * c <= hi2)%Z
    else bool_decide (lo2 < 2 * c)%Z && bool_decide (2 * c < hi2)%Z in
  let below_ok := bool_decide (0 < below)%Z && inside below in
  let above_ok := inside above in
  let pick_below :=
    below_ok
    && (negb above_ok
        || bool_decide (x - below < above - x)%Z
        || (bool_decide (x - below = above - x)%Z && Z.even (below / p))) in
  if pick_below then ((below / p)%Z, j)
  else if above_ok then ((above / p)%Z, j)
  else match j with
       | O => (x, O)
       | S j' => shortest_decimal x lo2 hi2 closed j'
       end.

(** [n] zeros. *)
Definition zeros (n : nat) : string := String.concat EmptyString (replicate n "0").

(** Number-to-string of a double of integer value [x >= 2 ^ 53]: its
    shortest digits, padded with zeros up to 21 digits and in exponent
    notation beyond. *)
Definition large_text (x : Z) : string :=
  let e := (Z.log2 x - 52)%Z in
  let m := (x / 2 ^ e)%Z in
  let lo2 := (2 * x - (if bool_decide (m = 2 ^ 52)%Z then 2 ^ (e - 1) else 2 ^ e))%Z in
  let hi2 := (2 * x + 2 ^ e)%Z in
  let '(s, j) := shortest_decimal x lo2 hi2 (Z.even m) (String.length (string_of_Z x)) in
  let digits := string_of_Z s in
  let k := String.length digits in
  let n := (k + j)%nat in
  if bool_decide (n <= 21)%nat then digits +:+ zeros j
  else
    match digits with
    | String d EmptyString => String d EmptyString +:+ "e+" +:+ string_of_Z (Z.of_nat n - 1)
    | String d rest => String d EmptyString +:+ "." +:+ rest +:+ "e+" +:+ string_of_Z (Z.of_nat n - 1)
    | EmptyString => EmptyString
    end.

(** Number-to-string, as an assignment to [textContent] applies it. *)
Definition number_to_string (v : Number) : string :=
  match v with
  | NaN => "NaN"
  | Infinity false => "Infinity"
  | Infinity true => "-Infinity"
  | Finite z =>
    if bool_decide (Z.abs z < 2 ^ 53)%Z then string_of_Z z
    else if bool_decide (z < 0)%Z then "-" +:+ large_text (- z)
    else large_text z
  end.

(** [value || 0] for a count that may be absent. *)
Definition or_zero (v : option Number) : Number :=
  match v with
  | None | Some NaN | Some (Finite 0) => Finite 0
  | Some n => n
  end.

(** ** Data *)

(** A browser [File]: the members the client reads, and its bytes. *)
Record File := mkFile {
  file_name : string;
  file_size : Z;
  file_type : string;
  file_bytes : list Byte.byte
}.

Global Instance byte_eq_dec : EqDecision Byte.byte := Byte.byte_eq_dec.

Global Instance File_eq_dec : EqDecision File.
Proof. solve_decision. Defined.

(** [const state = { files: [], uploadedFileIds: {}, processing: false }] *)
Record State := mkState {
  files : list File;
  uploadedFileIds : gmap Z string;
  processing : bool
}.

(** The options object handed to [Toastify]. *)
Record Toast := mkToast {
  text : string;
  duration : Z;
  gravity : string;
  position : string;
  backgroundColor : string;
  stopOnFocus : bool
}.

(** What [fileListContent.innerHTML] is rendered from. *)
Inductive FileListView :=
| EmptyMessage
| FileItems (items : list (nat * string * Z)).

(** What [imagePreview.innerHTML] is rendered from. *)
Inductive ImagePreview :=
| ImagePlaceholder
| ImageOf (file : File).

(** [progressFill.style.width]: a literal, or [(num / den) * 100] percent. *)
Inductive Width :=
| WidthLiteral (s : string)
| WidthPercentOf (num den : nat).

(** The properties of the page's elements that the handlers assign. *)
Record DOM := mkDOM {
  fileInput_value : string;
  uploadArea_dragover : bool;
  fileListContent_innerHTML : FileListView;
  processBtn_disabled : bool;
  imagePreview_innerHTML : ImagePreview;
  tablePreview_innerHTML : string;
  resultSection_display : string;
  resultSection_scrolls : nat;
  loadingOverlay_display : string;
  loadingMessage_textContent : string;
  progressFill_width : Width;
  downloadLink_href : string;
  downloadLink_download : string;
  rowCount_textContent : string;
  colCount_textContent : string;
  cellCount_textContent : string
}.

(** JSON body of a successful upload: [{file_id, filename}]. *)
Record UploadJson := mkUploadJson {
  file_id : option string;
  filename : option string
}.

(** JSON body of a successful processing call:
    [{preview_data, row_count, col_count, excel_url}]. *)
Record ProcessResult := mkProcessResult {
  preview_data : option (list (list (option string)));
  row_count : option Z;
  col_count : option Z;
  excel_url : option string
}.

(** Outcome of [fetch] followed by [response.json()]: the request promise
    rejects, or a response arrives whose body parses ([inr]) or whose
    [json()] promise rejects with a message ([inl]). *)
Inductive FetchOutcome (A : Type) :=
| Rejected (message : string)
| Responded (ok : bool) (statusText : string) (body : string + A).
Arguments Rejected {A} message.
Arguments Responded {A} ok statusText body.

(** One request of the client together with what came back. *)
Inductive Exchange :=
| XHealth (o : FetchOutcome unit)
| XUpload (file : File) (o : FetchOutcome UploadJson)
| XProcess (url : string) (o : FetchOutcome ProcessResult).

(** The backend: each answer may depend on every earlier exchange. *)
Record Server := mkServer {
  srv_health : list Exchange -> FetchOutcome unit;
  srv_upload : list Exchange -> File -> FetchOutcome UploadJson;
  srv_process : list Exchange -> string -> FetchOutcome ProcessResult
}.

(** [readers] holds the files of the [FileReader]s that were started and
    have not loaded yet. *)
Record World := mkWorld {
  state : State;
  page : DOM;
  toasts : list Toast;
  console : list string;
  network : list Exchange;
  readers : list File
}.

(** ** Assignments *)

Definition set_files (v : list File) (s : State) : State :=
  mkState v (uploadedFileIds s) (processing s).
Definition set_uploadedFileIds (v : gmap Z string) (s : State) : State :=
  mkState (files s) v (processing s).
Definition set_processing (v : bool) (s : State) : State :=
  mkState (files s) (uploadedFileIds s) v.

Definition with_state (f : State -> State) (w : World) : World :=
  mkWorld (f (state w)) (page w) (toasts w) (console w) (network w) (readers w).
Definition with_page (f : DOM -> DOM) (w : World) : World :=
  mkWorld (state w) (f (page w)) (toasts w) (console w) (network w) (readers w).
Definition push_toast (t : Toast) (w : World) : World :=
  mkWorld (state w) (page w) (toasts w ++ [t]) (console w) (network w) (readers w).
Definition push_console (s : string) (w : World) : World :=
  mkWorld (state w) (page w) (toasts w) (console w ++ [s]) (network w) (readers w).
Definition push_exchange (x : Exchange) (w : World) : World :=
  mkWorld (state w) (page w) (toasts w) (console w) (network w ++ [x]) (readers w).
Definition with_readers (f : list File -> list File) (w : World) : World :=
  mkWorld (state w) (page w) (toasts w) (console w) (network w) (f (readers w)).

Definition set_fileInput_value (v : string) (d : DOM) : DOM :=
  mkDOM v (uploadArea_dragover d) (fileListContent_innerHTML d)
    (processBtn_disabled d) (imagePreview_innerHTML d)
    (tablePreview_innerHTML d) (resultSection_display d)
    (resultSection_scrolls d) (loadingOverlay_display d)
    (loadingMessage_textContent d) (progressFill_width d)
    (downloadLink_href d) (downloadLink_download d)
    (rowCount_textContent d) (colCount_textContent d)
    (cellCount_textContent d).
Definition set_uploadArea_dragover (v : bool) (d : DOM) : DOM :=
  mkDOM (fileInput_value d) v (fileListContent_innerHTML d)
    (processBtn_disabled d) (imagePreview_innerHTML d)
    (tablePreview_innerHTML d) (resultSection_display d)
    (resultSection_scrolls d) (loadingOverlay_display d)
    (loadingMessage_textContent d) (progressFill_width d)
    (downloadLink_href d) (downloadLink_download d)
    (rowCount_textContent d) (colCount_textContent d)
    (cellCount_textContent d).
Definition set_fileListContent_innerHTML (v : FileListView) (d : DOM) : DOM :=
  mkDOM (fileInput_value d) (uploadArea_dragover d) v
    (processBtn_disabled d) (imagePreview_innerHTML d)
    (tablePreview_innerHTML d) (resultSection_display d)
    (resultSection_scrolls d) (loadingOverlay_display d)
    (loadingMessage_textContent d) (progressFill_width d)
    (downloadLink_href d) (downloadLink_download d)
    (rowCount_textContent d) (colCount_textContent d)
    (cellCount_textContent d).
Definition set_processBtn_disabled (v : bool) (d : DOM) : DOM :=
  mkDOM (fileInput_value d) (uploadArea_dragover d)
    (fileListContent_innerHTML d) v (imagePreview_innerHTML d)
    (tablePreview_innerHTML d) (resultSection_display d)
    (resultSection_scrolls d) (loadingOverlay_display d)
    (loadingMessage_textContent d) (progressFill_width d)
    (downloadLink_href d) (downloadLink_download d)
    (rowCount_textContent d) (colCount_textContent d)
    (cellCount_textContent d).
Definition set_imagePreview_innerHTML (v : ImagePreview) (d : DOM) : DOM :=
  mkDOM (fileInput_value d) (uploadArea_dragover d)
    (fileListContent_innerHTML d) (processBtn_disabled d) v
    (tablePreview_innerHTML d) (resultSection_display d)
    (resultSection_scrolls d) (loadingOverlay_display d)
    (loadingMessage_textContent d) (progressFill_width d)
    (downloadLink_href d) (downloadLink_download d)
    (rowCount_textContent d) (colCount_textContent d)
    (cellCount_textContent d).
Definition set_tablePreview_innerHTML (v : string) (d : DOM) : DOM :=
  mkDOM (fileInput_value d) (uploadArea_dragover d)
    (fileListContent_innerHTML d) (processBtn_disabled d)
    (imagePreview_innerHTML d) v (resultSection_display d)
    (resultSection_scrolls d) (loadingOverlay_display d)
    (loadingMessage_textContent d) (progressFill_width d)
    (downloadLink_href d) (downloadLink_download d)
    (rowCount_textContent d) (colCount_textContent d)
    (cellCount_textContent d).
Definition set_resultSection_display (v : string) (d : DOM) : DOM :=
  mkDOM (fileInput_value d) (uploadArea_dragover d)
    (fileListContent_innerHTML d) (processBtn_disabled d)
    (imagePreview_innerHTML d) (tablePreview_innerHTML d) v
    (resultSection_scrolls d) (loadingOverlay_display d)
    (loadingMessage_textContent d) (progressFill_width d)
    (downloadLink_href d) (downloadLink_download d)
    (rowCount_textContent d) (colCount_textContent d)
    (cellCount_textContent d).
Definition set_resultSection_scrolls (v : nat) (d : DOM) : DOM :=
  mkDOM (fileInput_value d) (uploadArea_dragover d)
    (fileListContent_innerHTML d) (processBtn_disabled d)
    (imagePreview_innerHTML d) (tablePreview_innerHTML d)
    (resultSection_display d) v (loadingOverlay_display d)
    (loadingMessage_textContent d) (progressFill_width d)
    (downloadLink_href d) (downloadLink_download d)
    (rowCount_textContent d) (colCount_textContent d)
    (cellCount_textContent d).
Definition set_loadingOverlay_display (v : string) (d : DOM) : DOM :=
  mkDOM (fileInput_value d) (uploadArea_dragover d)
    (fileListContent_innerHTML d) (processBtn_disabled d)
    (imagePreview_innerHTML d) (tablePreview_innerHTML d)
    (resultSection_display d) (resultSection_scrolls d) v
    (loadingMessage_textContent d) (progressFill_width d)
    (downloadLink_href d) (downloadLink_download d)
    (rowCount_textContent d) (colCount_textContent d)
    (cellCount_textContent d).
Definition set_loadingMessage_textContent (v : string) (d : DOM) : DOM :=
  mkDOM (fileInput_value d) (uploadArea_dragover d)
    (fileListContent_innerHTML d) (processBtn_disabled d)
    (imagePreview_innerHTML d) (tablePreview_innerHTML d)
    (resultSection_display d) (resultSection_scrolls d)
    (loadingOverlay_display d) v (progressFill_width d)
    (downloadLink_href d) (downloadLink_download d)
    (rowCount_textContent d) (colCount_textContent d)
    (cellCount_textContent d).
Definition set_progressFill_width (v : Width) (d : DOM) : DOM :=
  mkDOM (fileInput_value d) (uploadArea_dragover d)
    (fileListContent_innerHTML d) (processBtn_disabled d)
    (imagePreview_innerHTML d) (tablePreview_innerHTML d)
    (resultSection_display d) (resultSection_scrolls d)
    (loadingOverlay_display d) (loadingMessage_textContent d) v
    (downloadLink_href d) (downloadLink_download d)
    (rowCount_textContent d) (colCount_textContent d)
    (cellCount_textContent d).
Definition set_downloadLink_href (v : string) (d : DOM) : DOM :=
  mkDOM (fileInput_value d) (uploadArea_dragover d)
    (fileListContent_innerHTML d) (processBtn_disabled d)
    (imagePreview_innerHTML d) (tablePreview_innerHTML d)
    (resultSection_display d) (resultSection_scrolls d)
    (loadingOverlay_display d) (loadingMessage_textContent d)
    (progressFill_width d) v (downloadLink_download d)
    (rowCount_textContent d) (colCount_textContent d)
    (cellCount_textContent d).
Definition set_downloadLink_download (v : string) (d : DOM) : DOM :=
  mkDOM (fileInput_value d) (uploadArea_dragover d)
    (fileListContent_innerHTML d) (processBtn_disabled d)
    (imagePreview_innerHTML d) (tablePreview_innerHTML d)
    (resultSection_display d) (resultSection_scrolls d)
    (loadingOverlay_display d) (loadingMessage_textContent d)
    (progressFill_width d) (downloadLink_href d) v
    (rowCount_textContent d) (colCount_textContent d)
    (cellCount_textContent d).
Definition set_rowCount_textContent (v : string) (d : DOM) : DOM :=
  mkDOM (fileInput_value d) (uploadArea_dragover d)
    (fileListContent_innerHTML d) (processBtn_disabled d)
    (imagePreview_innerHTML d) (tablePreview_innerHTML d)
    (resultSection_display d) (resultSection_scrolls d)
    (loadingOverlay_display d) (loadingMessage_textContent d)
    (progressFill_width d) (downloadLink_href d) (downloadLink_download d)
    v (colCount_textContent d) (cellCount_textContent d).
Definition set_colCount_textContent (v : string) (d : DOM) : DOM :=
  mkDOM (fileInput_value d) (uploadArea_dragover d)
    (fileListContent_innerHTML d) (processBtn_disabled d)
    (imagePreview_innerHTML d) (tablePreview_innerHTML d)
    (resultSection_display d) (resultSection_scrolls d)
    (loadingOverlay_display d) (loadingMessage_textContent d)
    (progressFill_width d) (downloadLink_href d) (downloadLink_download d)
    (rowCount_textContent d) v (cellCount_textContent d).
Definition set_cellCount_textContent (v : string) (d : DOM) : DOM :=
  mkDOM (fileInput_value d) (uploadArea_dragover d)
    (fileListContent_innerHTML d) (processBtn_disabled d)
    (imagePreview_innerHTML d) (tablePreview_innerHTML d)
    (resultSection_display d) (resultSection_scrolls d)
    (loadingOverlay_display d) (loadingMessage_textContent d)
    (progressFill_width d) (downloadLink_href d) (downloadLink_download d)
    (rowCount_textContent d) (colCount_textContent d) v.

(** ** Constants *)

Definition API_BASE_URL : string := "http://localhost:8000".

Definition validTypes : list string :=
  ["image/png"; "image/jpeg"; "image/jpg"; "image/bmp"; "image/tiff"].

Definition maxSize : Z := 10 * 1024 * 1024.

(** The request an exchange stands for: its URL, its method and, for an
    upload, the file sent as the [file] field of the form data. *)
Record Request := mkRequest {
  req_url : string;
  req_method : string;
  req_file : option File
}.

Definition request_of (x : Exchange) : Request :=
  match x with
  | XHealth _ => mkRequest (API_BASE_URL +:+ "/health") "GET" None
  | XUpload file _ => mkRequest (API_BASE_URL +:+ "/upload") "POST" (Some file)
  | XProcess url _ => mkRequest url "POST" None
  end.

(** ** Notifications *)

(** [showToast(message, type = 'info')] *)
Definition showToast (message type : string) (w : World) : World :=
  let backgroundColor :=
    if bool_decide (type = "success") then "#48bb78"
    else if bool_decide (type = "error") then "#f56565"
    else "#4299e1" in
  push_toast (mkToast message 3000 "top" "center" backgroundColor true) w.

(** The toast that [showToast(message, 'error')] raises. *)
Definition error_toast (message : string) : Toast :=
  mkToast message 3000 "top" "center" "#f56565" true.

(** The toast that [showToast(message, 'success')] raises. *)
Definition success_toast (message : string) : Toast :=
  mkToast message 3000 "top" "center" "#48bb78" true.

(** ** Rendering of the list, the trigger and the image preview *)

(** [updateFileList] *)
Definition updateFileList (w : World) : World :=
  if bool_decide (length (files (state w)) = 0%nat) then
    with_page (set_fileListContent_innerHTML EmptyMessage) w
  else
    with_page (set_fileListContent_innerHTML
      (FileItems (imap (fun index file => (index, file_name file, file_size file))
                       (files (state w))))) w.

(** [updateProcessButton] *)
Definition updateProcessButton (w : World) : World :=
  with_page (set_processBtn_disabled
    (bool_decide (length (files (state w)) = 0%nat) || processing (state w))) w.

(** [previewFirstImage]: with a file staged, a reader is started for the
    first one and the preview is left as it is until the reader loads. *)
Definition previewFirstImage (w : World) : World :=
  match files (state w) with
  | file :: _ => with_readers (fun rs => (rs ++ [file])%list) w
  | [] => with_page (set_imagePreview_innerHTML ImagePlaceholder) w
  end.

(** [reader.onload] of the pending reader number [k]: the preview shows
    the file the reader was started for, staged or not by now. *)
Definition reader_onload (k : nat) (w : World) : World :=
  match readers w !! k with
  | Some file =>
    with_page (set_imagePreview_innerHTML (ImageOf file))
      (with_readers (delete k) w)
  | None => w
  end.

(** The double-quote character of the markup. *)
Definition dq : string := String (Ascii.ascii_of_nat 34) EmptyString.

(** Placeholder markup of the table preview (layout whitespace left out). *)
Definition tablePlaceholder : string :=
  "<div class=" +:+ dq +:+ "preview-placeholder" +:+ dq +:+ ">"
  +:+ "<i class=" +:+ dq +:+ "fas fa-table" +:+ dq +:+ "></i>"
  +:+ "<p>识别结果将显示在这里</p></div>".

(** [clearPreviews] *)
Definition clearPreviews (w : World) : World :=
  with_page (set_tablePreview_innerHTML tablePlaceholder)
    (with_page (set_imagePreview_innerHTML ImagePlaceholder) w).

(** [hideResultSection] *)
Definition hideResultSection (w : World) : World :=
  with_page (set_resultSection_display "none") w.

(** [showLoading(message)], called with a non-empty message. *)
Definition showLoading (message : string) (w : World) : World :=
  with_page (set_loadingOverlay_display "flex")
    (with_page (set_progressFill_width (WidthLiteral "0%"))
      (with_page (set_loadingMessage_textContent
         (if bool_decide (message = EmptyString) then "正在处理中..." else message)) w)).

(** [hideLoading] *)
Definition hideLoading (w : World) : World :=
  with_page (set_loadingOverlay_display "none") w.

(** ** Validation and staging *)

(** The callback of [files.filter(...)] in [addFiles]: it answers whether
    the candidate is kept and raises a toast when it is not. *)
Definition validFile (file : File) (w : World) : bool * World :=
  if negb (bool_decide (file_type file ∈ validTypes)) then
    (false, showToast ("文件 " +:+ file_name file +:+ " 不是支持的图片格式") "error" w)
  else if bool_decide (maxSize < file_size file)%Z then
    (false, showToast ("文件 " +:+ file_name file +:+ " 太大，最大支持 10MB") "error" w)
  else (true, w).

(** [Array.prototype.filter] with a callback that has effects. *)
Fixpoint array_filter (callback : File -> World -> bool * World)
    (l : list File) (w : World) : list File * World :=
  match l with
  | [] => ([], w)
  | x :: l' =>
    let '(keep, w1) := callback x w in
    let '(rest, w2) := array_filter callback l' w1 in
    (if keep then x :: rest else rest, w2)
  end.

(** [f.name === file.name && f.size === file.size] *)
Definition sameFile (file f : File) : bool :=
  bool_decide (file_name f = file_name file)
  && bool_decide (file_size f = file_size file).

(** The callback of [validFiles.forEach(...)] in [addFiles]. *)
Definition stageFile (w : World) (file : File) : World :=
  let existingFile := List.find (sameFile file) (files (state w)) in
  match existingFile with
  | Some _ => w
  | None => with_state (fun s => set_files (files s ++ [file]) s) w
  end.

(** [addFiles(files)] *)
Definition addFiles (candidates : list File) (w : World) : World :=
  let '(validFiles, w1) := array_filter validFile candidates w in
  let w2 := fold_left stageFile validFiles w1 in
  previewFirstImage (updateProcessButton (updateFileList w2)).

(** [handleFileSelect(event)], with [event.target.files] as argument. *)
Definition handleFileSelect (selected : list File) (w : World) : World :=
  with_page (set_fileInput_value EmptyString) (addFiles selected w).

(** [handleDragOver], [handleDragLeave] and [handleDrop]. *)
Definition handleDragOver (w : World) : World :=
  with_page (set_uploadArea_dragover true) w.
Definition handleDragLeave (w : World) : World :=
  with_page (set_uploadArea_dragover false) w.
Definition handleDrop (dropped : list File) (w : World) : World :=
  addFiles dropped (with_page (set_uploadArea_dragover false) w).

(** ** Removal and clearing *)

(** [array.splice(index, 1)]: a negative start counts from the end, a start
    past the end removes nothing. *)
Definition splice1 {A : Type} (index : Z) (l : list A) : list A :=
  let len := Z.of_nat (length l) in
  let actualStart :=
    if bool_decide (index < 0)%Z then Z.max (len + index) 0 else Z.min index len in
  delete (Z.to_nat actualStart) l.

(** [removeFile(index)] *)
Definition removeFile (index : Z) (w : World) : World :=
  let w := with_state (fun s => set_files (splice1 index (files s)) s) w in
  let w := with_state (fun s =>
             set_uploadedFileIds (delete index (uploadedFileIds s)) s) w in
  previewFirstImage (updateProcessButton (updateFileList w)).

(** [clearFileList()] *)
Definition clearFileList (w : World) : World :=
  let w := with_state (set_files []) w in
  let w := with_state (set_uploadedFileIds ∅) w in
  hideResultSection (clearPreviews (updateProcessButton (updateFileList w))).

(** [handleProcessAnother()] *)
Definition handleProcessAnother (w : World) : World :=
  clearFileList (hideResultSection w).

(** ** Result rendering *)

(** One cell of the table: [`<${tag}>${cell || ''}</${tag}>`]. *)
Definition cellHTML (tag : string) (cell : option string) : string :=
  "<" +:+ tag +:+ ">" +:+ default EmptyString cell +:+ "</" +:+ tag +:+ ">".

(** The inner [row.forEach]: appends one cell after the other. *)
Definition forEach_cell (hasHeader : bool) (rowIndex : nat)
    (row : list (option string)) (tableHTML : string) : string :=
  fold_left (fun tableHTML cell =>
    let tag := if hasHeader && bool_decide (rowIndex = 0%nat) then "th" else "td" in
    tableHTML +:+ cellHTML tag cell) row tableHTML.

(** The outer [result.preview_data.forEach((row, rowIndex) => ...)]. *)
Fixpoint forEach_row (hasHeader : bool) (rows : list (list (option string)))
    (rowIndex : nat) (tableHTML : string) : string :=
  match rows with
  | [] => tableHTML
  | row :: rest =>
    let tableHTML := tableHTML +:+ "<tr>" in
    let tableHTML := forEach_cell hasHeader rowIndex row tableHTML in
    let tableHTML := tableHTML +:+ "</tr>" in
    forEach_row hasHeader rest (S rowIndex) tableHTML
  end.

(** [displayResult(result)] *)
Definition displayResult (result : ProcessResult) (w : World) : World :=
  let w :=
    match preview_data result with
    | Some grid =>
      if bool_decide (0 < length grid)%nat then
        let tableHTML := "<table>" in
        let hasHeader := bool_decide (1 < length grid)%nat in
        let tableHTML := forEach_row hasHeader grid 0 tableHTML in
        let tableHTML := tableHTML +:+ "</table>" in
        with_page (set_tablePreview_innerHTML tableHTML) w
      else w
    | None => w
    end in
  let rows := or_zero (round_double <$> row_count result) in
  let cols := or_zero (round_double <$> col_count result) in
  let w := with_page (set_rowCount_textContent (number_to_string rows)) w in
  let w := with_page (set_colCount_textContent (number_to_string cols)) w in
  let w := with_page (set_cellCount_textContent
             (number_to_string (number_mul rows cols))) w in
  let w :=
    match excel_url result with
    | Some url =>
      if bool_decide (url = EmptyString) then w
      else with_page (set_downloadLink_download "table.xlsx")
             (with_page (set_downloadLink_href (API_BASE_URL +:+ url)) w)
    | None => w
    end in
  let w := with_page (set_resultSection_display "block") w in
  with_page (fun d => set_resultSection_scrolls (S (resultSection_scrolls d)) d) w.

(** ** The batch routine *)

(** How a block of statements ends: normally with a value, or by throwing
    an [Error] (kept as its [message]). *)
Inductive Completion (A : Type) :=
| Normal (a : A)
| Throw (message : string).
Arguments Normal {A} a.
Arguments Throw {A} message.

(** Statements that read and write the world and may throw. *)
Definition M (A : Type) : Type := World -> Completion A * World.

Definition ret {A : Type} (a : A) : M A := fun w => (Normal a, w).

Definition throw {A : Type} (message : string) : M A := fun w => (Throw message, w).

Definition bind {A B : Type} (m : M A) (k : A -> M B) : M B :=
  fun w =>
    match m w with
    | (Normal a, w1) => k a w1
    | (Throw message, w1) => (Throw message, w1)
    end.

Definition exec (f : World -> World) : M unit := fun w => (Normal tt, f w).

Declare Scope js_scope.
Delimit Scope js_scope with js.
Notation "x <- m ;; k" := (bind m (fun x => k))
  (at level 100, m at next level, right associativity) : js_scope.
Notation "m ;; k" := (bind m (fun _ => k))
  (at level 100, right associativity) : js_scope.

(** [try { body } catch (error) { handler } finally { cleanup }] for
    a handler and a cleanup that do not throw. *)
Definition try_catch_finally {A : Type} (body : M A)
    (handler : string -> World -> World) (cleanup : World -> World)
    (w : World) : World :=
  match body w with
  | (Normal _, w1) => cleanup w1
  | (Throw message, w1) => cleanup (handler message w1)
  end.

(** A fulfilled [fetch]: the members of the response the client reads. *)
Record Response (A : Type) := mkResponse {
  ok : bool;
  statusText : string;
  json : string + A
}.
Arguments mkResponse {A} ok statusText json.
Arguments ok {A} r.
Arguments statusText {A} r.
Arguments json {A} r.

(** [await fetch(...)]: the exchange is recorded; a rejected promise throws. *)
Definition await_fetch {A : Type} (o : FetchOutcome A) (x : Exchange) : M (Response A) :=
  fun w =>
    match o with
    | Rejected message => (Throw message, push_exchange x w)
    | Responded ok statusText body =>
      (Normal (mkResponse ok statusText body), push_exchange x w)
    end.

(** [await fetch(`${API_BASE_URL}/upload`, { method: 'POST', body: formData })] *)
Definition fetch_upload (srv : Server) (file : File) : M (Response UploadJson) :=
  fun w =>
    let o := srv_upload srv (network w) file in
    await_fetch o (XUpload file o) w.

(** [await fetch(url, { method: 'POST' })] for a processing call. *)
Definition fetch_process (srv : Server) (url : string) : M (Response ProcessResult) :=
  fun w =>
    let o := srv_process srv (network w) url in
    await_fetch o (XProcess url o) w.

(** [await response.json()] *)
Definition await_json {A : Type} (response : Response A) : M A :=
  match json response with
  | inl message => throw message
  | inr a => ret a
  end.

(** An entry of the local array [uploadResults]. *)
Record UploadResult := mkUploadResult {
  ur_index : nat;
  ur_fileId : option string;
  ur_filename : option string
}.

(** An entry of the local array [processResults]. *)
Record ProcessEntry := mkProcessEntry {
  pe_index : nat;
  pe_result : ProcessResult
}.

(** A member interpolated in a template literal; an absent one reads
    [undefined]. *)
Definition interpolate (v : option string) : string := default "undefined" v.

(** [`${API_BASE_URL}/process?file_id=${fileId}&filename=${filename}`] *)
Definition process_url (fileId filename : option string) : string :=
  API_BASE_URL +:+ "/process?file_id=" +:+ interpolate fileId
  +:+ "&filename=" +:+ interpolate filename.

Local Open Scope js_scope.

(** The first loop, [for (let i = 0; i < state.files.length; i++)], entered
    at index [i] with [fuel] iterations allowed. *)
Fixpoint upload_loop (srv : Server) (fuel i : nat)
    (uploadResults : list UploadResult) : M (list UploadResult) :=
  match fuel with
  | O => ret uploadResults
  | S fuel =>
    fun w =>
      match files (state w) !! i with
      | None => ret uploadResults w
      | Some file =>
        (exec (with_page (set_progressFill_width
                 (WidthPercentOf i (length (files (state w)))))) ;;
         exec (with_page (set_loadingMessage_textContent
                 ("正在上传文件 " +:+ string_of_nat (i + 1) +:+ "/"
                  +:+ string_of_nat (length (files (state w))) +:+ "..."))) ;;
         response <- fetch_upload srv file ;;
         if negb (ok response) then
           throw ("上传失败: " +:+ statusText response)
         else
           result <- await_json response ;;
           upload_loop srv fuel (S i)
             (uploadResults ++ [mkUploadResult i (file_id result) (filename result)])) w
      end
  end.

(** The second loop, [for (let i = 0; i < uploadResults.length; i++)]. *)
Fixpoint process_loop (srv : Server) (uploadResults : list UploadResult)
    (fuel i : nat) (processResults : list ProcessEntry) : M (list ProcessEntry) :=
  match fuel with
  | O => ret processResults
  | S fuel =>
    match uploadResults !! i with
    | None => ret processResults
    | Some (mkUploadResult index fileId filename) =>
      exec (with_page (set_progressFill_width
              (WidthPercentOf (i + 1) (length uploadResults)))) ;;
      exec (with_page (set_loadingMessage_textContent
              ("正在处理文件 " +:+ string_of_nat (i + 1) +:+ "/"
               +:+ string_of_nat (length uploadResults) +:+ "..."))) ;;
      response <- fetch_process srv (process_url fileId filename) ;;
      if negb (ok response) then
        throw ("处理失败: " +:+ statusText response)
      else
        result <- await_json response ;;
        process_loop srv uploadResults fuel (S i)
          (processResults ++ [mkProcessEntry index result])
    end
  end.

(** The [try] block of [handleProcess]. *)
Definition handleProcess_try (srv : Server) : M unit :=
  fun w =>
    (uploadResults <- upload_loop srv (length (files (state w))) 0 [] ;;
     processResults <- process_loop srv uploadResults (length uploadResults) 0 [] ;;
     match processResults with
     | first :: _ => exec (displayResult (pe_result first))
     | [] => ret tt
     end ;;
     exec (showToast ("成功处理 " +:+ string_of_nat (length processResults)
                      +:+ " 个文件") "success")) w.

(** The [catch (error)] block. *)
Definition handleProcess_catch (message : string) (w : World) : World :=
  showToast ("处理失败: " +:+ message) "error"
    (push_console ("处理失败: " +:+ message) w).

(** The [finally] block. *)
Definition handleProcess_finally (w : World) : World :=
  hideLoading (updateProcessButton (with_state (set_processing false) w)).

(** [handleProcess()] *)
Definition handleProcess (srv : Server) (w : World) : World :=
  if bool_decide (length (files (state w)) = 0%nat) || processing (state w) then w
  else
    let w := with_state (set_processing true) w in
    let w := updateProcessButton w in
    let w := showLoading "正在上传文件..." w in
    try_catch_finally (handleProcess_try srv)
      handleProcess_catch handleProcess_finally w.

Local Close Scope js_scope.

(** ** Start-up and the events of a session *)

(** [checkServerStatus()] *)
Definition checkServerStatus (srv : Server) (w : World) : World :=
  let o := srv_health srv (network w) in
  let w := push_exchange (XHealth o) w in
  match o with
  | Responded true _ _ => push_console "服务器连接正常" w
  | Responded false _ _ =>
    showToast "服务器连接失败，请检查后端服务是否启动" "error" w
  | Rejected message =>
    showToast "无法连接到服务器，请确保后端服务正在运行" "error"
      (push_console ("服务器连接失败: " +:+ message) w)
  end.

(** The module's initial [state]. *)
Definition initial_state : State := mkState [] ∅ false.

(** The world once the page [d] has loaded and [init()] has run. *)
Definition init (srv : Server) (d : DOM) : World :=
  checkServerStatus srv (mkWorld initial_state d [] [] [] []).

(** What can happen: the listeners of [setupEventListeners], the exported
    [removeFile], and the load of a pending reader. *)
Inductive Event :=
| FileSelect (selected : list File)
| DragOver
| DragLeave
| Drop (dropped : list File)
| ClickRemove (index : Z)
| ClickClear
| ClickProcess
| ClickProcessAnother
| ReaderLoad (k : nat).

Definition dispatch (srv : Server) (e : Event) (w : World) : World :=
  match e with
  | FileSelect selected => handleFileSelect selected w
  | DragOver => handleDragOver w
  | DragLeave => handleDragLeave w
  | Drop dropped => handleDrop dropped w
  | ClickRemove index => removeFile index w
  | ClickClear => clearFileList w
  | ClickProcess => handleProcess srv w
  | ClickProcessAnother => handleProcessAnother w
  | ReaderLoad k => reader_onload k w
  end.

(** A session: the events [es] handled one after the other from start-up,
    a batch run being taken to its end before the next event. *)
Definition session (srv : Server) (d : DOM) (es : list Event) : World :=
  fold_left (fun w e => dispatch srv e w) es (init srv d).

(** ** The asynchronous routines, await by await

    [checkServerStatus] and [handleProcess] are [async]: each runs up to
    its next [await], and while it waits other listeners run.  Here the
    two routines are cut at their awaits.  A request is recorded, with the
    answer the backend will give to it, when it is sent. *)

(** [checkServerStatus] up to [await fetch(...)], and from there on. *)
Definition checkServerStatus_begin (srv : Server) (w : World)
    : World * FetchOutcome unit :=
  let o := srv_health srv (network w) in
  (push_exchange (XHealth o) w, o).

Definition checkServerStatus_resume (o : FetchOutcome unit) (w : World) : World :=
  match o with
  | Responded true _ _ => push_console "服务器连接正常" w
  | Responded false _ _ =>
    showToast "服务器连接失败，请检查后端服务是否启动" "error" w
  | Rejected message =>
    showToast "无法连接到服务器，请确保后端服务正在运行" "error"
      (push_console ("服务器连接失败: " +:+ message) w)
  end.

(** Where a suspended [handleProcess] waits, with its local variables: at
    [await fetch(...)] or at [await response.json()] in iteration [i] of
    the first loop or of the second. *)
Inductive Suspended :=
| AwaitUpload (i : nat) (uploadResults : list UploadResult)
    (o : FetchOutcome UploadJson)
| AwaitUploadJson (i : nat) (uploadResults : list UploadResult)
    (body : string + UploadJson)
| AwaitProcess (uploadResults : list UploadResult) (i : nat)
    (processResults : list ProcessEntry) (index : nat)
    (o : FetchOutcome ProcessResult)
| AwaitProcessJson (uploadResults : list UploadResult) (i : nat)
    (processResults : list ProcessEntry) (index : nat)
    (body : string + ProcessResult).

(** The run leaves the [try] block by an error: [catch], then [finally]. *)
Definition run_throws (message : string) (w : World) : World * option Suspended :=
  (handleProcess_finally (handleProcess_catch message w), None).

(** The statements after the second loop, then [finally]. *)
Definition run_completes (processResults : list ProcessEntry) (w : World)
    : World * option Suspended :=
  let w := match processResults with
           | first :: _ => displayResult (pe_result first) w
           | [] => w
           end in
  let w := showToast ("成功处理 " +:+ string_of_nat (length processResults)
                      +:+ " 个文件") "success" w in
  (handleProcess_finally w, None).

(** The second loop, from the test [i < uploadResults.length] to the next
    [await fetch(...)] or to the end of the run. *)
Definition process_from (srv : Server) (uploadResults : list UploadResult)
    (i : nat) (processResults : list ProcessEntry) (w : World)
    : World * option Suspended :=
  match uploadResults !! i with
  | None => run_completes processResults w
  | Some (mkUploadResult index fileId filename) =>
    let w := with_page (set_progressFill_width
               (WidthPercentOf (i + 1) (length uploadResults))) w in
    let w := with_page (set_loadingMessage_textContent
               ("正在处理文件 " +:+ string_of_nat (i + 1) +:+ "/"
                +:+ string_of_nat (length uploadResults) +:+ "...")) w in
    let url := process_url fileId filename in
    let o := srv_process srv (network w) url in
    (push_exchange (XProcess url o) w,
     Some (AwaitProcess uploadResults i processResults index o))
  end.

(** The first loop, from the test [i < state.files.length], which reads
    the staged list as it is by then, to the next [await fetch(...)]. *)
Definition upload_from (srv : Server) (i : nat)
    (uploadResults : list UploadResult) (w : World) : World * option Suspended :=
  match files (state w) !! i with
  | None => process_from srv uploadResults 0 [] w
  | Some file =>
    let n := length (files (state w)) in
    let w := with_page (set_progressFill_width (WidthPercentOf i n)) w in
    let w := with_page (set_loadingMessage_textContent
               ("正在上传文件 " +:+ string_of_nat (i + 1) +:+ "/"
                +:+ string_of_nat n +:+ "...")) w in
    let o := srv_upload srv (network w) file in
    (push_exchange (XUpload file o) w, Some (AwaitUpload i uploadResults o))
  end.

(** [handleProcess()] up to its first await. *)
Definition handleProcess_begin (srv : Server) (w : World)
    : World * option Suspended :=
  if bool_decide (length (files (state w)) = 0%nat) || processing (state w)
  then (w, None)
  else
    let w := with_state (set_processing true) w in
    let w := updateProcessButton w in
    let w := showLoading "正在上传文件..." w in
    upload_from srv 0 [] w.

(** A suspended run goes on, the promise it waits for being settled, up to
    its next await or to its end. *)
Definition handleProcess_resume (srv : Server) (r : Suspended) (w : World)
    : World * option Suspended :=
  match r with
  | AwaitUpload i uploadResults (Rejected message) => run_throws message w
  | AwaitUpload i uploadResults (Responded ok statusText body) =>
    if negb ok then run_throws ("上传失败: " +:+ statusText) w
    else (w, Some (AwaitUploadJson i uploadResults body))
  | AwaitUploadJson i uploadResults (inl message) => run_throws message w
  | AwaitUploadJson i uploadResults (inr result) =>
    upload_from srv (S i)
      (uploadResults ++ [mkUploadResult i (file_id result) (filename result)]) w
  | AwaitProcess uploadResults i processResults index (Rejected message) =>
    run_throws message w
  | AwaitProcess uploadResults i processResults index
      (Responded ok statusText body) =>
    if negb ok then run_throws ("处理失败: " +:+ statusText) w
    else (w, Some (AwaitProcessJson uploadResults i processResults index body))
  | AwaitProcessJson uploadResults i processResults index (inl message) =>
    run_throws message w
  | AwaitProcessJson uploadResults i processResults index (inr result) =>
    process_from srv uploadResults (S i)
      (processResults ++ [mkProcessEntry index result]) w
  end.

(** The client between two turns of the event loop: the world, the
    health check if it still waits, and the suspended runs. *)
Record Live := mkLive {
  current : World;
  health_check : option (FetchOutcome unit);
  in_flight : list Suspended
}.

(** A turn of the event loop: a listener runs, or the promise that the
    health check or the suspended run number [k] waits for is settled. *)
Inductive Turn :=
| Handled (e : Event)
| HealthSettles
| RunSettles (k : nat).

Definition live_step (srv : Server) (t : Turn) (l : Live) : Live :=
  match t with
  | Handled ClickProcess =>
    let '(w, r) := handleProcess_begin srv (current l) in
    mkLive w (health_check l) (in_flight l ++ option_list r)
  | Handled e => mkLive (dispatch srv e (current l)) (health_check l) (in_flight l)
  | HealthSettles =>
    match health_check l with
    | Some o => mkLive (checkServerStatus_resume o (current l)) None (in_flight l)
    | None => l
    end
  | RunSettles k =>
    match in_flight l !! k with
    | Some r =>
      let '(w, next) := handleProcess_resume srv r (current l) in
      mkLive w (health_check l)
        (match next with
         | Some r' => <[k := r']> (in_flight l)
         | None => delete k (in_flight l)
         end)
    | None => l
    end
  end.

(** The client once the page [d] has loaded: [init()] has sent the health
    check and waits for its answer. *)
Definition live_init (srv : Server) (d : DOM) : Live :=
  let '(w, o) := checkServerStatus_begin srv (mkWorld initial_state d [] [] [] []) in
  mkLive w (Some o) [].

(** A session turn by turn. *)
Definition live_session (srv : Server) (d : DOM) (turns : list Turn) : Live :=
  fold_left (fun l t => live_step srv t l) turns (live_init srv d).

(** * Notions used to state the properties *)

(** The pair on which staged files are compared. *)
Definition fileKey (f : File) : string * Z := (file_name f, file_size f).

(** The trigger is enabled exactly when there is something to process and
    no run is in flight. *)
Definition trigger_consistent (w : World) : Prop :=
  processBtn_disabled (page w) = false
  <-> files (state w) <> [] /\ processing (state w) = false.

(** ** Validation against the specification *)

(** The accepted image formats with the MIME names under which a browser
    reports them to the client: PNG, JPEG (as [image/jpeg] or
    [image/jpg]), BMP and TIFF. *)
Definition accepted_type (t : string) : Prop :=
  t = "image/png" \/ (t = "image/jpeg" \/ t = "image/jpg")
  \/ t = "image/bmp" \/ t = "image/tiff".

(** The rule of the specification: a candidate is rejected when its type is
    outside the accepted formats or its size exceeds 10 MiB. *)
Definition spec_rejects (f : File) : Prop :=
  ~ accepted_type (file_type f) \/ (10 * 1024 * 1024 < file_size f)%Z.

Global Instance accepted_type_dec (t : string) : Decision (accepted_type t).
Proof. unfold accepted_type. apply _. Defined.

Global Instance spec_rejects_dec (f : File) : Decision (spec_rejects f).
Proof. unfold spec_rejects. apply _. Defined.

(** The text of the notification raised for a rejected candidate. *)
Definition rejection_message (f : File) : string :=
  if bool_decide (file_type f ∈ validTypes)
  then "文件 " +:+ file_name f +:+ " 太大，最大支持 10MB"
  else "文件 " +:+ file_name f +:+ " 不是支持的图片格式".

(** The world with more notifications raised. *)
Definition add_toasts (ts : list Toast) (w : World) : World :=
  mkWorld (state w) (page w) (toasts w ++ ts) (console w) (network w) (readers w).

(** ** The staged list *)

(** The staged list after one candidate has gone through [stageFile]. *)
Definition staged_with (fs : list File) (file : File) : list File :=
  match List.find (sameFile file) fs with
  | Some _ => fs
  | None => fs ++ [file]
  end.

(** ** Exchanges of a batch run *)

(** An exchange in which the response was a success with a readable body. *)
Definition outcome_ok {A : Type} (o : FetchOutcome A) : bool :=
  match o with
  | Responded true _ (inr _) => true
  | _ => false
  end.

Definition exchange_ok (x : Exchange) : bool :=
  match x with
  | XHealth o => outcome_ok o
  | XUpload _ o => outcome_ok o
  | XProcess _ o => outcome_ok o
  end.

(** The message of the error that a failed exchange makes the run throw;
    [label] is the text put before the status of a non-success response. *)
Definition outcome_error {A : Type} (label : string) (o : FetchOutcome A) : string :=
  match o with
  | Rejected message => message
  | Responded false statusText _ => label +:+ statusText
  | Responded true _ (inl message) => message
  | Responded true _ (inr _) => EmptyString
  end.

(** The page with the two progress indicators of the overlay blanked. *)
Definition erase_progress (d : DOM) : DOM :=
  set_loadingMessage_textContent EmptyString
    (set_progressFill_width (WidthLiteral EmptyString) d).

(** What a loop may change: the progress indicators and the record of
    exchanges, nothing else. *)
Definition progress_only (w w' : World) : Prop :=
  state w' = state w /\ toasts w' = toasts w /\ console w' = console w
  /\ erase_progress (page w') = erase_progress (page w)
  /\ readers w' = readers w.

(** The exchanges of successful uploads of [fs] answered by [answers]. *)
Definition upload_exchanges (fs : list File) (answers : list (string * UploadJson))
    : list Exchange :=
  zip_with (fun f a => XUpload f (Responded true a.1 (inr a.2))) fs answers.

(** The entries collected from the answers, the first at index [i]. *)
Definition upload_entries (i : nat) (answers : list (string * UploadJson))
    : list UploadResult :=
  imap (fun k a => mkUploadResult (i + k) (file_id a.2) (filename a.2)) answers.

(** How the first loop ends in an error: the files before some staged file
    were uploaded with success, and the exchange for that file failed with
    the error that is thrown. *)
Definition upload_failed (fs : list File) (delta : list Exchange)
    (message : string) : Prop :=
  exists answers file o,
    fs !! length answers = Some file
    /\ delta = (upload_exchanges (take (length answers) fs) answers
               ++ [XUpload file o])%list
    /\ outcome_ok o = false
    /\ message = outcome_error "上传失败: " o.

(** The exchanges of successful processing calls for the entries [us]
    answered by [answers], and the results collected from them. *)
Definition process_exchanges (us : list UploadResult)
    (answers : list (string * ProcessResult)) : list Exchange :=
  zip_with (fun u a =>
    XProcess (process_url (ur_fileId u) (ur_filename u))
      (Responded true a.1 (inr a.2))) us answers.

Definition process_entries (us : list UploadResult)
    (answers : list (string * ProcessResult)) : list ProcessEntry :=
  zip_with (fun u a => mkProcessEntry (ur_index u) a.2) us answers.

(** How the second loop ends in an error. *)
Definition process_failed (us : list UploadResult) (delta : list Exchange)
    (message : string) : Prop :=
  exists answers u o,
    us !! length answers = Some u
    /\ delta = (process_exchanges (take (length answers) us) answers
               ++ [XProcess (process_url (ur_fileId u) (ur_filename u)) o])%list
    /\ outcome_ok o = false
    /\ message = outcome_error "处理失败: " o.

(** ** The rendered result *)

(** The part of the page that shows a result. *)
Definition result_view (d : DOM) :=
  (tablePreview_innerHTML d, rowCount_textContent d, colCount_textContent d,
   cellCount_textContent d, downloadLink_href d, downloadLink_download d,
   resultSection_display d, resultSection_scrolls d).

(** ** A batch run as a whole *)

(** The world in which the [try] block starts. *)
Definition started (w : World) : World :=
  showLoading "正在上传文件..."
    (updateProcessButton (with_state (set_processing true) w)).

(** The world a successful [try] block ends in: the first result, if any,
    is displayed on the world [w] the loops left, then the summary is
    raised for [n] results. *)
Definition completed (first : option ProcessResult) (n : nat) (w : World) : World :=
  showToast ("成功处理 " +:+ string_of_nat n +:+ " 个文件") "success"
    (match first with
     | Some result => displayResult result w
     | None => w
     end).

(** The exchanges made between two worlds of a session. *)
Definition run_exchanges (w w' : World) : list Exchange :=
  drop (length (network w)) (network w').

(** What a run that passes the guard leaves behind, on success and on
    failure. *)
Definition run_succeeded (w w' : World) (delta : list Exchange) : Prop :=
  exists uploads results,
    length uploads = length (files (state w))
    /\ length results = length (files (state w))
    /\ delta = (upload_exchanges (files (state w)) uploads
                ++ process_exchanges (upload_entries 0 uploads) results)%list
    /\ toasts w'
       = (toasts w ++ [success_toast ("成功处理 "
            +:+ string_of_nat (length (files (state w))) +:+ " 个文件")])%list
    /\ result_view (page w')
       = result_view (page (match head results with
                            | Some a => displayResult a.2 w
                            | None => w
                            end)).

Definition run_failed (w w' : World) (delta : list Exchange) : Prop :=
  exists message,
    toasts w' = (toasts w ++ [error_toast ("处理失败: " +:+ message)])%list
    /\ result_view (page w') = result_view (page w)
    /\ (upload_failed (files (state w)) delta message
        \/ exists uploads delta2,
             length uploads = length (files (state w))
             /\ delta = (upload_exchanges (files (state w)) uploads ++ delta2)%list
             /\ process_failed (upload_entries 0 uploads) delta2 message).

(** ** The table of the specification *)









(** ** A worked session *)

(** A page before anything has been shown. *)
Definition example_page : DOM :=
  mkDOM EmptyString false EmptyMessage true ImagePlaceholder tablePlaceholder
    "none" 0 "none" EmptyString (WidthLiteral "0%") "#" EmptyString "0" "0" "0".

Definition example_png : File := mkFile "x.png" 2097152 "image/png" [].
Definition example_jpg : File := mkFile "y.jpg" 4096 "image/jpeg" [].

Definition example_result : ProcessResult :=
  mkProcessResult (Some [[Some "H1"; Some "H2"]; [Some "v1"; Some "v2"]])
    (Some 2%Z) (Some 2%Z) (Some "/download/x.xlsx").


(** A backend that accepts every request. *)
Definition example_backend : Server :=
  mkServer
    (fun _ => Responded true "OK" (inr tt))
    (fun _ f => Responded true "OK" (inr (mkUploadJson (Some "a1") (Some (file_name f)))))
    (fun _ _ => Responded true "OK" (inr example_result)).

(** A backend that answers the second upload of a session with HTTP 500. *)
Definition example_failing_backend : Server :=
  mkServer
    (fun _ => Responded true "OK" (inr tt))
    (fun log f =>
       if bool_decide (length log = 2%nat)
       then Responded false "Internal Server Error" (inl "Unexpected token")
       else Responded true "OK" (inr (mkUploadJson (Some "a1") (Some (file_name f)))))
    (fun _ _ => Responded true "OK" (inr example_result)).

Definition example_gif : File := mkFile "z.gif" 512 "image/gif" [].
Definition example_huge : File := mkFile "big.png" 10485761 "image/png" [].
Definition example_limit : File := mkFile "limit.png" 10485760 "image/png" [].

(** Two files staged after start-up. *)
Definition example_staged (srv : Server) : World :=
  session srv example_page [FileSelect [example_png; example_jpg]].

(** One file staged after start-up. *)
Definition example_single : World :=
  session example_backend example_page [FileSelect [example_png]].

(** ** Notions for the further properties *)

(** The message of the error thrown for a failed exchange of a batch run. *)
Definition exchange_message (x : Exchange) : string :=
  match x with
  | XHealth o => outcome_error EmptyString o
  | XUpload _ o => outcome_error "上传失败: " o
  | XProcess _ o => outcome_error "处理失败: " o
  end.

(** The request that uploads [file]. *)
Definition upload_request (file : File) : Request :=
  mkRequest (API_BASE_URL +:+ "/upload") "POST" (Some file).

(** Whether an exchange is a processing call. *)
Definition is_process_call (x : Exchange) : bool :=
  match x with
  | XProcess _ _ => true
  | _ => false
  end.

(** Whether the health check of start-up got a success status. *)
Definition health_ok (o : FetchOutcome unit) : bool :=
  match o with
  | Responded true _ _ => true
  | _ => false
  end.

(** What the file list shows for a staged list. *)
Definition list_view (fs : list File) : FileListView :=
  match fs with
  | [] => EmptyMessage
  | _ :: _ =>
    FileItems (imap (fun index file => (index, file_name file, file_size file)) fs)
  end.

(** The list and the trigger show the session state: they agree with the
    staged files and the processing flag. *)
Definition display_synced (w : World) : Prop :=
  fileListContent_innerHTML (page w) = list_view (files (state w))
  /\ trigger_consistent w.

(** The events that end by rendering the list, the trigger and the
    preview anew. *)
Definition renders_list (e : Event) : bool :=
  match e with
  | FileSelect _ | Drop _ | ClickRemove _ | ClickClear | ClickProcessAnother => true
  | DragOver | DragLeave | ClickProcess | ReaderLoad _ => false
  end.

(** What an event does to the image preview and to the pending readers,
    from the world [w] to the world [w'] it leaves.  Rendering an empty
    list shows the placeholder at once; rendering a non-empty one starts a
    reader for the first staged file and shows nothing new yet; clearing
    shows the placeholder and starts nothing; the load of a reader shows
    the file it was started for. *)
Definition preview_step (e : Event) (w w' : World) : Prop :=
  match e with
  | FileSelect _ | Drop _ | ClickRemove _ =>
    match files (state w') with
    | [] =>
      imagePreview_innerHTML (page w') = ImagePlaceholder
      /\ readers w' = readers w
    | file :: _ =>
      imagePreview_innerHTML (page w') = imagePreview_innerHTML (page w)
      /\ readers w' = (readers w ++ [file])%list
    end
  | ClickClear | ClickProcessAnother =>
    imagePreview_innerHTML (page w') = ImagePlaceholder
    /\ readers w' = readers w
  | ReaderLoad k =>
    match readers w !! k with
    | Some file =>
      imagePreview_innerHTML (page w') = ImageOf file
      /\ readers w' = delete k (readers w)
      /\ state w' = state w
    | None => w' = w
    end
  | DragOver | DragLeave | ClickProcess =>
    imagePreview_innerHTML (page w') = imagePreview_innerHTML (page w)
    /\ readers w' = readers w
  end.

(** The page with everything a batch run may assign blanked. *)
Definition outside_run (d : DOM) : DOM :=
  mkDOM (fileInput_value d) (uploadArea_dragover d)
    (fileListContent_innerHTML d) false (imagePreview_innerHTML d)
    EmptyString EmptyString 0 EmptyString EmptyString (WidthLiteral EmptyString)
    EmptyString EmptyString EmptyString EmptyString EmptyString.

(** A backend whose processing endpoint answers the second call with
    HTTP 422, and one that cannot be reached for uploads. *)
Definition example_unprocessable_backend : Server :=
  mkServer
    (fun _ => Responded true "OK" (inr tt))
    (fun _ f => Responded true "OK" (inr (mkUploadJson (Some "a1") (Some (file_name f)))))
    (fun log _ =>
       if bool_decide (length log = 4%nat)
       then Responded false "Unprocessable Entity" (inl "Unexpected token")
       else Responded true "OK" (inr example_result)).

Definition example_unreachable_backend : Server :=
  mkServer
    (fun _ => Rejected "Failed to fetch")
    (fun _ _ => Rejected "Failed to fetch")
    (fun _ _ => Rejected "Failed to fetch").

(** ** Notions for runs in flight *)

(** The events among the turns of a session. *)
Definition events_of (turns : list Turn) : list Event :=
  omap (fun t => match t with Handled e => Some e | _ => None end) turns.

(** A run settled [n] times in a row, nothing else being handled. *)
Fixpoint settle (srv : Server) (n : nat) (c : World * option Suspended)
    : World * option Suspended :=
  match n, c with
  | S n, (w, Some r) => settle srv n (handleProcess_resume srv r w)
  | _, _ => c
  end.

(** The [try] block after the second loop, and after the first. *)
Definition after_loops (processResults : list ProcessEntry) : M unit :=
  bind (match processResults with
        | first :: _ => exec (displayResult (pe_result first))
        | [] => ret tt
        end)
    (fun _ => exec (showToast ("成功处理 " +:+ string_of_nat (length processResults)
                              +:+ " 个文件") "success")).

Definition after_uploads (srv : Server) (uploadResults : list UploadResult) : M unit :=
  bind (process_loop srv uploadResults (length uploadResults) 0 []) after_loops.

(** What a stretch of a run, from the world [w] to its next await or to
    its end, does to the session state: the staged list and the cache are
    left alone; if the run goes on, so are the flag and the trigger; if it
    ends, the flag is false. *)
Definition run_keeps (w : World) (c : World * option Suspended) : Prop :=
  files (state c.1) = files (state w)
  /\ uploadedFileIds (state c.1) = uploadedFileIds (state w)
  /\ match c.2 with
     | Some _ =>
       processing (state c.1) = processing (state w)
       /\ processBtn_disabled (page c.1) = processBtn_disabled (page w)
     | None => processing (state c.1) = false
     end.

(** What holds of the client between any two turns: as many runs are
    suspended as the processing flag says, one or none, and while one is
    the trigger is disabled. *)
Definition locked (l : Live) : Prop :=
  length (in_flight l) = (if processing (state (current l)) then 1 else 0)%nat
  /\ (processing (state (current l)) = true ->
      processBtn_disabled (page (current l)) = true).

(** * Properties *)

(** ** The process trigger *)

Lemma length_zero_decide {A : Type} (l : list A) :
  bool_decide (length l = 0%nat) = bool_decide (l = []).
Proof. destruct l; reflexivity. Qed.

Lemma updateProcessButton_disabled (w : World) :
  processBtn_disabled (page (updateProcessButton w))
  = bool_decide (files (state w) = []) || processing (state w).
Proof. unfold updateProcessButton. simpl. now rewrite length_zero_decide. Qed.

Lemma updateProcessButton_consistent (w : World) :
  trigger_consistent (updateProcessButton w).
Proof.
  unfold trigger_consistent. rewrite updateProcessButton_disabled.
  change (state (updateProcessButton w)) with (state w).
  destruct (files (state w)) as [|f l], (processing (state w)); simpl;
    split; try discriminate; try (intros [? ?]; congruence);
    intros _; split; congruence.
Qed.

Lemma trigger_consistent_ext (w w' : World) :
  state w' = state w ->
  processBtn_disabled (page w') = processBtn_disabled (page w) ->
  trigger_consistent w -> trigger_consistent w'.
Proof. unfold trigger_consistent. intros -> ->. trivial. Qed.

Lemma previewFirstImage_state (w : World) : state (previewFirstImage w) = state w.
Proof. unfold previewFirstImage. now destruct (files (state w)). Qed.

Lemma previewFirstImage_disabled (w : World) :
  processBtn_disabled (page (previewFirstImage w)) = processBtn_disabled (page w).
Proof. unfold previewFirstImage. now destruct (files (state w)). Qed.

Lemma previewFirstImage_toasts (w : World) : toasts (previewFirstImage w) = toasts w.
Proof. unfold previewFirstImage. now destruct (files (state w)). Qed.

Lemma previewFirstImage_network (w : World) :
  network (previewFirstImage w) = network w.
Proof. unfold previewFirstImage. now destruct (files (state w)). Qed.

Lemma updateFileList_network (w : World) : network (updateFileList w) = network w.
Proof. unfold updateFileList. now case_bool_decide. Qed.

Lemma updateFileList_state (w : World) : state (updateFileList w) = state w.
Proof. unfold updateFileList. now case_bool_decide. Qed.

Lemma updateFileList_toasts (w : World) : toasts (updateFileList w) = toasts w.
Proof. unfold updateFileList. now case_bool_decide. Qed.

Lemma addFiles_consistent (candidates : list File) (w : World) :
  trigger_consistent (addFiles candidates w).
Proof.
  unfold addFiles. destruct (array_filter validFile candidates w) as [validFiles w1].
  eapply trigger_consistent_ext;
    [apply previewFirstImage_state | apply previewFirstImage_disabled |].
  apply updateProcessButton_consistent.
Qed.

Lemma removeFile_consistent (index : Z) (w : World) :
  trigger_consistent (removeFile index w).
Proof.
  unfold removeFile.
  eapply trigger_consistent_ext;
    [apply previewFirstImage_state | apply previewFirstImage_disabled |].
  apply updateProcessButton_consistent.
Qed.

Lemma clearFileList_consistent (w : World) : trigger_consistent (clearFileList w).
Proof.
  unfold clearFileList, hideResultSection, clearPreviews.
  eapply trigger_consistent_ext; [| | apply updateProcessButton_consistent];
    reflexivity.
Qed.

(** C7. Each re-evaluation of the process trigger, [updateProcessButton],
    leaves it enabled if and only if the staged list is non-empty and the
    processing flag is false; the handlers that end by re-evaluating it
    (adding, removing, clearing) therefore leave it in that condition. *)
Theorem process_trigger_enabled_iff (w : World) :
  (processBtn_disabled (page (updateProcessButton w)) = false
   <-> files (state w) <> [] /\ processing (state w) = false)
  /\ state (updateProcessButton w) = state w
  /\ (forall candidates, trigger_consistent (addFiles candidates w))
  /\ (forall index, trigger_consistent (removeFile index w))
  /\ trigger_consistent (clearFileList w).
Proof.
  split; [apply (updateProcessButton_consistent w) |].
  split; [reflexivity |].
  split; [intros; apply addFiles_consistent |].
  split; [intros; apply removeFile_consistent | apply clearFileList_consistent].
Qed.

(** ** The guard of the batch routine *)

(** C8. With an empty staged list or with the processing flag set,
    [handleProcess] changes nothing: the session state, the page, the
    notifications and the record of requests are those it started with. *)
Theorem handleProcess_guard_noop (srv : Server) (w : World) :
  files (state w) = [] \/ processing (state w) = true ->
  handleProcess srv w = w
  /\ network (handleProcess srv w) = network w
  /\ state (handleProcess srv w) = state w
  /\ page (handleProcess srv w) = page w.
Proof.
  intros H.
  assert (E : handleProcess srv w = w).
  { unfold handleProcess. rewrite length_zero_decide.
    destruct H as [-> | ->]; [reflexivity |].
    now rewrite orb_true_r. }
  now rewrite E.
Qed.

(** ** Removal *)

Lemma splice1_in_range {A : Type} (index : Z) (l : list A) :
  (0 <= index < Z.of_nat (length l))%Z ->
  splice1 index l = delete (Z.to_nat index) l.
Proof.
  intros H. unfold splice1. rewrite bool_decide_eq_false_2 by lia.
  now rewrite Z.min_l by lia.
Qed.

Lemma removeFile_files (index : Z) (w : World) :
  files (state (removeFile index w)) = splice1 index (files (state w)).
Proof.
  unfold removeFile. rewrite previewFirstImage_state.
  change (state (updateProcessButton ?x)) with (state x).
  now rewrite updateFileList_state.
Qed.

(** C9. Removing index [i] with [0 <= i < n] from a staged list of length
    [n] leaves [n - 1] entries: those before [i] keep their index, those
    after it move down by one, so the order of the remaining entries is
    kept, and the entry that was at [i] no longer occurs (no two staged
    entries share name and size). *)
Theorem removeFile_in_range (index : Z) (w : World) :
  (0 <= index < Z.of_nat (length (files (state w))))%Z ->
  let l := files (state w) in
  let l' := files (state (removeFile index w)) in
  let i := Z.to_nat index in
  length l' = (length l - 1)%nat
  /\ l' = (take i l ++ drop (S i) l)%list
  /\ (forall j, (j < i)%nat -> l' !! j = l !! j)
  /\ (forall j, (i <= j)%nat -> l' !! j = l !! S j)
  /\ l' `sublist_of` l
  /\ (NoDup (fileKey <$> l) ->
      forall x, l !! i = Some x -> fileKey x ∉ fileKey <$> l').
Proof.
  intros H l l' i. subst l'. rewrite removeFile_files.
  rewrite splice1_in_range by exact H. fold l. fold i.
  assert (Hi : (i < length l)%nat) by (subst i l; lia).
  split. { apply length_delete. now apply lookup_lt_is_Some. }
  split. { apply delete_take_drop. }
  split. { intros j Hj. now apply list_lookup_delete_lt. }
  split. { intros j Hj. now apply list_lookup_delete_ge. }
  split. { apply sublist_delete. }
  intros Hnd x Hx.
  assert (P : fileKey <$> l ≡ₚ fileKey x :: (fileKey <$> delete i l)).
  { change (fileKey x :: (fileKey <$> delete i l))
      with (fileKey <$> (x :: delete i l)).
    apply fmap_Permutation. now apply delete_Permutation. }
  rewrite P in Hnd. now apply NoDup_cons in Hnd as [Hn _].
Qed.

(** ** Validation *)

Lemma validTypes_accepted (t : string) : t ∈ validTypes <-> accepted_type t.
Proof.
  unfold validTypes, accepted_type.
  rewrite !elem_of_cons, elem_of_nil. tauto.
Qed.

Lemma showToast_error (message : string) (w : World) :
  showToast message "error" w = push_toast (error_toast message) w.
Proof. reflexivity. Qed.

Lemma showToast_success (message : string) (w : World) :
  showToast message "success" w = push_toast (success_toast message) w.
Proof. reflexivity. Qed.

Lemma validFile_rejects (f : File) (w : World) :
  spec_rejects f ->
  validFile f w = (false, push_toast (error_toast (rejection_message f)) w).
Proof.
  intros H. unfold validFile, rejection_message.
  destruct (bool_decide_reflect (file_type f ∈ validTypes)) as [Hin | Hout]; simpl.
  - destruct H as [H | H]; [now rewrite validTypes_accepted in Hin |].
    now rewrite bool_decide_eq_true_2 by (unfold maxSize; lia).
  - reflexivity.
Qed.

Lemma validFile_accepts (f : File) (w : World) :
  ~ spec_rejects f -> validFile f w = (true, w).
Proof.
  intros H. unfold validFile.
  destruct (bool_decide_reflect (file_type f ∈ validTypes)) as [Hin | Hout]; simpl.
  - rewrite bool_decide_eq_false_2; [reflexivity |].
    intros Hs. apply H. right. unfold maxSize in Hs. lia.
  - exfalso. apply H. left. now rewrite <- validTypes_accepted.
Qed.

Lemma add_toasts_nil (w : World) : add_toasts [] w = w.
Proof. unfold add_toasts. rewrite app_nil_r. now destruct w. Qed.

Lemma add_toasts_push (t : Toast) (ts : list Toast) (w : World) :
  add_toasts ts (push_toast t w) = add_toasts (t :: ts) w.
Proof. unfold add_toasts, push_toast. simpl. now rewrite <- app_assoc. Qed.

(** The filter keeps the candidates the rule does not reject and raises
    one notification for each of the others, in order. *)
Lemma array_filter_validFile (candidates : list File) (w : World) :
  array_filter validFile candidates w
  = (filter (fun f => ~ spec_rejects f) candidates,
     add_toasts (error_toast ∘ rejection_message <$> filter spec_rejects candidates) w).
Proof.
  revert w. induction candidates as [|f l IH]; intros w; simpl.
  - now rewrite add_toasts_nil.
  - destruct (decide (spec_rejects f)) as [Hr | Ha].
    + rewrite (validFile_rejects f w Hr), IH.
      rewrite filter_cons_False by tauto.
      rewrite filter_cons_True by exact Hr.
      simpl. now rewrite add_toasts_push.
    + rewrite (validFile_accepts f w Ha), IH.
      rewrite filter_cons_True by exact Ha.
      now rewrite filter_cons_False by exact Ha.
Qed.

(** ** Staging *)

Lemma sameFile_true (file f : File) :
  sameFile file f = true <-> fileKey f = fileKey file.
Proof.
  unfold sameFile, fileKey. rewrite andb_true_iff, !bool_decide_eq_true.
  split; [intros [-> ->]; reflexivity | intros [= -> ->]; tauto].
Qed.

Lemma find_sameFile_Some (file : File) (fs : list File) :
  is_Some (List.find (sameFile file) fs) <-> fileKey file ∈ fileKey <$> fs.
Proof.
  rewrite list_elem_of_fmap. split.
  - intros [g Hg]. apply find_some in Hg as [Hin Hs].
    exists g. split; [symmetry; now apply sameFile_true | now apply list_elem_of_In].
  - intros (g & Hk & Hin).
    destruct (List.find (sameFile file) fs) eqn:E; [eauto |].
    apply list_elem_of_In in Hin.
    pose proof (find_none _ _ E g Hin) as Hn.
    assert (Ht : sameFile file g = true) by (now apply sameFile_true).
    congruence.
Qed.

Lemma staged_with_present (fs : list File) (file : File) :
  fileKey file ∈ fileKey <$> fs -> staged_with fs file = fs.
Proof.
  intros H. apply find_sameFile_Some in H as [g Hg].
  unfold staged_with. now rewrite Hg.
Qed.

Lemma staged_with_absent (fs : list File) (file : File) :
  fileKey file ∉ fileKey <$> fs -> staged_with fs file = (fs ++ [file])%list.
Proof.
  intros H. unfold staged_with.
  destruct (List.find (sameFile file) fs) eqn:E; [| reflexivity].
  exfalso. apply H, find_sameFile_Some. eauto.
Qed.

Lemma staged_with_NoDup (fs : list File) (file : File) :
  NoDup (fileKey <$> fs) -> NoDup (fileKey <$> staged_with fs file).
Proof.
  intros H. destruct (decide (fileKey file ∈ fileKey <$> fs)) as [Hin | Hout].
  - now rewrite staged_with_present.
  - rewrite staged_with_absent by exact Hout.
    rewrite fmap_app. apply NoDup_app. split; [exact H |].
    split; [| apply NoDup_singleton].
    intros k Hk Hk'. apply list_elem_of_singleton in Hk'. now subst k.
Qed.

Lemma staged_with_key (fs : list File) (file : File) :
  fileKey file ∈ fileKey <$> staged_with fs file.
Proof.
  destruct (decide (fileKey file ∈ fileKey <$> fs)) as [Hin | Hout].
  - now rewrite staged_with_present.
  - rewrite staged_with_absent by exact Hout.
    rewrite fmap_app. apply elem_of_app. right. apply list_elem_of_singleton.
    reflexivity.
Qed.

Lemma stageFile_files (w : World) (file : File) :
  files (state (stageFile w file)) = staged_with (files (state w)) file.
Proof.
  unfold stageFile, staged_with.
  now destruct (List.find (sameFile file) (files (state w))).
Qed.

Lemma stageFile_rest (w : World) (file : File) :
  uploadedFileIds (state (stageFile w file)) = uploadedFileIds (state w)
  /\ processing (state (stageFile w file)) = processing (state w)
  /\ toasts (stageFile w file) = toasts w
  /\ network (stageFile w file) = network w.
Proof.
  unfold stageFile.
  now destruct (List.find (sameFile file) (files (state w))).
Qed.

Lemma fold_stageFile_files (l : list File) (w : World) :
  files (state (fold_left stageFile l w))
  = fold_left staged_with l (files (state w)).
Proof.
  revert w. induction l as [|f l IH]; intros w; simpl; [reflexivity |].
  now rewrite IH, stageFile_files.
Qed.

Lemma fold_stageFile_rest (l : list File) (w : World) :
  uploadedFileIds (state (fold_left stageFile l w)) = uploadedFileIds (state w)
  /\ processing (state (fold_left stageFile l w)) = processing (state w)
  /\ toasts (fold_left stageFile l w) = toasts w
  /\ network (fold_left stageFile l w) = network w.
Proof.
  revert w. induction l as [|f l IH]; intros w; simpl; [tauto |].
  destruct (IH (stageFile w f)) as (-> & -> & -> & ->).
  apply stageFile_rest.
Qed.

Lemma fold_staged_with_NoDup (l fs : list File) :
  NoDup (fileKey <$> fs) -> NoDup (fileKey <$> fold_left staged_with l fs).
Proof.
  revert fs. induction l as [|f l IH]; intros fs H; simpl; [exact H |].
  apply IH. now apply staged_with_NoDup.
Qed.

(** What [addFiles] does to the staged list and to the notifications. *)
Lemma addFiles_files (candidates : list File) (w : World) :
  files (state (addFiles candidates w))
  = fold_left staged_with (filter (fun f => ~ spec_rejects f) candidates)
      (files (state w)).
Proof.
  unfold addFiles. rewrite array_filter_validFile.
  rewrite previewFirstImage_state.
  change (state (updateProcessButton ?x)) with (state x).
  rewrite updateFileList_state. now rewrite fold_stageFile_files.
Qed.

Lemma addFiles_toasts (candidates : list File) (w : World) :
  toasts (addFiles candidates w)
  = (toasts w ++ (error_toast ∘ rejection_message
                    <$> filter spec_rejects candidates))%list.
Proof.
  unfold addFiles. rewrite array_filter_validFile.
  rewrite previewFirstImage_toasts.
  change (toasts (updateProcessButton ?x)) with (toasts x).
  rewrite updateFileList_toasts.
  now destruct (fold_stageFile_rest
    (filter (fun f => ~ spec_rejects f) candidates)
    (add_toasts (error_toast ∘ rejection_message
                   <$> filter spec_rejects candidates) w)) as (_ & _ & -> & _).
Qed.

Lemma addFiles_rest (candidates : list File) (w : World) :
  uploadedFileIds (state (addFiles candidates w)) = uploadedFileIds (state w)
  /\ processing (state (addFiles candidates w)) = processing (state w)
  /\ network (addFiles candidates w) = network w.
Proof.
  unfold addFiles. rewrite array_filter_validFile.
  rewrite previewFirstImage_state.
  change (state (updateProcessButton ?x)) with (state x).
  rewrite updateFileList_state.
  destruct (fold_stageFile_rest
    (filter (fun f => ~ spec_rejects f) candidates)
    (add_toasts (error_toast ∘ rejection_message
                   <$> filter spec_rejects candidates) w)) as (-> & -> & _ & E).
  repeat split.
  rewrite previewFirstImage_network.
  change (network (updateProcessButton ?x)) with (network x).
  now rewrite updateFileList_network.
Qed.

Lemma filter_accepting_none (l : list File) :
  Forall spec_rejects l -> filter (fun f => ~ spec_rejects f) l = [].
Proof.
  induction 1 as [|f l Hf _ IH]; [reflexivity |].
  rewrite filter_cons_False by tauto. exact IH.
Qed.

(** C3. A candidate whose type is outside the accepted formats or whose
    size exceeds 10 MiB fails validation with exactly one error
    notification, and every other candidate passes without any; over a
    batch, the staged list is the one obtained from the passing candidates
    alone, one error notification is raised per rejected candidate, and a
    batch of rejected candidates leaves the staged list as it was. *)
Theorem validation_rejects_by_type_or_size (candidates : list File) (w : World) :
  (forall f w0, spec_rejects f ->
     exists message, validFile f w0 = (false, push_toast (error_toast message) w0))
  /\ (forall f w0, ~ spec_rejects f -> validFile f w0 = (true, w0))
  /\ files (state (addFiles candidates w))
     = files (state (addFiles (filter (fun f => ~ spec_rejects f) candidates) w))
  /\ (exists messages,
        toasts (addFiles candidates w) = (toasts w ++ (error_toast <$> messages))%list
        /\ length messages = length (filter spec_rejects candidates))
  /\ (Forall spec_rejects candidates ->
      files (state (addFiles candidates w)) = files (state w)).
Proof.
  split. { intros f w0 H. eexists. now apply validFile_rejects. }
  split. { intros f w0 H. now apply validFile_accepts. }
  split.
  { rewrite !addFiles_files. f_equal.
    symmetry. apply list_filter_filter_l. tauto. }
  split.
  { exists (rejection_message <$> filter spec_rejects candidates).
    rewrite addFiles_toasts, length_fmap. split; [| reflexivity].
    now rewrite <- list_fmap_compose. }
  intros Hall. rewrite addFiles_files.
  now rewrite filter_accepting_none by exact Hall.
Qed.

Lemma progress_only_refl (w : World) : progress_only w w.
Proof. unfold progress_only. tauto. Qed.

Lemma progress_only_trans (w1 w2 w3 : World) :
  progress_only w1 w2 -> progress_only w2 w3 -> progress_only w1 w3.
Proof.
  unfold progress_only.
  intros (-> & -> & -> & -> & ->) (-> & -> & -> & -> & ->). tauto.
Qed.

(** ** The two request loops *)

Lemma upload_failed_cons (f : File) (fs : list File) (st : string)
    (u : UploadJson) (delta : list Exchange) (message : string) :
  upload_failed fs delta message ->
  upload_failed (f :: fs) (XUpload f (Responded true st (inr u)) :: delta) message.
Proof.
  intros (answers & file & o & Hk & -> & Ho & ->).
  exists ((st, u) :: answers), file, o. repeat split; assumption.
Qed.

Lemma upload_failed_first (f : File) (fs : list File) (o : FetchOutcome UploadJson) :
  outcome_ok o = false ->
  upload_failed (f :: fs) [XUpload f o] (outcome_error "上传失败: " o).
Proof. intros H. exists [], f, o. repeat split. exact H. Qed.

Lemma upload_entries_cons (i : nat) (a : string * UploadJson)
    (answers : list (string * UploadJson)) :
  upload_entries i (a :: answers)
  = mkUploadResult i (file_id a.2) (filename a.2) :: upload_entries (S i) answers.
Proof.
  unfold upload_entries. simpl. rewrite Nat.add_0_r. f_equal.
  apply imap_ext. intros k b _. simpl. f_equal. lia.
Qed.

(** One iteration of the first loop. *)
Section BatchRun.

(** The backend the run talks to. *)
Variable srv : Server.

Lemma upload_loop_step (fuel i : nat) (acc : list UploadResult)
    (w : World) (file : File) :
  files (state w) !! i = Some file ->
  upload_loop srv (S fuel) i acc w
  = let w1 :=
      with_page (set_loadingMessage_textContent
        ("正在上传文件 " +:+ string_of_nat (i + 1) +:+ "/"
         +:+ string_of_nat (length (files (state w))) +:+ "..."))
        (with_page (set_progressFill_width
           (WidthPercentOf i (length (files (state w))))) w) in
    let o := srv_upload srv (network w) file in
    let w2 := push_exchange (XUpload file o) w1 in
    match o with
    | Responded true _ (inr result) =>
      upload_loop srv fuel (S i)
        (acc ++ [mkUploadResult i (file_id result) (filename result)]) w2
    | _ => (Throw (outcome_error "上传失败: " o), w2)
    end.
Proof.
  intros Ei. cbn [upload_loop]. rewrite Ei.
  unfold bind, exec, fetch_upload, await_fetch, await_json, throw, ret.
  cbn [network with_page].
  destruct (srv_upload srv (network w) file) as [m | [|] st [m | u]];
    reflexivity.
Qed.

Lemma upload_loop_done (fuel i : nat) (acc : list UploadResult)
    (w : World) :
  fuel = 0%nat \/ files (state w) !! i = None ->
  upload_loop srv fuel i acc w = (Normal acc, w).
Proof.
  intros [-> | Ei]; [reflexivity |].
  destruct fuel; [reflexivity |]. cbn [upload_loop]. now rewrite Ei.
Qed.

(** Fuel beyond the number of staged files left is never used: the loop
    ends on its own condition. *)
Lemma upload_loop_fuel (fuel extra i : nat) (acc : list UploadResult) (w : World) :
  (length (files (state w)) <= i + fuel)%nat ->
  upload_loop srv (fuel + extra) i acc w = upload_loop srv fuel i acc w.
Proof.
  revert i acc w. induction fuel as [|fuel IH]; intros i acc w H.
  - rewrite !upload_loop_done; [reflexivity | tauto |].
    right. apply lookup_ge_None. lia.
  - destruct (files (state w) !! i) as [file|] eqn:Ei.
    2:{ now rewrite !upload_loop_done by tauto. }
    change (S fuel + extra)%nat with (S (fuel + extra)).
    rewrite !(upload_loop_step _ _ _ _ _ Ei). cbv zeta.
    destruct (srv_upload srv (network w) file) as [m | [|] st [m | u]];
      try reflexivity.
    apply IH. cbn [state push_exchange with_page files]. lia.
Qed.

Lemma upload_loop_spec (fuel i : nat) (acc : list UploadResult)
    (w : World) (r : Completion (list UploadResult)) (w' : World) :
  upload_loop srv fuel i acc w = (r, w') ->
  progress_only w w'
  /\ exists delta, network w' = (network w ++ delta)%list
     /\ match r with
        | Normal acc' =>
          exists answers,
            let fs := take fuel (drop i (files (state w))) in
            length answers = length fs
            /\ delta = upload_exchanges fs answers
            /\ acc' = (acc ++ upload_entries i answers)%list
        | Throw message =>
          upload_failed (take fuel (drop i (files (state w)))) delta message
        end.
Proof.
  revert i acc w. induction fuel as [|fuel IH]; intros i acc w E.
  - rewrite upload_loop_done in E by tauto. injection E as <- <-.
    split; [apply progress_only_refl |].
    exists []. rewrite app_nil_r. split; [reflexivity |].
    exists []. simpl. now rewrite app_nil_r.
  - destruct (files (state w) !! i) as [file|] eqn:Ei.
    2:{ rewrite upload_loop_done in E by tauto. injection E as <- <-.
        split; [apply progress_only_refl |].
        exists []. rewrite app_nil_r. split; [reflexivity |].
        exists []. rewrite drop_ge by (now apply lookup_ge_None).
        rewrite take_nil. simpl. now rewrite app_nil_r. }
    rewrite (upload_loop_step _ _ _ _ _ Ei) in E. cbv zeta in E.
    set (o := srv_upload srv (network w) file) in E.
    set (w2 := push_exchange (XUpload file o) _) in E.
    assert (P2 : progress_only w w2) by (unfold progress_only; subst w2; simpl; tauto).
    assert (N2 : network w2 = (network w ++ [XUpload file o])%list) by reflexivity.
    assert (F2 : files (state w2) = files (state w)) by reflexivity.
    clearbody w2.
    assert (Hfail : outcome_ok o = false ->
              (r, w') = (Throw (outcome_error "上传失败: " o), w2) ->
              progress_only w w' /\ exists delta,
                network w' = (network w ++ delta)%list
                /\ match r with
                   | Normal acc' =>
                     exists answers,
                       let fs := take (S fuel) (drop i (files (state w))) in
                       length answers = length fs
                       /\ delta = upload_exchanges fs answers
                       /\ acc' = (acc ++ upload_entries i answers)%list
                   | Throw message =>
                     upload_failed (take (S fuel) (drop i (files (state w))))
                       delta message
                   end).
    { intros Hbad [= -> ->]. split; [exact P2 |].
      exists [XUpload file o]. split; [exact N2 |].
      rewrite (drop_S _ _ _ Ei). cbn [take].
      now apply upload_failed_first. }
    destruct o as [m | [|] st [m | u]] eqn:Eo;
      try (apply Hfail; [reflexivity | now symmetry]).
    clear Hfail. apply IH in E as (P3 & delta & Hn & Hr).
    split; [eapply progress_only_trans; eassumption |].
    exists (XUpload file (Responded true st (inr u)) :: delta). split.
    { rewrite Hn, N2. now rewrite <- app_assoc. }
    rewrite F2 in Hr. rewrite (drop_S _ _ _ Ei). cbn [take].
    destruct r as [acc' | message].
    + destruct Hr as (answers & Hl & Hd & Ha).
      exists ((st, u) :: answers).
      split; [simpl; now rewrite Hl |].
      split; [subst delta; reflexivity |].
      rewrite Ha. rewrite <- app_assoc. simpl.
      now rewrite upload_entries_cons.
    + now apply upload_failed_cons.
Qed.

Lemma process_failed_cons (u : UploadResult) (us : list UploadResult)
    (st : string) (p : ProcessResult) (delta : list Exchange) (message : string) :
  process_failed us delta message ->
  process_failed (u :: us)
    (XProcess (process_url (ur_fileId u) (ur_filename u))
       (Responded true st (inr p)) :: delta) message.
Proof.
  intros (answers & u' & o & Hk & -> & Ho & ->).
  exists ((st, p) :: answers), u', o. repeat split; assumption.
Qed.

Lemma process_failed_first (u : UploadResult) (us : list UploadResult)
    (o : FetchOutcome ProcessResult) :
  outcome_ok o = false ->
  process_failed (u :: us)
    [XProcess (process_url (ur_fileId u) (ur_filename u)) o]
    (outcome_error "处理失败: " o).
Proof. intros H. exists [], u, o. repeat split. exact H. Qed.

(** One iteration of the second loop. *)
Lemma process_loop_step (ups : list UploadResult) (fuel i : nat)
    (acc : list ProcessEntry) (w : World) (u : UploadResult) :
  ups !! i = Some u ->
  process_loop srv ups (S fuel) i acc w
  = let w1 :=
      with_page (set_loadingMessage_textContent
        ("正在处理文件 " +:+ string_of_nat (i + 1) +:+ "/"
         +:+ string_of_nat (length ups) +:+ "..."))
        (with_page (set_progressFill_width
           (WidthPercentOf (i + 1) (length ups))) w) in
    let url := process_url (ur_fileId u) (ur_filename u) in
    let o := srv_process srv (network w) url in
    let w2 := push_exchange (XProcess url o) w1 in
    match o with
    | Responded true _ (inr result) =>
      process_loop srv ups fuel (S i)
        (acc ++ [mkProcessEntry (ur_index u) result]) w2
    | _ => (Throw (outcome_error "处理失败: " o), w2)
    end.
Proof.
  intros Ei. cbn [process_loop]. rewrite Ei. destruct u as [index fileId name].
  unfold bind, exec, fetch_process, await_fetch, await_json, throw, ret.
  cbn [network with_page ur_fileId ur_filename ur_index].
  destruct (srv_process srv (network w) (process_url fileId name))
    as [m | [|] st [m | p]]; reflexivity.
Qed.

Lemma process_loop_done (ups : list UploadResult) (fuel i : nat)
    (acc : list ProcessEntry) (w : World) :
  fuel = 0%nat \/ ups !! i = None ->
  process_loop srv ups fuel i acc w = (Normal acc, w).
Proof.
  intros [-> | Ei]; [reflexivity |].
  destruct fuel; [reflexivity |]. cbn [process_loop]. now rewrite Ei.
Qed.

Lemma process_loop_fuel (ups : list UploadResult) (fuel extra i : nat)
    (acc : list ProcessEntry) (w : World) :
  (length ups <= i + fuel)%nat ->
  process_loop srv ups (fuel + extra) i acc w = process_loop srv ups fuel i acc w.
Proof.
  revert i acc w. induction fuel as [|fuel IH]; intros i acc w H.
  - rewrite !process_loop_done; [reflexivity | tauto |].
    right. apply lookup_ge_None. lia.
  - destruct (ups !! i) as [u|] eqn:Ei.
    2:{ now rewrite !process_loop_done by tauto. }
    change (S fuel + extra)%nat with (S (fuel + extra)).
    rewrite !(process_loop_step _ _ _ _ _ _ Ei). cbv zeta.
    destruct (srv_process srv (network w) _) as [m | [|] st [m | p]];
      try reflexivity.
    apply IH. lia.
Qed.

Lemma process_loop_spec (ups : list UploadResult) (fuel i : nat)
    (acc : list ProcessEntry) (w : World)
    (r : Completion (list ProcessEntry)) (w' : World) :
  process_loop srv ups fuel i acc w = (r, w') ->
  progress_only w w'
  /\ exists delta, network w' = (network w ++ delta)%list
     /\ match r with
        | Normal acc' =>
          exists answers,
            let us := take fuel (drop i ups) in
            length answers = length us
            /\ delta = process_exchanges us answers
            /\ acc' = (acc ++ process_entries us answers)%list
        | Throw message => process_failed (take fuel (drop i ups)) delta message
        end.
Proof.
  revert i acc w. induction fuel as [|fuel IH]; intros i acc w E.
  - rewrite process_loop_done in E by tauto. injection E as <- <-.
    split; [apply progress_only_refl |].
    exists []. rewrite app_nil_r. split; [reflexivity |].
    exists []. simpl. now rewrite app_nil_r.
  - destruct (ups !! i) as [u|] eqn:Ei.
    2:{ rewrite process_loop_done in E by tauto. injection E as <- <-.
        split; [apply progress_only_refl |].
        exists []. rewrite app_nil_r. split; [reflexivity |].
        exists []. rewrite drop_ge by (now apply lookup_ge_None).
        rewrite take_nil. simpl. now rewrite app_nil_r. }
    rewrite (process_loop_step _ _ _ _ _ _ Ei) in E. cbv zeta in E.
    set (url := process_url (ur_fileId u) (ur_filename u)) in E.
    set (o := srv_process srv (network w) url) in E.
    set (w2 := push_exchange (XProcess url o) _) in E.
    assert (P2 : progress_only w w2) by (unfold progress_only; subst w2; simpl; tauto).
    assert (N2 : network w2 = (network w ++ [XProcess url o])%list) by reflexivity.
    clearbody w2.
    destruct o as [m | [|] st [m | p]] eqn:Eo.
    3:{ apply IH in E as (P3 & delta & Hn & Hr).
        split; [eapply progress_only_trans; eassumption |].
        exists (XProcess url (Responded true st (inr p)) :: delta). split.
        { rewrite Hn, N2. now rewrite <- app_assoc. }
        rewrite (drop_S _ _ _ Ei). cbn [take].
        destruct r as [acc' | message].
        - destruct Hr as (answers & Hl & Hd & Ha).
          exists ((st, p) :: answers).
          split; [simpl; now rewrite Hl |].
          split; [subst delta; reflexivity |].
          rewrite Ha. now rewrite <- app_assoc.
        - now apply process_failed_cons. }
    all: injection E as <- <-; (split; [exact P2 |]);
      eexists; (split; [exact N2 |]);
      rewrite (drop_S _ _ _ Ei); cbn [take];
      match goal with
      | |- process_failed _ [XProcess _ ?o] _ =>
        exact (process_failed_first u _ o eq_refl)
      end.
Qed.

Lemma upload_exchanges_ok (fs : list File) (answers : list (string * UploadJson)) :
  Forall (fun x => exchange_ok x = true) (upload_exchanges fs answers).
Proof.
  revert answers. induction fs as [|f fs IH]; intros [|a answers];
    try constructor; [reflexivity | apply IH].
Qed.

Lemma process_exchanges_ok (us : list UploadResult)
    (answers : list (string * ProcessResult)) :
  Forall (fun x => exchange_ok x = true) (process_exchanges us answers).
Proof.
  revert answers. induction us as [|u us IH]; intros [|a answers];
    try constructor; [reflexivity | apply IH].
Qed.

Lemma upload_entries_length (i : nat) (answers : list (string * UploadJson)) :
  length (upload_entries i answers) = length answers.
Proof. unfold upload_entries. apply length_imap. Qed.

Lemma erase_progress_result_view (d d' : DOM) :
  erase_progress d' = erase_progress d -> result_view d' = result_view d.
Proof. intros H. apply (f_equal result_view) in H. exact H. Qed.

Lemma displayResult_frame (result : ProcessResult) (w : World) :
  state (displayResult result w) = state w
  /\ toasts (displayResult result w) = toasts w
  /\ console (displayResult result w) = console w
  /\ network (displayResult result w) = network w
  /\ processBtn_disabled (page (displayResult result w)) = processBtn_disabled (page w)
  /\ loadingOverlay_display (page (displayResult result w))
     = loadingOverlay_display (page w).
Proof.
  unfold displayResult.
  destruct (preview_data result) as [grid|]; [case_bool_decide |];
    (destruct (excel_url result) as [url|]; [case_bool_decide |]);
    repeat split.
Qed.

Lemma displayResult_view (result : ProcessResult) (w1 w2 : World) :
  result_view (page w1) = result_view (page w2) ->
  result_view (page (displayResult result w1))
  = result_view (page (displayResult result w2)).
Proof.
  unfold result_view. intros [= H1 H2 H3 H4 H5 H6 H7 H8]. unfold displayResult.
  destruct (preview_data result) as [grid|]; [case_bool_decide |];
    (destruct (excel_url result) as [url|]; [case_bool_decide |]);
    cbn; congruence.
Qed.

(** ** A batch run as a whole *)

Lemma handleProcess_run (w : World) :
  files (state w) <> [] -> processing (state w) = false ->
  handleProcess srv w
  = try_catch_finally (handleProcess_try srv)
      handleProcess_catch handleProcess_finally (started w).
Proof.
  intros Hf Hp. unfold handleProcess. rewrite length_zero_decide, Hp.
  now rewrite bool_decide_eq_false_2 by exact Hf.
Qed.

Lemma completed_frame (first : option ProcessResult) (n : nat) (w : World) :
  state (completed first n w) = state w
  /\ network (completed first n w) = network w
  /\ console (completed first n w) = console w
  /\ toasts (completed first n w)
     = (toasts w ++ [success_toast ("成功处理 " +:+ string_of_nat n +:+ " 个文件")])%list.
Proof.
  unfold completed. rewrite showToast_success.
  destruct first as [result|]; cbn [state network console toasts push_toast];
    [destruct (displayResult_frame result w) as (-> & -> & -> & -> & _) |];
    repeat split.
Qed.

Lemma handleProcess_try_spec (w : World)
    (r : Completion unit) (w' : World) :
  handleProcess_try srv w = (r, w') ->
  exists delta, network w' = (network w ++ delta)%list
    /\ match r with
       | Normal _ =>
         exists uploads results wl,
           length uploads = length (files (state w))
           /\ length results = length uploads
           /\ delta = (upload_exchanges (files (state w)) uploads
                       ++ process_exchanges (upload_entries 0 uploads) results)%list
           /\ progress_only w wl
           /\ network wl = (network w ++ delta)%list
           /\ w' = completed (snd <$> head results) (length results) wl
       | Throw message =>
         progress_only w w'
         /\ (upload_failed (files (state w)) delta message
             \/ exists uploads delta2,
                  length uploads = length (files (state w))
                  /\ delta = (upload_exchanges (files (state w)) uploads
                              ++ delta2)%list
                  /\ process_failed (upload_entries 0 uploads) delta2 message)
       end.
Proof.
  unfold handleProcess_try. unfold bind at 1.
  destruct (upload_loop srv (length (files (state w))) 0 [] w) as [r1 w1] eqn:E1.
  apply upload_loop_spec in E1 as (P1 & d1 & N1 & H1).
  destruct r1 as [ups | message].
  2:{ intros [= <- <-]. exists d1. rewrite drop_0, firstn_all in H1. tauto. }
  destruct H1 as (uploads & Hl1 & Hd1 & Hups). simpl in Hups.
  rewrite drop_0, firstn_all in Hl1, Hd1. subst d1.
  unfold bind at 1.
  destruct (process_loop srv ups (length ups) 0 [] w1) as [r2 w2] eqn:E2.
  apply process_loop_spec in E2 as (P2 & d2 & N2 & H2).
  destruct r2 as [prs | message].
  2:{ intros [= <- <-]. eexists. split.
      { rewrite N2, N1, <- app_assoc. reflexivity. }
      split; [eapply progress_only_trans; eassumption |].
      right. exists uploads, d2. rewrite drop_0, firstn_all in H2.
      subst ups. tauto. }
  destruct H2 as (results & Hl2 & Hd2 & Hprs). simpl in Hprs.
  rewrite drop_0, firstn_all in Hl2, Hd2, Hprs. subst d2.
  assert (Hn : network w2
    = (network w ++ upload_exchanges (files (state w)) uploads
       ++ process_exchanges ups results)%list).
  { rewrite N2, N1, <- app_assoc. reflexivity. }
  assert (Hlen : length prs = length results).
  { subst prs. unfold process_entries. rewrite length_zip_with. lia. }
  assert (Hlu : length ups = length uploads).
  { subst ups. apply upload_entries_length. }
  assert (Hhead : (pe_result <$> head prs) = (snd <$> head results)).
  { subst prs. destruct ups as [|u ups'], results as [|a results'];
      simpl in *; try reflexivity; lia. }
  intros E.
  assert (E' : (r, w')
    = (Normal tt, completed (pe_result <$> head prs) (length prs) w2)).
  { rewrite <- E. destruct prs; reflexivity. }
  injection E' as -> ->. clear E.
  exists (upload_exchanges (files (state w)) uploads
          ++ process_exchanges ups results)%list.
  split.
  { destruct (completed_frame (pe_result <$> head prs) (length prs) w2)
      as (_ & -> & _). exact Hn. }
  exists uploads, results, w2.
  split; [exact Hl1 |]. split; [now rewrite Hl2, Hlu |].
  split; [now subst ups |].
  split; [eapply progress_only_trans; eassumption |].
  split; [exact Hn |].
  now rewrite <- Hhead, <- Hlen.
Qed.

Lemma started_frame (w : World) :
  files (state (started w)) = files (state w)
  /\ uploadedFileIds (state (started w)) = uploadedFileIds (state w)
  /\ processing (state (started w)) = true
  /\ toasts (started w) = toasts w
  /\ console (started w) = console w
  /\ network (started w) = network w
  /\ result_view (page (started w)) = result_view (page w).
Proof. unfold started. repeat split. Qed.

Lemma handleProcess_finally_frame (w : World) :
  files (state (handleProcess_finally w)) = files (state w)
  /\ uploadedFileIds (state (handleProcess_finally w)) = uploadedFileIds (state w)
  /\ processing (state (handleProcess_finally w)) = false
  /\ toasts (handleProcess_finally w) = toasts w
  /\ console (handleProcess_finally w) = console w
  /\ network (handleProcess_finally w) = network w
  /\ result_view (page (handleProcess_finally w)) = result_view (page w)
  /\ processBtn_disabled (page (handleProcess_finally w))
     = bool_decide (files (state w) = [])
  /\ loadingOverlay_display (page (handleProcess_finally w)) = "none".
Proof.
  unfold handleProcess_finally, hideLoading. repeat split.
  cbn. rewrite length_zero_decide. apply orb_false_r.
Qed.

Lemma handleProcess_catch_frame (message : string) (w : World) :
  state (handleProcess_catch message w) = state w
  /\ network (handleProcess_catch message w) = network w
  /\ page (handleProcess_catch message w) = page w
  /\ toasts (handleProcess_catch message w)
     = (toasts w ++ [error_toast ("处理失败: " +:+ message)])%list.
Proof. unfold handleProcess_catch. rewrite showToast_error. repeat split. Qed.

Lemma run_exchanges_app (w w' : World) (delta : list Exchange) :
  network w' = (network w ++ delta)%list -> run_exchanges w w' = delta.
Proof. intros H. unfold run_exchanges. rewrite H. apply drop_app_length. Qed.

Lemma progress_only_frame (w w' : World) :
  progress_only w w' ->
  state w' = state w /\ toasts w' = toasts w /\ console w' = console w
  /\ result_view (page w') = result_view (page w)
  /\ processBtn_disabled (page w') = processBtn_disabled (page w)
  /\ loadingOverlay_display (page w') = loadingOverlay_display (page w).
Proof.
  intros (Hs & Ht & Hc & Hp & _). repeat split; try assumption.
  - now apply erase_progress_result_view.
  - apply (f_equal processBtn_disabled) in Hp. exact Hp.
  - apply (f_equal loadingOverlay_display) in Hp. exact Hp.
Qed.

Lemma handleProcess_cases (w : World) :
  files (state w) <> [] -> processing (state w) = false ->
  exists delta w0,
    handleProcess srv w = handleProcess_finally w0
    /\ network (handleProcess srv w) = (network w ++ delta)%list
    /\ files (state (handleProcess srv w)) = files (state w)
    /\ uploadedFileIds (state (handleProcess srv w)) = uploadedFileIds (state w)
    /\ processing (state (handleProcess srv w)) = false
    /\ processBtn_disabled (page (handleProcess srv w)) = false
    /\ loadingOverlay_display (page (handleProcess srv w)) = "none"
    /\ (run_succeeded w (handleProcess srv w) delta
        \/ run_failed w (handleProcess srv w) delta).
Proof.
  intros Hf Hp. rewrite (handleProcess_run w Hf Hp).
  unfold try_catch_finally.
  destruct (started_frame w) as (Sf & Su & _ & St & _ & Sn & Sv).
  destruct (handleProcess_try srv (started w)) as [r wt] eqn:E.
  apply handleProcess_try_spec in E as (delta & Hn & Hr).
  rewrite Sn in Hn. exists delta.
  destruct r as [[]|message].
  - destruct Hr as (uploads & results & wl & Hl1 & Hl2 & Hd & Hp1 & _ & ->).
    apply progress_only_frame in Hp1 as (Hs & Ht & _ & Hv & _ & _).
    set (wc := completed (snd <$> head results) (length results) wl) in *.
    destruct (completed_frame (snd <$> head results) (length results) wl)
      as (Cs & Cn & _ & Ct). fold wc in Cs, Cn, Ct.
    destruct (handleProcess_finally_frame wc)
      as (Ff & Fu & Fp & Ft & _ & Fn & Fv & Fd & Fo).
    exists wc. split; [reflexivity |].
    rewrite Ff, Fu, Fp, Fn, Fd, Fo, Cs, Hs, Sf, Su.
    repeat (split; [first [assumption | reflexivity
                           | now rewrite bool_decide_eq_false_2] |]).
    left. exists uploads, results. rewrite Sf in Hl1, Hd.
    split; [exact Hl1 |]. split; [now rewrite Hl2 |]. split; [exact Hd |].
    split.
    { rewrite Ft, Ct, Ht, St. do 4 f_equal. now rewrite Hl2, Hl1. }
    rewrite Fv. subst wc. unfold completed.
    change (page (showToast ?m ?t ?x)) with (page x).
    destruct (head results) as [a|]; simpl.
    + apply displayResult_view. now rewrite Hv.
    + now rewrite Hv.
  - destruct Hr as (Hp1 & Hfail).
    apply progress_only_frame in Hp1 as (Hs & Ht & _ & Hv & _ & _).
    set (wc := handleProcess_catch message wt).
    destruct (handleProcess_catch_frame message wt) as (Cs & Cn & Cp & Ct).
    fold wc in Cs, Cn, Cp, Ct.
    destruct (handleProcess_finally_frame wc)
      as (Ff & Fu & Fp & Ft & _ & Fn & Fv & Fd & Fo).
    exists wc. split; [reflexivity |].
    rewrite Ff, Fu, Fp, Fn, Fd, Fo, Cs, Cn, Hs, Sf, Su.
    repeat (split; [first [assumption | reflexivity
                           | now rewrite bool_decide_eq_false_2] |]).
    right. exists message.
    split; [now rewrite Ft, Ct, Ht, St |].
    split; [now rewrite Fv, Cp, Hv |].
    now rewrite Sf in Hfail.
Qed.

Lemma handleProcess_skipped (w : World) :
  files (state w) = [] \/ processing (state w) = true -> handleProcess srv w = w.
Proof.
  intros H. unfold handleProcess. rewrite length_zero_decide.
  destruct H as [-> | ->]; [reflexivity | now rewrite orb_true_r].
Qed.

End BatchRun.

Lemma handleProcess_guard_cases (w : World) :
  (files (state w) = [] \/ processing (state w) = true)
  \/ (files (state w) <> [] /\ processing (state w) = false).
Proof.
  destruct (files (state w)) as [|f l]; [tauto |].
  destruct (processing (state w)); [tauto |]. right. split; congruence.
Qed.

Lemma run_exchanges_same (w : World) : run_exchanges w w = [].
Proof. unfold run_exchanges. apply drop_all. Qed.

(** In a list that is all successes up to its last element, a failure can
    only be that last element. *)
Lemma failure_is_last (good pre post : list Exchange) (x y : Exchange) :
  Forall (fun e => exchange_ok e = true) good ->
  exchange_ok x = false ->
  (pre ++ x :: post = good ++ [y])%list ->
  pre = good /\ x = y /\ post = [].
Proof.
  intros Hg Hx. revert pre. induction Hg as [|g good Hok _ IH]; intros pre E.
  - destruct pre as [|p pre]; simpl in E.
    + now injection E as -> <-.
    + injection E as _ E. now destruct pre.
  - destruct pre as [|p pre]; simpl in E.
    + injection E as -> _. congruence.
    + injection E as -> E. apply IH in E as (-> & -> & ->). tauto.
Qed.

Lemma all_ok_no_failure (pre post : list Exchange) (x : Exchange) :
  Forall (fun e => exchange_ok e = true) (pre ++ x :: post) ->
  exchange_ok x = false -> False.
Proof.
  intros H Hx. apply Forall_app in H as [_ H]. apply Forall_cons in H as [H _].
  congruence.
Qed.

Lemma upload_exchanges_requests (fs : list File)
    (answers : list (string * UploadJson)) :
  Forall (fun x => req_url (request_of x) = API_BASE_URL +:+ "/upload")
    (upload_exchanges fs answers).
Proof.
  revert answers. induction fs as [|f fs IH]; intros [|a answers];
    try constructor; [reflexivity | apply IH].
Qed.


(** C1. If, in a batch run, an upload request comes back with a
    non-success status, that request is the last one of the run: the
    requests before it are the successful uploads of the staged files that
    precede the failing one, no upload follows and no processing call is
    made; one error notification carrying the status text is raised, the
    processing flag is false again and the process trigger is enabled. *)
Theorem upload_failure_aborts_batch (srv : Server) (w : World)
    (pre post : list Exchange) (file : File) (status : string)
    (body : string + UploadJson) :
  run_exchanges w (handleProcess srv w)
  = (pre ++ XUpload file (Responded false status body) :: post)%list ->
  post = []
  /\ (exists answers,
        length answers = length pre
        /\ pre = upload_exchanges (take (length pre) (files (state w))) answers)
  /\ files (state w) !! length pre = Some file
  /\ Forall (fun x => req_url (request_of x) = API_BASE_URL +:+ "/upload")
        (run_exchanges w (handleProcess srv w))
  /\ toasts (handleProcess srv w)
     = (toasts w ++ [error_toast ("处理失败: " +:+ "上传失败: " +:+ status)])%list
  /\ processing (state (handleProcess srv w)) = false
  /\ processBtn_disabled (page (handleProcess srv w)) = false.
Proof.
  intros Hrun. rewrite Hrun.
  destruct (handleProcess_guard_cases w) as [Hskip | [Hf Hp]].
  { rewrite (handleProcess_skipped srv w Hskip), run_exchanges_same in Hrun.
    now destruct pre. }
  destruct (handleProcess_cases srv w Hf Hp)
    as (delta & w0 & _ & Hn & _ & _ & Hproc & Hbtn & _ & Hcase).
  rewrite (run_exchanges_app _ _ _ Hn) in Hrun. subst delta.
  destruct Hcase as [(uploads & results & _ & _ & Hd & _)
                    | (message & Ht & _ & [Hup | Hpr])].
  - exfalso.
    apply (all_ok_no_failure pre post
             (XUpload file (Responded false status body))); [| reflexivity].
    rewrite Hd. apply Forall_app.
    split; [apply upload_exchanges_ok | apply process_exchanges_ok].
  - destruct Hup as (answers & file' & o & Hk & Hd & Ho & ->).
    apply failure_is_last in Hd as (-> & [= -> <-] & ->);
      [| apply upload_exchanges_ok | reflexivity].
    assert (Hlen : length (upload_exchanges
                     (take (length answers) (files (state w))) answers)
                   = length answers).
    { apply lookup_lt_Some in Hk.
      unfold upload_exchanges. rewrite length_zip_with, length_take. lia. }
    rewrite Hlen. split; [reflexivity |].
    split; [exists answers; tauto |].
    split; [exact Hk |].
    split.
    { apply Forall_app. split; [apply upload_exchanges_requests |].
      now repeat constructor. }
    split; [exact Ht |]. tauto.
  - exfalso. destruct Hpr as (uploads & delta2 & _ & Hd & Hpf).
    destruct Hpf as (answers & u & o & _ & -> & _ & _).
    rewrite app_assoc in Hd.
    apply failure_is_last in Hd as (_ & [=] & _); [| reflexivity].
    apply Forall_app.
    split; [apply upload_exchanges_ok | apply process_exchanges_ok].
Qed.

(** C2. Every batch run, whether its requests succeed or one of them fails
    or throws, ends with the [finally] block: the processing flag is
    false, the process trigger has been re-evaluated against the staged
    list and the flag, and the progress overlay is hidden. *)
Theorem cleanup_always_runs (srv : Server) (w : World) :
  files (state w) <> [] -> processing (state w) = false ->
  (exists w0, handleProcess srv w = handleProcess_finally w0)
  /\ processing (state (handleProcess srv w)) = false
  /\ trigger_consistent (handleProcess srv w)
  /\ processBtn_disabled (page (handleProcess srv w))
     = bool_decide (files (state (handleProcess srv w)) = [])
       || processing (state (handleProcess srv w))
  /\ loadingOverlay_display (page (handleProcess srv w)) = "none"
  /\ (forall w0,
        processing (state (handleProcess_finally w0)) = false
        /\ trigger_consistent (handleProcess_finally w0)
        /\ loadingOverlay_display (page (handleProcess_finally w0)) = "none").
Proof.
  intros Hf Hp.
  destruct (handleProcess_cases srv w Hf Hp)
    as (delta & w0 & E & _ & Hfiles & _ & Hproc & Hbtn & Hov & _).
  split; [now exists w0 |]. split; [exact Hproc |].
  split.
  { unfold trigger_consistent. rewrite Hbtn, Hproc, Hfiles. tauto. }
  split.
  { rewrite Hbtn, Hproc, Hfiles. now rewrite bool_decide_eq_false_2. }
  split; [exact Hov |].
  intros w1. split; [reflexivity |]. split; [| reflexivity].
  unfold handleProcess_finally, hideLoading.
  eapply trigger_consistent_ext; [| | apply updateProcessButton_consistent];
    reflexivity.
Qed.



(** ** What a session preserves *)

Lemma handleProcess_state (srv : Server) (w : World) :
  files (state (handleProcess srv w)) = files (state w)
  /\ uploadedFileIds (state (handleProcess srv w)) = uploadedFileIds (state w).
Proof.
  destruct (handleProcess_guard_cases w) as [Hskip | [Hf Hp]].
  - now rewrite (handleProcess_skipped srv w Hskip).
  - destruct (handleProcess_cases srv w Hf Hp)
      as (delta & w0 & _ & _ & Hfiles & Hids & _). tauto.
Qed.

Lemma removeFile_uploadedFileIds (index : Z) (w : World) :
  uploadedFileIds (state (removeFile index w))
  = delete index (uploadedFileIds (state w)).
Proof.
  unfold removeFile. rewrite previewFirstImage_state.
  change (state (updateProcessButton ?x)) with (state x).
  now rewrite updateFileList_state.
Qed.

Lemma clearFileList_state (w : World) :
  files (state (clearFileList w)) = []
  /\ uploadedFileIds (state (clearFileList w)) = ∅.
Proof.
  unfold clearFileList, hideResultSection, clearPreviews.
  cbn [state with_page].
  change (state (updateProcessButton ?x)) with (state x).
  now rewrite updateFileList_state.
Qed.

Lemma reader_onload_state (k : nat) (w : World) :
  state (reader_onload k w) = state w.
Proof. unfold reader_onload. now destruct (readers w !! k). Qed.

Lemma reader_onload_frame (k : nat) (w : World) :
  toasts (reader_onload k w) = toasts w
  /\ network (reader_onload k w) = network w
  /\ processBtn_disabled (page (reader_onload k w)) = processBtn_disabled (page w)
  /\ fileListContent_innerHTML (page (reader_onload k w))
     = fileListContent_innerHTML (page w).
Proof. unfold reader_onload. now destruct (readers w !! k). Qed.

(** What each event does to the staged list and to the cache. *)
Lemma dispatch_files (srv : Server) (e : Event) (w : World) :
  files (state (dispatch srv e w))
  = match e with
    | FileSelect candidates | Drop candidates =>
      fold_left staged_with (filter (fun f => ~ spec_rejects f) candidates)
        (files (state w))
    | ClickRemove index => splice1 index (files (state w))
    | ClickClear | ClickProcessAnother => []
    | DragOver | DragLeave | ClickProcess | ReaderLoad _ => files (state w)
    end.
Proof.
  destruct e; cbn [dispatch].
  - unfold handleFileSelect. cbn [state with_page]. apply addFiles_files.
  - reflexivity.
  - reflexivity.
  - unfold handleDrop. now rewrite addFiles_files.
  - apply removeFile_files.
  - apply clearFileList_state.
  - apply handleProcess_state.
  - unfold handleProcessAnother. apply clearFileList_state.
  - now rewrite reader_onload_state.
Qed.

Lemma dispatch_uploadedFileIds (srv : Server) (e : Event) (w : World) :
  uploadedFileIds (state (dispatch srv e w))
  = match e with
    | ClickRemove index => delete index (uploadedFileIds (state w))
    | ClickClear | ClickProcessAnother => ∅
    | _ => uploadedFileIds (state w)
    end.
Proof.
  destruct e; cbn [dispatch].
  - unfold handleFileSelect. cbn [state with_page]. apply addFiles_rest.
  - reflexivity.
  - reflexivity.
  - unfold handleDrop.
    now destruct (addFiles_rest dropped
      (with_page (set_uploadArea_dragover false) w)) as (-> & _).
  - apply removeFile_uploadedFileIds.
  - apply clearFileList_state.
  - apply handleProcess_state.
  - unfold handleProcessAnother. apply clearFileList_state.
  - now rewrite reader_onload_state.
Qed.

Lemma init_state (srv : Server) (d : DOM) : state (init srv d) = initial_state.
Proof.
  unfold init, checkServerStatus. cbn [network].
  now destruct (srv_health srv []) as [m | [|] st b].
Qed.

Lemma session_snoc (srv : Server) (d : DOM) (es : list Event) (e : Event) :
  session srv d (es ++ [e]) = dispatch srv e (session srv d es).
Proof. unfold session. now rewrite fold_left_app. Qed.

Lemma splice1_delete {A : Type} (index : Z) (l : list A) :
  exists k, splice1 index l = delete k l.
Proof. unfold splice1. eauto. Qed.

Lemma dispatch_NoDup (srv : Server) (e : Event) (w : World) :
  NoDup (fileKey <$> files (state w)) ->
  NoDup (fileKey <$> files (state (dispatch srv e w))).
Proof.
  intros H. rewrite dispatch_files.
  destruct e; try assumption; try apply NoDup_nil_2;
    try (now apply fold_staged_with_NoDup).
  destruct (splice1_delete index (files (state w))) as [k ->].
  rewrite list_fmap_delete. eapply sublist_NoDup; [exact H |].
  apply sublist_delete.
Qed.

(** C4. In every state of a session the staged list holds no two entries
    with the same name and size, and each event keeps it so.  A validated
    candidate whose name and size are those of an entry already staged
    (before the batch, or from an earlier candidate of the same batch) is
    dropped with no notification and the list unchanged; one that matches
    no entry is appended; either way its name and size are staged
    afterwards. *)
Theorem staged_files_unique (srv : Server) (d : DOM) (es : list Event) :
  NoDup (fileKey <$> files (state (session srv d es)))
  /\ (forall e w,
        NoDup (fileKey <$> files (state w)) ->
        NoDup (fileKey <$> files (state (dispatch srv e w))))
  /\ (forall candidates f w,
        ~ spec_rejects f ->
        fileKey f ∈ fileKey <$> files (state (addFiles candidates w)) ->
        files (state (addFiles (candidates ++ [f]) w))
        = files (state (addFiles candidates w))
        /\ toasts (addFiles (candidates ++ [f]) w)
           = toasts (addFiles candidates w))
  /\ (forall candidates f w,
        ~ spec_rejects f ->
        fileKey f ∉ fileKey <$> files (state (addFiles candidates w)) ->
        files (state (addFiles (candidates ++ [f]) w))
        = (files (state (addFiles candidates w)) ++ [f])%list)
  /\ (forall candidates f w,
        ~ spec_rejects f ->
        fileKey f ∈ fileKey <$> files (state (addFiles (candidates ++ [f]) w))).
Proof.
  assert (Hstep : forall candidates f w, ~ spec_rejects f ->
            files (state (addFiles (candidates ++ [f]) w))
            = staged_with (files (state (addFiles candidates w))) f).
  { intros candidates f w Hok. rewrite !addFiles_files, filter_app.
    rewrite (filter_cons_True _ f []) by exact Hok.
    rewrite filter_nil. now rewrite fold_left_app. }
  split.
  { induction es as [|e es IH] using rev_ind.
    - unfold session. simpl. rewrite init_state. apply NoDup_nil_2.
    - rewrite session_snoc. now apply dispatch_NoDup. }
  split. { intros e w. apply dispatch_NoDup. }
  split.
  { intros candidates f w Hok Hin. split.
    - rewrite Hstep by exact Hok. now apply staged_with_present.
    - rewrite !addFiles_toasts, filter_app.
      rewrite (filter_cons_False _ f []) by tauto.
      rewrite filter_nil. now rewrite app_nil_r. }
  split.
  { intros candidates f w Hok Hout.
    rewrite Hstep by exact Hok. now apply staged_with_absent. }
  intros candidates f w Hok. rewrite Hstep by exact Hok. apply staged_with_key.
Qed.

(** C10. No handler ever stores anything in [state.uploadedFileIds]: every
    event leaves the cache within what it held (the batch routine leaves
    it untouched), so the cache is empty in every state of a session, and
    the deletions done by removal and by clearing find it empty and leave
    it empty. *)
Theorem uploadedFileIds_never_populated (srv : Server) (d : DOM) (es : list Event) :
  uploadedFileIds (state (session srv d es)) = ∅
  /\ (forall e w,
        uploadedFileIds (state (dispatch srv e w)) ⊆ uploadedFileIds (state w))
  /\ (forall w,
        uploadedFileIds (state (handleProcess srv w)) = uploadedFileIds (state w))
  /\ (forall index,
        uploadedFileIds (state (removeFile index (session srv d es)))
        = uploadedFileIds (state (session srv d es)))
  /\ uploadedFileIds (state (clearFileList (session srv d es)))
     = uploadedFileIds (state (session srv d es)).
Proof.
  assert (Hsub : forall e w,
            uploadedFileIds (state (dispatch srv e w)) ⊆ uploadedFileIds (state w)).
  { intros e w. rewrite dispatch_uploadedFileIds.
    destruct e; try reflexivity;
      first [apply delete_subseteq | apply map_empty_subseteq]. }
  assert (Hempty : uploadedFileIds (state (session srv d es)) = ∅).
  { induction es as [|e es IH] using rev_ind.
    - unfold session. simpl. now rewrite init_state.
    - rewrite session_snoc, dispatch_uploadedFileIds, IH.
      destruct e; first [reflexivity | apply delete_empty]. }
  split; [exact Hempty |]. split; [exact Hsub |].
  split; [intros w; apply handleProcess_state |].
  split.
  - intros index. rewrite removeFile_uploadedFileIds, Hempty.
    apply delete_empty.
  - destruct (clearFileList_state (session srv d es)) as [_ ->].
    now rewrite Hempty.
Qed.

(** ** Rendering of a result *)












(** ** The counts of a result *)

Section Rounding.

Local Open Scope Z_scope.








End Rounding.







(** Counts as the page shows them: up to 2^53 digit for digit, beyond it
    the nearest double in the shortest decimal that reads back as it, with
    an exponent from 10^21 on. *)
Example number_to_string_examples :
  number_to_string (round_double (2 ^ 53 - 1)) = "9007199254740991"
  /\ number_to_string (round_double (2 ^ 53 + 1)) = "9007199254740992"
  /\ number_to_string (round_double (2 ^ 53 + 3)) = "9007199254740996"
  /\ number_to_string (round_double (2 ^ 64)) = "18446744073709552000"
  /\ number_to_string (round_double 999999999999999999999) = "1e+21"
  /\ number_to_string (round_double (2 ^ 70)) = "1.1805916207174113e+21"
  /\ number_to_string (number_mul (round_double (10 ^ 11)) (round_double (10 ^ 11)))
     = "1e+22"
  /\ number_to_string (number_mul (round_double (- 3)) (round_double (2 ^ 62)))
     = "-13835058055282164000"
  /\ number_to_string (number_mul (round_double (10 ^ 200)) (round_double (10 ^ 200)))
     = "Infinity"
  /\ number_to_string (number_mul (round_double (10 ^ 400)) (or_zero None)) = "NaN".
Proof. vm_compute. repeat split. Qed.

(** ** The worked session *)

(** A selection with a wrong type, an oversized file, a file of exactly
    10 MiB and a repeated file: two are refused with one notification
    each, the repetition is dropped in silence. *)
Example addFiles_example :
  let w := addFiles [example_png; example_gif; example_huge; example_limit;
                     example_png]
             (init example_backend example_page) in
  files (state w) = [example_png; example_limit]
  /\ text <$> toasts w
     = ["文件 z.gif 不是支持的图片格式"; "文件 big.png 太大，最大支持 10MB"]
  /\ processBtn_disabled (page w) = false.
Proof. vm_compute. repeat split. Qed.

(** One staged PNG processed with success: header row and data row,
    counts 2, 2 and 4, the download link, one success notification. *)
Example handleProcess_example :
  let w := handleProcess example_backend example_single in
  tablePreview_innerHTML (page w)
  = "<table><tr><th>H1</th><th>H2</th></tr><tr><td>v1</td><td>v2</td></tr></table>"
  /\ rowCount_textContent (page w) = "2"
  /\ colCount_textContent (page w) = "2"
  /\ cellCount_textContent (page w) = "4"
  /\ downloadLink_href (page w) = "http://localhost:8000/download/x.xlsx"
  /\ text <$> toasts w = ["成功处理 1 个文件"]
  /\ req_url ∘ request_of <$> network w
     = ["http://localhost:8000/health"; "http://localhost:8000/upload";
        "http://localhost:8000/process?file_id=a1&filename=x.png"]
  /\ processing (state w) = false.
Proof. vm_compute. repeat split. Qed.

(** A result with an empty grid and no counts: the table stays, the counts
    read zero. *)
Example displayResult_empty_example :
  let w := displayResult (mkProcessResult (Some []) None None None)
             (handleProcess example_backend example_single) in
  tablePreview_innerHTML (page w)
  = "<table><tr><th>H1</th><th>H2</th></tr><tr><td>v1</td><td>v2</td></tr></table>"
  /\ rowCount_textContent (page w) = "0"
  /\ colCount_textContent (page w) = "0"
  /\ cellCount_textContent (page w) = "0".
Proof. vm_compute. repeat split. Qed.

(** Removal outside the list: an index past the end removes nothing, a
    negative one counts from the end. *)
Example removeFile_outside_example :
  files (state (removeFile 2 (example_staged example_backend)))
  = [example_png; example_jpg]
  /\ files (state (removeFile (-1) (example_staged example_backend)))
     = [example_png].
Proof. vm_compute. repeat split. Qed.

Lemma upload_failure_aborts_batch_witness :
  let w := example_staged example_failing_backend in
  let w' := handleProcess example_failing_backend w in
  run_exchanges w w'
  = [XUpload example_png
       (Responded true "OK" (inr (mkUploadJson (Some "a1") (Some "x.png"))));
     XUpload example_jpg
       (Responded false "Internal Server Error" (inl "Unexpected token"))]
  /\ toasts w'
     = (toasts w ++ [error_toast ("处理失败: " +:+ "上传失败: "
                                  +:+ "Internal Server Error")])%list
  /\ processing (state w') = false
  /\ processBtn_disabled (page w') = false.
Proof.
  intros w w'.
  assert (Hrun : run_exchanges w w'
    = ([XUpload example_png
          (Responded true "OK" (inr (mkUploadJson (Some "a1") (Some "x.png"))))]
       ++ XUpload example_jpg
            (Responded false "Internal Server Error" (inl "Unexpected token"))
          :: [])%list) by (vm_compute; reflexivity).
  split; [exact Hrun |].
  destruct (upload_failure_aborts_batch example_failing_backend w _ _ _ _ _ Hrun)
    as (_ & _ & _ & _ & Ht & Hp & Hb).
  split; [exact Ht |]. split; [exact Hp | exact Hb].
Defined.

Lemma cleanup_always_runs_witness :
  let w := example_staged example_failing_backend in
  let w' := handleProcess example_failing_backend w in
  processing (state w') = false
  /\ trigger_consistent w'
  /\ loadingOverlay_display (page w') = "none".
Proof.
  intros w w'.
  assert (Hf : files (state w) <> []) by (vm_compute; discriminate).
  assert (Hp : processing (state w) = false) by (vm_compute; reflexivity).
  destruct (cleanup_always_runs example_failing_backend w Hf Hp)
    as (_ & H1 & H2 & _ & H3 & _).
  split; [exact H1 |]. split; [exact H2 | exact H3].
Defined.


Lemma handleProcess_guard_noop_witness :
  handleProcess example_backend (init example_backend example_page)
  = init example_backend example_page.
Proof.
  apply (handleProcess_guard_noop example_backend
           (init example_backend example_page)).
  left. vm_compute. reflexivity.
Defined.

Lemma removeFile_in_range_witness :
  files (state (removeFile 0 (example_staged example_backend))) = [example_jpg].
Proof.
  assert (H : (0 <= 0 < Z.of_nat
                 (length (files (state (example_staged example_backend)))))%Z)
    by (vm_compute; split; [discriminate | reflexivity]).
  destruct (removeFile_in_range 0 (example_staged example_backend) H)
    as (_ & -> & _).
  vm_compute. reflexivity.
Defined.



(** * Further properties of the handlers *)

(** ** Clearing *)

(** X1. Clearing empties the staged list and the cache, shows the empty
    list and both placeholders, hides the result section and disables the
    trigger; it raises no notification, sends no request and leaves the
    processing flag alone. *)
Theorem clearFileList_resets (w : World) :
  files (state (clearFileList w)) = []
  /\ uploadedFileIds (state (clearFileList w)) = ∅
  /\ processing (state (clearFileList w)) = processing (state w)
  /\ fileListContent_innerHTML (page (clearFileList w)) = EmptyMessage
  /\ imagePreview_innerHTML (page (clearFileList w)) = ImagePlaceholder
  /\ tablePreview_innerHTML (page (clearFileList w)) = tablePlaceholder
  /\ resultSection_display (page (clearFileList w)) = "none"
  /\ processBtn_disabled (page (clearFileList w)) = true
  /\ toasts (clearFileList w) = toasts w
  /\ network (clearFileList w) = network w.
Proof. repeat split. Qed.

(** X2. The process-another action does exactly what clearing does;
    clearing twice is clearing once; and on a cleared session the process
    action does nothing. *)
Theorem handleProcessAnother_clears (srv : Server) (w : World) :
  handleProcessAnother w = clearFileList w
  /\ clearFileList (clearFileList w) = clearFileList w
  /\ handleProcess srv (clearFileList w) = clearFileList w.
Proof. repeat split. Qed.

(** ** Failures of a batch run *)

Lemma process_exchanges_length (us : list UploadResult)
    (answers : list (string * ProcessResult)) :
  length answers = length us ->
  length (process_exchanges us answers) = length us.
Proof. intros H. unfold process_exchanges. rewrite length_zip_with. lia. Qed.

Lemma run_exchanges_skipped (srv : Server) (w : World) :
  files (state w) = [] \/ processing (state w) = true ->
  run_exchanges w (handleProcess srv w) = [].
Proof.
  intros H. rewrite (handleProcess_skipped srv w H). apply run_exchanges_same.
Qed.

(** X3. If a processing call of a batch run comes back with a non-success
    status, it is the last request of the run: every staged file had been
    uploaded with success, the processing calls before it had succeeded,
    and the failing call is the one for the next uploaded file.  Nothing
    of the results is shown, not even those already received; one error
    notification carries the status text, the processing flag is false
    and the trigger enabled. *)
Theorem process_failure_aborts_batch (srv : Server) (w : World)
    (pre post : list Exchange) (url status : string)
    (body : string + ProcessResult) :
  run_exchanges w (handleProcess srv w)
  = (pre ++ XProcess url (Responded false status body) :: post)%list ->
  post = []
  /\ (exists uploads results u,
        length uploads = length (files (state w))
        /\ (length results < length (files (state w)))%nat
        /\ pre = (upload_exchanges (files (state w)) uploads
                  ++ process_exchanges
                       (take (length results) (upload_entries 0 uploads))
                       results)%list
        /\ upload_entries 0 uploads !! length results = Some u
        /\ url = process_url (ur_fileId u) (ur_filename u))
  /\ result_view (page (handleProcess srv w)) = result_view (page w)
  /\ toasts (handleProcess srv w)
     = (toasts w ++ [error_toast ("处理失败: " +:+ "处理失败: " +:+ status)])%list
  /\ processing (state (handleProcess srv w)) = false
  /\ processBtn_disabled (page (handleProcess srv w)) = false.
Proof.
  intros Hrun.
  destruct (handleProcess_guard_cases w) as [Hskip | [Hf Hp]].
  { rewrite (run_exchanges_skipped srv w Hskip) in Hrun. now destruct pre. }
  destruct (handleProcess_cases srv w Hf Hp)
    as (delta & w0 & _ & Hn & _ & _ & Hproc & Hbtn & _ & Hcase).
  rewrite (run_exchanges_app _ _ _ Hn) in Hrun. subst delta.
  destruct Hcase as [(uploads & results & _ & _ & Hd & _)
                    | (message & Ht & Hv & [Hup | Hpr])].
  - exfalso.
    apply (all_ok_no_failure pre post
             (XProcess url (Responded false status body))); [| reflexivity].
    rewrite Hd. apply Forall_app.
    split; [apply upload_exchanges_ok | apply process_exchanges_ok].
  - exfalso. destruct Hup as (answers & file & o & _ & Hd & _ & _).
    apply failure_is_last in Hd as (_ & [=] & _);
      [apply upload_exchanges_ok | reflexivity].
  - destruct Hpr as (uploads & delta2 & Hl & Hd & Hpf).
    destruct Hpf as (results & u & o & Hk & -> & Ho & ->).
    rewrite app_assoc in Hd.
    apply failure_is_last in Hd as (-> & [= -> <-] & ->); [| | reflexivity].
    2:{ apply Forall_app.
        split; [apply upload_exchanges_ok | apply process_exchanges_ok]. }
    split; [reflexivity |].
    split.
    { exists uploads, results, u. split; [exact Hl |].
      split.
      { apply lookup_lt_Some in Hk. rewrite upload_entries_length in Hk. lia. }
      tauto. }
    split; [exact Hv |]. split; [exact Ht |]. tauto.
Qed.

Lemma Forall_forallb_exchange_ok (l : list Exchange) :
  Forall (fun e => exchange_ok e = true) l -> forallb exchange_ok l = true.
Proof.
  induction 1 as [|x l Hx _ IH]; [reflexivity |]. simpl. now rewrite Hx.
Qed.

(** X4. A batch run raises exactly one notification.  Either every
    exchange succeeded and it is the summary with the number of staged
    files; or the run stopped at its first failed exchange, the
    notification is an error whose text comes from that exchange (the
    message of a rejected request or of an unreadable body, the status
    text of a non-success response after the label of its step), and the
    result area is as it was before the run. *)
Theorem batch_run_one_notification (srv : Server) (w : World) :
  files (state w) <> [] -> processing (state w) = false ->
  (forallb exchange_ok (run_exchanges w (handleProcess srv w)) = true
   /\ toasts (handleProcess srv w)
      = (toasts w ++ [success_toast ("成功处理 "
           +:+ string_of_nat (length (files (state w))) +:+ " 个文件")])%list)
  \/ (exists good bad,
        run_exchanges w (handleProcess srv w) = (good ++ [bad])%list
        /\ forallb exchange_ok good = true
        /\ exchange_ok bad = false
        /\ toasts (handleProcess srv w)
           = (toasts w ++ [error_toast ("处理失败: " +:+ exchange_message bad)])%list
        /\ result_view (page (handleProcess srv w)) = result_view (page w)).
Proof.
  intros Hf Hp.
  destruct (handleProcess_cases srv w Hf Hp)
    as (delta & w0 & _ & Hn & _ & _ & _ & _ & _ & Hcase).
  rewrite (run_exchanges_app _ _ _ Hn).
  destruct Hcase as [(uploads & results & _ & _ & Hd & Ht & _)
                    | (message & Ht & Hv & [Hup | Hpr])].
  - left. split; [| exact Ht]. subst delta.
    apply Forall_forallb_exchange_ok, Forall_app.
    split; [apply upload_exchanges_ok | apply process_exchanges_ok].
  - right. destruct Hup as (answers & file & o & _ & -> & Ho & ->).
    exists (upload_exchanges (take (length answers) (files (state w))) answers),
           (XUpload file o).
    split; [reflexivity |].
    split; [apply Forall_forallb_exchange_ok, upload_exchanges_ok |].
    split; [exact Ho |]. split; [exact Ht | exact Hv].
  - right. destruct Hpr as (uploads & delta2 & _ & -> & Hpf).
    destruct Hpf as (results & u & o & _ & -> & Ho & ->).
    eexists (_ ++ _)%list, (XProcess _ o).
    split; [now rewrite app_assoc |].
    split.
    { apply Forall_forallb_exchange_ok, Forall_app.
      split; [apply upload_exchanges_ok | apply process_exchanges_ok]. }
    split; [exact Ho |]. split; [exact Ht | exact Hv].
Qed.

(** ** Order of the requests *)

Lemma upload_exchanges_request_of (fs : list File)
    (answers : list (string * UploadJson)) :
  length answers = length fs ->
  request_of <$> upload_exchanges fs answers = upload_request <$> fs.
Proof.
  revert answers. induction fs as [|f fs IH]; intros [|a answers] H;
    try discriminate; [reflexivity |].
  simpl. f_equal. apply IH. simpl in H. lia.
Qed.

(** X5. The requests of a batch run, in the order they are sent, are the
    uploads of the first [k] staged files in staged order, each file once,
    followed by processing calls; a processing call is sent only after all
    staged files have been uploaded, and there are never more processing
    calls than staged files. *)
Theorem batch_requests_in_order (srv : Server) (w : World) :
  exists k calls,
    request_of <$> run_exchanges w (handleProcess srv w)
    = ((upload_request <$> take k (files (state w)))
       ++ (request_of <$> calls))%list
    /\ (k <= length (files (state w)))%nat
    /\ forallb is_process_call calls = true
    /\ (length calls <= length (files (state w)))%nat
    /\ (calls = [] \/ k = length (files (state w))).
Proof.
  destruct (handleProcess_guard_cases w) as [Hskip | [Hf Hp]].
  { rewrite (run_exchanges_skipped srv w Hskip). exists 0%nat, [].
    split; [reflexivity |]. split; [lia |]. split; [reflexivity |].
    split; [simpl; lia | tauto]. }
  destruct (handleProcess_cases srv w Hf Hp)
    as (delta & w0 & _ & Hn & _ & _ & _ & _ & _ & Hcase).
  rewrite (run_exchanges_app _ _ _ Hn).
  assert (Hcalls : forall us answers,
            forallb is_process_call (process_exchanges us answers) = true).
  { induction us as [|u us IH]; intros [|a answers]; try reflexivity.
    simpl. apply IH. }
  destruct Hcase as [(uploads & results & Hl1 & Hl2 & -> & _)
                    | (message & _ & _ & [Hup | Hpr])].
  - exists (length (files (state w))),
      (process_exchanges (upload_entries 0 uploads) results).
    rewrite fmap_app, firstn_all, upload_exchanges_request_of by exact Hl1.
    split; [reflexivity |]. split; [lia |]. split; [apply Hcalls |].
    split; [| tauto].
    unfold process_exchanges. rewrite length_zip_with. lia.
  - destruct Hup as (answers & file & o & Hk & -> & _ & _).
    pose proof (lookup_lt_Some _ _ _ Hk) as Hlt.
    exists (S (length answers)), [].
    rewrite (take_S_r _ _ _ Hk), !fmap_app, app_nil_r.
    rewrite upload_exchanges_request_of by (rewrite length_take; lia).
    split; [reflexivity |]. split; [lia |]. split; [reflexivity |].
    split; [simpl; lia | tauto].
  - destruct Hpr as (uploads & delta2 & Hl & -> & Hpf).
    destruct Hpf as (results & u & o & Hk & -> & _ & _).
    pose proof (lookup_lt_Some _ _ _ Hk) as Hlt.
    rewrite upload_entries_length in Hlt.
    exists (length (files (state w))),
      (process_exchanges (take (length results) (upload_entries 0 uploads)) results
       ++ [XProcess (process_url (ur_fileId u) (ur_filename u)) o])%list.
    rewrite fmap_app, firstn_all, upload_exchanges_request_of by exact Hl.
    split; [reflexivity |]. split; [lia |].
    split. { rewrite forallb_app, Hcalls. reflexivity. }
    split; [| tauto].
    rewrite length_app. unfold process_exchanges.
    rewrite length_zip_with, length_take, upload_entries_length. simpl. lia.
Qed.

(** ** More on staging *)

Lemma staged_with_cases (fs : list File) (file : File) :
  staged_with fs file = fs \/ staged_with fs file = (fs ++ [file])%list.
Proof.
  destruct (decide (fileKey file ∈ fileKey <$> fs)) as [Hin | Hout].
  - left. now apply staged_with_present.
  - right. now apply staged_with_absent.
Qed.

Lemma fold_staged_with_extends (l fs : list File) :
  exists added,
    fold_left staged_with l fs = (fs ++ added)%list /\ added `sublist_of` l.
Proof.
  revert fs. induction l as [|f l IH]; intros fs; simpl.
  - exists []. now rewrite app_nil_r.
  - destruct (IH (staged_with fs f)) as (added & -> & Hsub).
    destruct (staged_with_cases fs f) as [-> | ->].
    + exists added. split; [reflexivity | now apply sublist_cons].
    + exists (f :: added). rewrite <- app_assoc. split; [reflexivity |].
      now apply sublist_skip.
Qed.

Lemma Forall_of_sublist {A : Type} (P : A -> Prop) (l k : list A) :
  l `sublist_of` k -> Forall P k -> Forall P l.
Proof.
  induction 1 as [|x l k _ IH|x l k _ IH]; intros H; [constructor | |].
  - apply Forall_cons in H as [Hx H]. constructor; [exact Hx | now apply IH].
  - apply Forall_cons in H as [_ H]. now apply IH.
Qed.

Lemma key_in_fold_staged_with (l fs : list File) (k : string * Z) :
  k ∈ fileKey <$> fs -> k ∈ fileKey <$> fold_left staged_with l fs.
Proof.
  intros H. destruct (fold_staged_with_extends l fs) as (added & -> & _).
  rewrite fmap_app. apply elem_of_app. now left.
Qed.

Lemma fold_staged_with_keys (l fs : list File) :
  Forall (fun f => fileKey f ∈ fileKey <$> fold_left staged_with l fs) l.
Proof.
  revert fs. induction l as [|f l IH]; intros fs; simpl; constructor.
  - apply key_in_fold_staged_with, staged_with_key.
  - apply IH.
Qed.

Lemma fold_staged_with_present (l fs : list File) :
  Forall (fun f => fileKey f ∈ fileKey <$> fs) l ->
  fold_left staged_with l fs = fs.
Proof.
  induction 1 as [|f l Hf _ IH]; simpl; [reflexivity |].
  now rewrite staged_with_present.
Qed.

(** X6. Adding the same candidates a second time leaves the staged list
    as the first time left it; the candidates that were refused are
    refused again, each with its notification once more. *)
Theorem addFiles_twice (candidates : list File) (w : World) :
  files (state (addFiles candidates (addFiles candidates w)))
  = files (state (addFiles candidates w))
  /\ exists refusals,
       toasts (addFiles candidates w) = (toasts w ++ refusals)%list
       /\ toasts (addFiles candidates (addFiles candidates w))
          = (toasts w ++ refusals ++ refusals)%list
       /\ length refusals = length (filter spec_rejects candidates).
Proof.
  split.
  - rewrite (addFiles_files candidates (addFiles candidates w)).
    rewrite (addFiles_files candidates w).
    apply fold_staged_with_present, fold_staged_with_keys.
  - exists (error_toast ∘ rejection_message <$> filter spec_rejects candidates).
    rewrite !addFiles_toasts, <- app_assoc, length_fmap. tauto.
Qed.

(** X7. Adding candidates never removes or moves a staged entry: the new
    list is the old one followed by some of the candidates that pass
    validation, in the order they were given; the cache, the processing
    flag and the record of requests are untouched. *)
Theorem addFiles_appends (candidates : list File) (w : World) :
  exists added,
    files (state (addFiles candidates w)) = (files (state w) ++ added)%list
    /\ added `sublist_of` filter (fun f => ~ spec_rejects f) candidates
    /\ uploadedFileIds (state (addFiles candidates w)) = uploadedFileIds (state w)
    /\ processing (state (addFiles candidates w)) = processing (state w)
    /\ network (addFiles candidates w) = network w.
Proof.
  destruct (fold_staged_with_extends
              (filter (fun f => ~ spec_rejects f) candidates) (files (state w)))
    as (added & E & Hsub).
  exists added. rewrite addFiles_files. split; [exact E |].
  split; [exact Hsub |]. apply addFiles_rest.
Qed.

Lemma spec_accepts_iff (f : File) :
  ~ spec_rejects f
  <-> accepted_type (file_type f) /\ (file_size f <= 10 * 1024 * 1024)%Z.
Proof.
  unfold spec_rejects. split.
  - intros H. split.
    + destruct (decide (accepted_type (file_type f))); tauto.
    + destruct (decide (10 * 1024 * 1024 < file_size f)%Z); [tauto | lia].
  - intros [Ht Hs] [H | H]; [tauto | lia].
Qed.

Lemma splice1_Forall {A : Type} (P : A -> Prop) (index : Z) (l : list A) :
  Forall P l -> Forall P (splice1 index l).
Proof. intros H. unfold splice1. now apply Forall_delete. Qed.

Lemma dispatch_staged_valid (srv : Server) (e : Event) (w : World) :
  Forall (fun f => ~ spec_rejects f) (files (state w)) ->
  Forall (fun f => ~ spec_rejects f) (files (state (dispatch srv e w))).
Proof.
  intros H. rewrite dispatch_files.
  assert (Hadd : forall candidates,
            Forall (fun f => ~ spec_rejects f)
              (fold_left staged_with
                 (filter (fun f => ~ spec_rejects f) candidates)
                 (files (state w)))).
  { intros candidates.
    destruct (fold_staged_with_extends
                (filter (fun f => ~ spec_rejects f) candidates)
                (files (state w))) as (added & -> & Hsub).
    apply Forall_app. split; [exact H |].
    apply (Forall_of_sublist _ _ _ Hsub).
    apply Forall_forall. intros f Hf.
    now apply list_elem_of_filter in Hf as [Hok _]. }
  destruct e; try assumption; try apply Hadd; try constructor.
  now apply splice1_Forall.
Qed.

(** X8. In every state of a session each staged file is of an accepted
    type and of at most 10 MiB: nothing that validation refuses is ever
    staged, whatever is selected, dropped, removed or processed. *)
Theorem staged_files_valid (srv : Server) (d : DOM) (es : list Event) :
  Forall (fun f => accepted_type (file_type f)
                   /\ (file_size f <= 10 * 1024 * 1024)%Z)
    (files (state (session srv d es))).
Proof.
  eapply Forall_impl; [| intros f; apply spec_accepts_iff].
  induction es as [|e es IH] using rev_ind.
  - unfold session. simpl. rewrite init_state. constructor.
  - rewrite session_snoc. now apply dispatch_staged_valid.
Qed.

(** ** Start-up *)

(** X9. Start-up sends the health check and nothing else.  Whatever comes
    back, the session starts with no staged file, an empty cache and the
    flag false, and the page is not touched; a success status raises no
    notification, anything else (a non-success status or an unreachable
    backend) raises exactly one error notification. *)
Theorem init_health_check (srv : Server) (d : DOM) :
  state (init srv d) = initial_state
  /\ page (init srv d) = d
  /\ network (init srv d) = [XHealth (srv_health srv [])]
  /\ exists message,
       toasts (init srv d)
       = if health_ok (srv_health srv []) then [] else [error_toast message].
Proof.
  unfold init, checkServerStatus. cbn [network].
  destruct (srv_health srv []) as [m | [|] st b]; cbn [health_ok];
    do 3 (split; [reflexivity |]).
  - now exists "无法连接到服务器，请确保后端服务正在运行".
  - now exists EmptyString.
  - now exists "服务器连接失败，请检查后端服务是否启动".
Qed.

(** ** Removal outside the list *)

Lemma removeFile_frame (index : Z) (w : World) :
  processing (state (removeFile index w)) = processing (state w)
  /\ toasts (removeFile index w) = toasts w
  /\ network (removeFile index w) = network w.
Proof.
  unfold removeFile.
  rewrite previewFirstImage_state, previewFirstImage_toasts,
    previewFirstImage_network.
  change (state (updateProcessButton ?x)) with (state x).
  change (toasts (updateProcessButton ?x)) with (toasts x).
  change (network (updateProcessButton ?x)) with (network x).
  rewrite updateFileList_state, updateFileList_toasts, updateFileList_network.
  repeat split.
Qed.

Lemma delete_past_end {A : Type} (l : list A) (i : nat) :
  (length l <= i)%nat -> delete i l = l.
Proof.
  intros H. rewrite delete_take_drop, take_ge, drop_ge by lia.
  apply app_nil_r.
Qed.

(** X10. Removing at an index at or past the end of the staged list
    removes nothing: the list is the same, and no notification or request
    is made. *)
Theorem removeFile_past_end (index : Z) (w : World) :
  (Z.of_nat (length (files (state w))) <= index)%Z ->
  files (state (removeFile index w)) = files (state w)
  /\ processing (state (removeFile index w)) = processing (state w)
  /\ toasts (removeFile index w) = toasts w
  /\ network (removeFile index w) = network w.
Proof.
  intros H. split; [| apply removeFile_frame].
  rewrite removeFile_files. unfold splice1.
  rewrite bool_decide_eq_false_2 by lia. rewrite Z.min_r by lia.
  rewrite Nat2Z.id. now apply delete_past_end.
Qed.

(** X11. Removing at a negative index from a non-empty staged list does
    remove an entry: the index counts back from the end of the list, and
    one that reaches before the start removes the first entry. *)
Theorem removeFile_negative (index : Z) (w : World) :
  (index < 0)%Z -> files (state w) <> [] ->
  let n := Z.of_nat (length (files (state w))) in
  files (state (removeFile index w))
  = delete (Z.to_nat (Z.max (n + index) 0)) (files (state w))
  /\ length (files (state (removeFile index w)))
     = (length (files (state w)) - 1)%nat.
Proof.
  intros Hneg Hne n. rewrite removeFile_files. unfold splice1. fold n.
  rewrite bool_decide_eq_true_2 by exact Hneg.
  split; [reflexivity |].
  apply length_delete, lookup_lt_is_Some.
  assert (0 < length (files (state w)))%nat
    by (destruct (files (state w)); [congruence | simpl; lia]).
  subst n. lia.
Qed.

(** ** What a batch run leaves alone *)

Lemma displayResult_outside_run (result : ProcessResult) (w : World) :
  outside_run (page (displayResult result w)) = outside_run (page w).
Proof.
  unfold displayResult.
  destruct (preview_data result) as [grid|]; [case_bool_decide |];
    (destruct (excel_url result) as [url|]; [case_bool_decide |]);
    reflexivity.
Qed.

Lemma handleProcess_outside_run (srv : Server) (w : World) :
  outside_run (page (handleProcess srv w)) = outside_run (page w).
Proof.
  destruct (handleProcess_guard_cases w) as [Hskip | [Hf Hp]].
  { now rewrite (handleProcess_skipped srv w Hskip). }
  rewrite (handleProcess_run srv w Hf Hp). unfold try_catch_finally.
  destruct (handleProcess_try srv (started w)) as [r wt] eqn:E.
  apply handleProcess_try_spec in E as (delta & _ & Hr).
  destruct r as [[]|message].
  - destruct Hr
      as (uploads & results & wl & _ & _ & _ & (_ & _ & _ & Hp1 & _) & _ & ->).
    apply (f_equal outside_run) in Hp1.
    change (outside_run (page wl) = outside_run (page w)) in Hp1.
    unfold completed.
    change (outside_run (page (handleProcess_finally (showToast ?m ?t ?x))))
      with (outside_run (page x)).
    destruct (head results) as [a|].
    + change (outside_run (page (displayResult a.2 wl)) = outside_run (page w)).
      now rewrite displayResult_outside_run.
    + exact Hp1.
  - destruct Hr as ((_ & _ & _ & Hp1 & _) & _).
    apply (f_equal outside_run) in Hp1. exact Hp1.
Qed.

Lemma handleProcess_raises (srv : Server) (w : World) :
  exists raised,
    toasts (handleProcess srv w) = (toasts w ++ raised)%list
    /\ (length raised <= 1)%nat.
Proof.
  destruct (handleProcess_guard_cases w) as [Hskip | [Hf Hpr]].
  { rewrite (handleProcess_skipped srv w Hskip). exists [].
    split; [now rewrite app_nil_r | simpl; lia]. }
  destruct (handleProcess_cases srv w Hf Hpr)
    as (delta & w0 & _ & _ & _ & _ & _ & _ & _ & Hcase).
  destruct Hcase as [(uploads & results & _ & _ & _ & Ht & _)
                    | (message & Ht & _)];
    eexists; (split; [exact Ht | simpl; lia]).
Qed.

Lemma displayResult_readers (result : ProcessResult) (w : World) :
  readers (displayResult result w) = readers w.
Proof.
  unfold displayResult.
  destruct (preview_data result) as [grid|]; [case_bool_decide |];
    (destruct (excel_url result) as [url|]; [case_bool_decide |]);
    reflexivity.
Qed.

Lemma handleProcess_readers (srv : Server) (w : World) :
  readers (handleProcess srv w) = readers w.
Proof.
  destruct (handleProcess_guard_cases w) as [Hskip | [Hf Hp]].
  { now rewrite (handleProcess_skipped srv w Hskip). }
  rewrite (handleProcess_run srv w Hf Hp). unfold try_catch_finally.
  destruct (handleProcess_try srv (started w)) as [r wt] eqn:E.
  apply handleProcess_try_spec in E as (delta & _ & Hr).
  destruct r as [[]|message].
  - destruct Hr
      as (uploads & results & wl & _ & _ & _ & (_ & _ & _ & _ & Hp1) & _ & ->).
    change (readers wl = readers w) in Hp1.
    unfold completed.
    change (readers (handleProcess_finally (showToast ?m ?t ?x)))
      with (readers x).
    destruct (head results) as [a|].
    + change (readers (displayResult a.2 wl) = readers w).
      now rewrite displayResult_readers.
    + exact Hp1.
  - destruct Hr as ((_ & _ & _ & _ & Hp1) & _). exact Hp1.
Qed.

(** X12. A batch run, however the backend answers, leaves the staged
    files and the cache as they are (nothing is removed from the list
    after processing), does not touch the file list, the image preview,
    the file input or the drop area, and raises at most one
    notification. *)
Theorem handleProcess_frame (srv : Server) (w : World) :
  files (state (handleProcess srv w)) = files (state w)
  /\ uploadedFileIds (state (handleProcess srv w)) = uploadedFileIds (state w)
  /\ fileListContent_innerHTML (page (handleProcess srv w))
     = fileListContent_innerHTML (page w)
  /\ imagePreview_innerHTML (page (handleProcess srv w))
     = imagePreview_innerHTML (page w)
  /\ fileInput_value (page (handleProcess srv w)) = fileInput_value (page w)
  /\ uploadArea_dragover (page (handleProcess srv w))
     = uploadArea_dragover (page w)
  /\ exists raised,
       toasts (handleProcess srv w) = (toasts w ++ raised)%list
       /\ (length raised <= 1)%nat.
Proof.
  pose proof (handleProcess_outside_run srv w) as Hp.
  split; [apply handleProcess_state |]. split; [apply handleProcess_state |].
  split; [exact (f_equal fileListContent_innerHTML Hp) |].
  split; [exact (f_equal imagePreview_innerHTML Hp) |].
  split; [exact (f_equal fileInput_value Hp) |].
  split; [exact (f_equal uploadArea_dragover Hp) |].
  destruct (handleProcess_guard_cases w) as [Hskip | [Hf Hpr]].
  { rewrite (handleProcess_skipped srv w Hskip). exists [].
    split; [now rewrite app_nil_r | simpl; lia]. }
  destruct (handleProcess_cases srv w Hf Hpr)
    as (delta & w0 & _ & _ & _ & _ & _ & _ & _ & Hcase).
  destruct Hcase as [(uploads & results & _ & _ & _ & Ht & _)
                    | (message & Ht & _)];
    eexists; (split; [exact Ht | simpl; lia]).
Qed.

(** ** The page follows the session state *)

Lemma list_view_rendered (w : World) :
  fileListContent_innerHTML (page (updateFileList w))
  = list_view (files (state w)).
Proof. unfold updateFileList. now destruct (files (state w)). Qed.

Lemma rerender_synced (w : World) :
  display_synced (previewFirstImage (updateProcessButton (updateFileList w))).
Proof.
  unfold display_synced.
  rewrite previewFirstImage_state.
  change (state (updateProcessButton ?x)) with (state x).
  rewrite updateFileList_state.
  split.
  - rewrite <- list_view_rendered. unfold previewFirstImage.
    now destruct (files (state (updateProcessButton (updateFileList w)))).
  - eapply trigger_consistent_ext;
      [apply previewFirstImage_state | apply previewFirstImage_disabled |].
    apply updateProcessButton_consistent.
Qed.

Lemma addFiles_synced (candidates : list File) (w : World) :
  display_synced (addFiles candidates w).
Proof.
  unfold addFiles.
  destruct (array_filter validFile candidates w) as [validFiles w1].
  apply rerender_synced.
Qed.

Lemma clearFileList_synced (w : World) : display_synced (clearFileList w).
Proof. split; [reflexivity | apply clearFileList_consistent]. Qed.

Lemma display_synced_ext (w w' : World) :
  state w' = state w ->
  fileListContent_innerHTML (page w') = fileListContent_innerHTML (page w) ->
  processBtn_disabled (page w') = processBtn_disabled (page w) ->
  display_synced w -> display_synced w'.
Proof.
  intros Hs Hl Hb (H1 & H2). split; [now rewrite Hl, Hs |].
  now apply (trigger_consistent_ext w w').
Qed.

(** What rendering does about the preview. *)
Lemma rerender_preview (w : World) :
  let w' := previewFirstImage (updateProcessButton (updateFileList w)) in
  match files (state w') with
  | [] =>
    imagePreview_innerHTML (page w') = ImagePlaceholder
    /\ readers w' = readers w
  | file :: _ =>
    imagePreview_innerHTML (page w') = imagePreview_innerHTML (page w)
    /\ readers w' = (readers w ++ [file])%list
  end.
Proof.
  intros w'. subst w'. rewrite previewFirstImage_state.
  change (state (updateProcessButton ?x)) with (state x).
  rewrite updateFileList_state. unfold previewFirstImage.
  change (state (updateProcessButton ?x)) with (state x).
  rewrite updateFileList_state.
  destruct (files (state w)) as [|file rest] eqn:Ef;
    unfold updateFileList; rewrite Ef; now split.
Qed.

Lemma stageFile_page (w : World) (file : File) :
  page (stageFile w file) = page w /\ readers (stageFile w file) = readers w.
Proof.
  unfold stageFile. now destruct (List.find (sameFile file) (files (state w))).
Qed.

Lemma fold_stageFile_page (l : list File) (w : World) :
  page (fold_left stageFile l w) = page w
  /\ readers (fold_left stageFile l w) = readers w.
Proof.
  revert w. induction l as [|f l IH]; intros w; simpl; [tauto |].
  destruct (IH (stageFile w f)) as (-> & ->). apply stageFile_page.
Qed.

Lemma addFiles_preview (candidates : list File) (w : World) :
  match files (state (addFiles candidates w)) with
  | [] =>
    imagePreview_innerHTML (page (addFiles candidates w)) = ImagePlaceholder
    /\ readers (addFiles candidates w) = readers w
  | file :: _ =>
    imagePreview_innerHTML (page (addFiles candidates w))
    = imagePreview_innerHTML (page w)
    /\ readers (addFiles candidates w) = (readers w ++ [file])%list
  end.
Proof.
  unfold addFiles. rewrite array_filter_validFile.
  set (w1 := add_toasts _ w).
  set (w2 := fold_left stageFile _ w1).
  pose proof (rerender_preview w2) as H. cbv zeta in H.
  destruct (fold_stageFile_page
              (filter (fun f => ~ spec_rejects f) candidates) w1) as (Hp & Hr).
  fold w2 in Hp, Hr.
  change (page w1) with (page w) in Hp. change (readers w1) with (readers w) in Hr.
  now rewrite Hp, Hr in H.
Qed.

(** X13. The file list and the process trigger follow the session state:
    every event that changes the staged list ends with the list showing
    one item per staged file with its index, or the empty message, and
    the trigger enabled exactly when files are staged and no run is in
    flight; every other event, the load of a reader included, keeps a
    page that was in that condition in it.  The image preview follows
    later: rendering an empty list shows the placeholder at once, while
    rendering a non-empty list only starts a reader for the first staged
    file and leaves the preview as it was; clearing shows the placeholder
    and starts nothing; and when a reader loads, the preview shows the
    file the reader was started for, whether or not it is still staged. *)
Theorem display_follows_state (srv : Server) (e : Event) (w : World) :
  (display_synced w \/ renders_list e = true ->
   display_synced (dispatch srv e w))
  /\ preview_step e w (dispatch srv e w).
Proof.
  split.
  - intros H. destruct e; cbn [dispatch];
      try (destruct H as [H | H]; [| discriminate]).
    + unfold handleFileSelect.
      apply (display_synced_ext (addFiles selected w)); try reflexivity.
      apply addFiles_synced.
    + apply (display_synced_ext w); try reflexivity. exact H.
    + apply (display_synced_ext w); try reflexivity. exact H.
    + apply addFiles_synced.
    + unfold removeFile. apply rerender_synced.
    + apply clearFileList_synced.
    + pose proof (handleProcess_outside_run srv w) as Hp.
      destruct (handleProcess_state srv w) as (Hf & _).
      destruct H as (H1 & H2). split.
      * rewrite Hf, <- H1. exact (f_equal fileListContent_innerHTML Hp).
      * destruct (handleProcess_guard_cases w) as [Hskip | [Hne Hpr]].
        { now rewrite (handleProcess_skipped srv w Hskip). }
        destruct (handleProcess_cases srv w Hne Hpr)
          as (delta & w0 & _ & _ & Hfiles & _ & Hproc & Hbtn & _).
        unfold trigger_consistent. rewrite Hbtn, Hproc, Hfiles. tauto.
    + unfold handleProcessAnother. apply clearFileList_synced.
    + destruct (reader_onload_frame k w) as (_ & _ & Hb & Hl).
      apply (display_synced_ext w); try assumption.
      apply reader_onload_state.
  - destruct e; cbn [dispatch preview_step].
    + unfold handleFileSelect. cbn [state page readers with_page].
      apply (addFiles_preview selected w).
    + now split.
    + now split.
    + unfold handleDrop.
      apply (addFiles_preview dropped
               (with_page (set_uploadArea_dragover false) w)).
    + exact (rerender_preview
               (with_state (fun s =>
                  set_uploadedFileIds (delete index (uploadedFileIds s)) s)
                  (with_state (fun s =>
                     set_files (splice1 index (files s)) s) w))).
    + now split.
    + split; [| apply handleProcess_readers].
      exact (f_equal imagePreview_innerHTML (handleProcess_outside_run srv w)).
    + now split.
    + unfold reader_onload. destruct (readers w !! k); [now repeat split | reflexivity].
Qed.

(** ** Events while a run is in flight *)

Lemma disabled_while_processing (w : World) :
  trigger_consistent w -> processing (state w) = true ->
  processBtn_disabled (page w) = true.
Proof.
  intros [H _] Hp.
  destruct (processBtn_disabled (page w)) eqn:E; [reflexivity |].
  destruct (H eq_refl) as [_ Hq]. congruence.
Qed.

Lemma dispatch_in_flight (srv : Server) (e : Event) (w : World) :
  processing (state w) = true -> processBtn_disabled (page w) = true ->
  processing (state (dispatch srv e w)) = true
  /\ processBtn_disabled (page (dispatch srv e w)) = true
  /\ network (dispatch srv e w) = network w.
Proof.
  intros Hp Hb.
  assert (Hskip : handleProcess srv w = w)
    by (apply handleProcess_skipped; now right).
  assert (Hflag : processing (state (dispatch srv e w)) = true).
  { destruct e; cbn [dispatch].
    - unfold handleFileSelect. cbn [state with_page].
      now destruct (addFiles_rest selected w) as (_ & -> & _).
    - exact Hp.
    - exact Hp.
    - unfold handleDrop.
      now destruct (addFiles_rest dropped
        (with_page (set_uploadArea_dragover false) w)) as (_ & -> & _).
    - now destruct (removeFile_frame index w) as (-> & _).
    - exact Hp.
    - now rewrite Hskip.
    - exact Hp.
    - now rewrite reader_onload_state. }
  split; [exact Hflag |].
  split.
  { destruct e; cbn [dispatch] in *.
    - unfold handleFileSelect in *.
      apply (disabled_while_processing (addFiles selected w));
        [apply addFiles_consistent | exact Hflag].
    - exact Hb.
    - exact Hb.
    - apply disabled_while_processing; [apply addFiles_consistent | exact Hflag].
    - apply disabled_while_processing; [apply removeFile_consistent | exact Hflag].
    - apply disabled_while_processing; [apply clearFileList_consistent | exact Hflag].
    - now rewrite Hskip.
    - apply disabled_while_processing; [apply clearFileList_consistent | exact Hflag].
    - now destruct (reader_onload_frame k w) as (_ & _ & -> & _). }
  destruct e; cbn [dispatch].
  - unfold handleFileSelect. cbn [network with_page].
    now destruct (addFiles_rest selected w) as (_ & _ & ->).
  - reflexivity.
  - reflexivity.
  - unfold handleDrop.
    now destruct (addFiles_rest dropped
      (with_page (set_uploadArea_dragover false) w)) as (_ & _ & ->).
  - apply removeFile_frame.
  - reflexivity.
  - now rewrite Hskip.
  - reflexivity.
  - apply reader_onload_frame.
Qed.

Lemma loop_in_flight (w w' : World) :
  progress_only w w' ->
  processing (state w) = true -> processBtn_disabled (page w) = true ->
  processing (state w') = true
  /\ processBtn_disabled (page w') = true
  /\ files (state w') = files (state w).
Proof.
  intros H Hp Hb. apply progress_only_frame in H as (Hs & _ & _ & _ & Hd & _).
  now rewrite Hs, Hd.
Qed.

(** X14. A run in flight stays locked.  In a world where the processing
    flag is true and the trigger disabled, as they are from the start of a
    run to its [finally] block, the process action is refused, and
    whatever is handled next leaves the flag true and the trigger
    disabled: adding, removing and clearing re-evaluate the trigger to
    disabled, dragging and reader loads do not touch it, none of them
    sends a request, and any stretch of either loop of the run, resumed
    in that world with whatever it has collected, keeps flag and trigger
    and does not change the staged list.  No event handler resets the
    flag; only the [finally] block of the run does. *)
Theorem in_flight_stays_locked (srv : Server) (w : World) :
  processing (state w) = true ->
  processBtn_disabled (page w) = true ->
  handleProcess srv w = w
  /\ (forall e : Event,
        processing (state (dispatch srv e w)) = true
        /\ processBtn_disabled (page (dispatch srv e w)) = true
        /\ network (dispatch srv e w) = network w)
  /\ (forall (fuel i : nat) (uploadResults : list UploadResult),
        processing (state (upload_loop srv fuel i uploadResults w).2) = true
        /\ processBtn_disabled (page (upload_loop srv fuel i uploadResults w).2)
           = true
        /\ files (state (upload_loop srv fuel i uploadResults w).2)
           = files (state w))
  /\ (forall (uploadResults : list UploadResult) (fuel i : nat)
             (processResults : list ProcessEntry),
        processing
          (state (process_loop srv uploadResults fuel i processResults w).2) = true
        /\ processBtn_disabled
             (page (process_loop srv uploadResults fuel i processResults w).2) = true
        /\ files (state (process_loop srv uploadResults fuel i processResults w).2)
           = files (state w)).
Proof.
  intros Hp Hb.
  split; [apply handleProcess_skipped; now right |].
  split; [intros e; now apply dispatch_in_flight |].
  split.
  - intros fuel i acc.
    destruct (upload_loop srv fuel i acc w) as [r w'] eqn:E.
    apply upload_loop_spec in E as (H & _). cbn [snd].
    now apply (loop_in_flight w w').
  - intros ups fuel i acc.
    destruct (process_loop srv ups fuel i acc w) as [r w'] eqn:E.
    apply process_loop_spec in E as (H & _). cbn [snd].
    now apply (loop_in_flight w w').
Qed.

Lemma dispatch_network (srv : Server) (e : Event) (w : World) :
  e <> ClickProcess -> network (dispatch srv e w) = network w.
Proof.
  intros H. destruct e; cbn [dispatch]; try reflexivity; try congruence.
  - unfold handleFileSelect. cbn [network with_page].
    now destruct (addFiles_rest selected w) as (_ & _ & ->).
  - unfold handleDrop.
    now destruct (addFiles_rest dropped
      (with_page (set_uploadArea_dragover false) w)) as (_ & _ & ->).
  - apply removeFile_frame.
  - apply reader_onload_frame.
Qed.

(** X15. Only the process action talks to the backend: every other event
    leaves the record of requests as it is.  No event takes back a
    notification or a request already made: both records only grow.
    Notifications come from adding files and from batch runs only:
    dragging, removing, clearing and processing another batch raise
    none. *)
Theorem only_process_sends_requests (srv : Server) (e : Event) (w : World) :
  (e <> ClickProcess -> network (dispatch srv e w) = network w)
  /\ network w `prefix_of` network (dispatch srv e w)
  /\ toasts w `prefix_of` toasts (dispatch srv e w)
  /\ match e with
     | FileSelect _ | Drop _ | ClickProcess => True
     | _ => toasts (dispatch srv e w) = toasts w
     end.
Proof.
  split; [apply dispatch_network |].
  split.
  { destruct e; try (rewrite dispatch_network by discriminate; reflexivity).
    cbn [dispatch].
    destruct (handleProcess_guard_cases w) as [Hskip | [Hf Hp]].
    - now rewrite (handleProcess_skipped srv w Hskip).
    - destruct (handleProcess_cases srv w Hf Hp)
        as (delta & w0 & _ & -> & _). now exists delta. }
  split.
  { destruct e; cbn [dispatch]; try reflexivity.
    - unfold handleFileSelect. cbn [toasts with_page].
      rewrite addFiles_toasts. now eexists.
    - unfold handleDrop. rewrite addFiles_toasts. now eexists.
    - now destruct (removeFile_frame index w) as (_ & -> & _).
    - destruct (handleProcess_raises srv w) as (raised & -> & _).
      now exists raised.
    - now destruct (reader_onload_frame k w) as (-> & _). }
  destruct e; cbn [dispatch]; try exact I; try reflexivity.
  - now destruct (removeFile_frame index w) as (_ & -> & _).
  - now destruct (reader_onload_frame k w) as (-> & _).
Qed.

(** ** The download link *)

(** X16. Showing a result sets the download link only when the result
    carries a non-empty spreadsheet URL, to that URL behind the base
    address and with the file name [table.xlsx]; otherwise the link of
    the previous result stays.  In both cases the result section is
    revealed and scrolled to, and the session state, the notifications,
    the requests, the file list, the image preview, the trigger and the
    overlay are left alone. *)
Theorem displayResult_download_link (result : ProcessResult) (w : World) :
  (downloadLink_href (page (displayResult result w)),
   downloadLink_download (page (displayResult result w)))
  = match excel_url result with
    | Some url =>
      if bool_decide (url = EmptyString)
      then (downloadLink_href (page w), downloadLink_download (page w))
      else (API_BASE_URL +:+ url, "table.xlsx")
    | None => (downloadLink_href (page w), downloadLink_download (page w))
    end
  /\ resultSection_display (page (displayResult result w)) = "block"
  /\ resultSection_scrolls (page (displayResult result w))
     = S (resultSection_scrolls (page w))
  /\ state (displayResult result w) = state w
  /\ toasts (displayResult result w) = toasts w
  /\ network (displayResult result w) = network w
  /\ outside_run (page (displayResult result w)) = outside_run (page w)
  /\ processBtn_disabled (page (displayResult result w))
     = processBtn_disabled (page w)
  /\ loadingOverlay_display (page (displayResult result w))
     = loadingOverlay_display (page w).
Proof.
  destruct (displayResult_frame result w) as (Hs & Ht & _ & Hn & Hb & Ho).
  split.
  { unfold displayResult.
    destruct (preview_data result) as [grid|]; [case_bool_decide |];
      (destruct (excel_url result) as [url|]; [case_bool_decide |]);
      reflexivity. }
  split.
  { unfold displayResult.
    destruct (preview_data result) as [grid|]; [case_bool_decide |];
      (destruct (excel_url result) as [url|]; [case_bool_decide |]);
      reflexivity. }
  split.
  { unfold displayResult.
    destruct (preview_data result) as [grid|]; [case_bool_decide |];
      (destruct (excel_url result) as [url|]; [case_bool_decide |]);
      reflexivity. }
  split; [exact Hs |]. split; [exact Ht |]. split; [exact Hn |].
  split; [apply displayResult_outside_run |]. split; [exact Hb | exact Ho].
Qed.

(** ** A second click while a run is in flight *)

Lemma in_flight_refused (srv : Server) (w wl : World) :
  progress_only (started w) wl ->
  handleProcess srv wl = wl
  /\ processing (state wl) = true
  /\ processBtn_disabled (page wl) = true
  /\ loadingOverlay_display (page wl) = "flex".
Proof.
  intros H. apply progress_only_frame in H as (Hs & _ & _ & _ & Hb & Ho).
  assert (Hp : processing (state wl) = true) by now rewrite Hs.
  split; [apply handleProcess_skipped; now right |].
  split; [exact Hp |]. rewrite Hb, Ho. split; [| reflexivity].
  unfold started, showLoading. cbn. apply orb_true_r.
Qed.

(** X17. While a run is in flight a second process action does nothing.
    After any number of iterations of the upload loop, and after any
    number of iterations of the processing loop that follows, the
    processing flag is true, the trigger is disabled and the overlay is
    shown, and calling the process action in that world returns it
    unchanged, whichever backend it would talk to. *)
Theorem process_action_refused_in_flight (srv other : Server) (w : World)
    (n m : nat) (ups : list UploadResult) :
  let wu := (upload_loop srv n 0 [] (started w)).2 in
  let wp := (process_loop srv ups m 0 [] wu).2 in
  (handleProcess other wu = wu
   /\ processing (state wu) = true
   /\ processBtn_disabled (page wu) = true
   /\ loadingOverlay_display (page wu) = "flex")
  /\ (handleProcess other wp = wp
      /\ processing (state wp) = true
      /\ processBtn_disabled (page wp) = true
      /\ loadingOverlay_display (page wp) = "flex").
Proof.
  intros wu wp. subst wp wu.
  destruct (upload_loop srv n 0 [] (started w)) as [r1 w1] eqn:E1.
  apply upload_loop_spec in E1 as (P1 & _).
  cbn [snd].
  destruct (process_loop srv ups m 0 [] w1) as [r2 w2] eqn:E2.
  apply process_loop_spec in E2 as (P2 & _).
  cbn [snd]. split.
  - now apply (in_flight_refused other w w1).
  - apply (in_flight_refused other w w2).
    eapply progress_only_trans; eassumption.
Qed.

(** ** The further properties on the worked session *)

Lemma process_failure_aborts_batch_witness :
  let w := example_staged example_unprocessable_backend in
  let w' := handleProcess example_unprocessable_backend w in
  result_view (page w') = result_view (page w)
  /\ toasts w'
     = (toasts w ++ [error_toast ("处理失败: " +:+ "处理失败: "
                                  +:+ "Unprocessable Entity")])%list
  /\ processing (state w') = false
  /\ processBtn_disabled (page w') = false.
Proof.
  intros w w'.
  assert (Hrun : run_exchanges w w'
    = ([XUpload example_png
          (Responded true "OK" (inr (mkUploadJson (Some "a1") (Some "x.png"))));
        XUpload example_jpg
          (Responded true "OK" (inr (mkUploadJson (Some "a1") (Some "y.jpg"))));
        XProcess "http://localhost:8000/process?file_id=a1&filename=x.png"
          (Responded true "OK" (inr example_result))]
       ++ XProcess "http://localhost:8000/process?file_id=a1&filename=y.jpg"
            (Responded false "Unprocessable Entity" (inl "Unexpected token"))
          :: [])%list) by (vm_compute; reflexivity).
  destruct (process_failure_aborts_batch example_unprocessable_backend w
              _ _ _ _ _ Hrun) as (_ & _ & Hv & Ht & Hp & Hb).
  split; [exact Hv |]. split; [exact Ht |]. split; [exact Hp | exact Hb].
Defined.

Lemma batch_run_one_notification_witness :
  let w := example_staged example_unreachable_backend in
  let w' := handleProcess example_unreachable_backend w in
  (forallb exchange_ok (run_exchanges w w') = true
   /\ toasts w'
      = (toasts w ++ [success_toast ("成功处理 "
           +:+ string_of_nat (length (files (state w))) +:+ " 个文件")])%list)
  \/ (exists good bad,
        run_exchanges w w' = (good ++ [bad])%list
        /\ forallb exchange_ok good = true
        /\ exchange_ok bad = false
        /\ toasts w'
           = (toasts w ++ [error_toast ("处理失败: " +:+ exchange_message bad)])%list
        /\ result_view (page w') = result_view (page w)).
Proof.
  intros w w'.
  apply (batch_run_one_notification example_unreachable_backend w).
  - vm_compute. discriminate.
  - vm_compute. reflexivity.
Defined.

Lemma removeFile_past_end_witness :
  files (state (removeFile 2 (example_staged example_backend)))
  = files (state (example_staged example_backend)).
Proof.
  apply (removeFile_past_end 2 (example_staged example_backend)).
  vm_compute. discriminate.
Defined.

Lemma removeFile_negative_witness :
  length (files (state (removeFile (-1) (example_staged example_backend))))
  = (length (files (state (example_staged example_backend))) - 1)%nat.
Proof.
  apply (removeFile_negative (-1) (example_staged example_backend)).
  - vm_compute. reflexivity.
  - vm_compute. discriminate.
Defined.

(** Removing a file renders list and trigger anew; and a reader that
    loads after the list was cleared shows a file that is staged no
    more. *)
Lemma display_follows_state_witness :
  display_synced
    (dispatch example_backend (ClickRemove 0) (example_staged example_backend))
  /\ (let w := session example_backend example_page
                 [FileSelect [example_png]; ClickClear; ReaderLoad 0] in
      imagePreview_innerHTML (page w) = ImageOf example_png
      /\ files (state w) = []).
Proof.
  split.
  - apply (display_follows_state example_backend (ClickRemove 0)).
    right. reflexivity.
  - intros w. subst w.
    change [FileSelect [example_png]; ClickClear; ReaderLoad 0]
      with ([FileSelect [example_png]; ClickClear] ++ [ReaderLoad 0])%list.
    rewrite session_snoc.
    set (w0 := session example_backend example_page
                 [FileSelect [example_png]; ClickClear]).
    assert (Hk : readers w0 !! 0%nat = Some example_png)
      by (vm_compute; reflexivity).
    assert (Hf : files (state w0) = []) by (vm_compute; reflexivity).
    pose proof (proj2 (display_follows_state example_backend (ReaderLoad 0) w0))
      as H.
    cbn [preview_step] in H. rewrite Hk in H.
    destruct H as (Hi & _ & Hs).
    split; [exact Hi | now rewrite Hs].
Defined.

Lemma in_flight_stays_locked_witness :
  let w := started (example_staged example_backend) in
  handleProcess example_backend w = w
  /\ processing (state (dispatch example_backend ClickClear w)) = true
  /\ processBtn_disabled
       (page (dispatch example_backend (FileSelect [example_limit]) w)) = true.
Proof.
  intros w.
  assert (Hp : processing (state w) = true) by (vm_compute; reflexivity).
  assert (Hb : processBtn_disabled (page w) = true) by (vm_compute; reflexivity).
  destruct (in_flight_stays_locked example_backend w Hp Hb) as (Hskip & He & _).
  split; [exact Hskip |].
  split; [apply (He ClickClear) | apply (He (FileSelect [example_limit]))].
Defined.

(** * The session turn by turn *)

(** ** A run that nothing interrupts *)

Lemma settle_ended (srv : Server) (n : nat) (w : World) :
  settle srv n (w, None) = (w, None).
Proof. now destruct n. Qed.

Lemma try_bind_normal {A : Type} (m : M A) (k : A -> M unit)
    (w : World) (a : A) (w1 : World) :
  m w = (Normal a, w1) ->
  try_catch_finally (bind m k) handleProcess_catch handleProcess_finally w
  = try_catch_finally (k a) handleProcess_catch handleProcess_finally w1.
Proof. intros H. unfold try_catch_finally, bind. now rewrite H. Qed.

Lemma try_bind_throw {A : Type} (m : M A) (k : A -> M unit)
    (w : World) (message : string) (w1 : World) :
  m w = (Throw message, w1) ->
  try_catch_finally (bind m k) handleProcess_catch handleProcess_finally w
  = handleProcess_finally (handleProcess_catch message w1).
Proof. intros H. unfold try_catch_finally, bind. now rewrite H. Qed.

Lemma after_loops_run (processResults : list ProcessEntry) (w : World) :
  run_completes processResults w
  = (try_catch_finally (after_loops processResults)
       handleProcess_catch handleProcess_finally w, None).
Proof. now destruct processResults. Qed.

Lemma settle_process (srv : Server) (ups : list UploadResult) (fuel : nat) :
  forall (i : nat) (prs : list ProcessEntry) (w : World) (n : nat),
    (length ups <= i + fuel)%nat ->
    (2 * (length ups - i) <= n)%nat ->
    settle srv n (process_from srv ups i prs w)
    = (try_catch_finally (bind (process_loop srv ups fuel i prs) after_loops)
         handleProcess_catch handleProcess_finally w, None).
Proof.
  induction fuel as [|fuel IH]; intros i prs w n Hf Hn.
  { assert (E : ups !! i = None) by (apply lookup_ge_None; lia).
    unfold process_from. rewrite E.
    rewrite (try_bind_normal _ _ _ _ _
               (process_loop_done srv ups 0 i prs w (or_introl eq_refl))).
    rewrite after_loops_run. apply settle_ended. }
  destruct (ups !! i) as [u|] eqn:E.
  2:{ unfold process_from. rewrite E.
      rewrite (try_bind_normal _ _ _ _ _
                 (process_loop_done srv ups (S fuel) i prs w (or_intror E))).
      rewrite after_loops_run. apply settle_ended. }
  assert (Hi : (i < length ups)%nat) by (eapply lookup_lt_Some; exact E).
  destruct n as [|[|n]]; [lia | lia |].
  pose proof (process_loop_step srv ups fuel i prs w u E) as Hstep.
  cbv zeta in Hstep.
  unfold process_from. rewrite E. destruct u as [index fileId name].
  cbn [ur_index ur_fileId ur_filename] in Hstep.
  cbn [network with_page].
  destruct (srv_process srv (network w) (process_url fileId name))
    as [m | [|] st [m | p]].
  - rewrite (try_bind_throw _ _ _ _ _ Hstep). reflexivity.
  - rewrite (try_bind_throw _ _ _ _ _ Hstep).
    cbn [settle handleProcess_resume negb]. unfold run_throws.
    apply settle_ended.
  - cbn [settle handleProcess_resume negb].
    rewrite (IH (S i) _ _ n) by lia.
    unfold try_catch_finally, bind. now rewrite Hstep.
  - rewrite (try_bind_throw _ _ _ _ _ Hstep). reflexivity.
  - rewrite (try_bind_throw _ _ _ _ _ Hstep). reflexivity.
Qed.

Lemma settle_upload (srv : Server) (fuel : nat) :
  forall (i : nat) (ups : list UploadResult) (w : World) (n : nat),
    (length (files (state w)) <= i + fuel)%nat ->
    (2 * (length (files (state w)) - i)
     + 2 * (length ups + (length (files (state w)) - i)) <= n)%nat ->
    settle srv n (upload_from srv i ups w)
    = (try_catch_finally (bind (upload_loop srv fuel i ups) (after_uploads srv))
         handleProcess_catch handleProcess_finally w, None).
Proof.
  induction fuel as [|fuel IH]; intros i ups w n Hf Hn.
  { assert (E : files (state w) !! i = None) by (apply lookup_ge_None; lia).
    unfold upload_from. rewrite E.
    rewrite (try_bind_normal _ _ _ _ _
               (upload_loop_done srv 0 i ups w (or_introl eq_refl))).
    apply settle_process; lia. }
  destruct (files (state w) !! i) as [file|] eqn:E.
  2:{ unfold upload_from. rewrite E.
      rewrite (try_bind_normal _ _ _ _ _
                 (upload_loop_done srv (S fuel) i ups w (or_intror E))).
      apply settle_process; lia. }
  assert (Hi : (i < length (files (state w)))%nat)
    by (eapply lookup_lt_Some; exact E).
  destruct n as [|[|n]]; [lia | lia |].
  pose proof (upload_loop_step srv fuel i ups w file E) as Hstep.
  cbv zeta in Hstep.
  unfold upload_from. rewrite E. cbv zeta.
  cbn [network with_page].
  destruct (srv_upload srv (network w) file) as [m | [|] st [m | u]].
  - rewrite (try_bind_throw _ _ _ _ _ Hstep). reflexivity.
  - rewrite (try_bind_throw _ _ _ _ _ Hstep).
    cbn [settle handleProcess_resume negb]. unfold run_throws.
    apply settle_ended.
  - cbn [settle handleProcess_resume negb].
    rewrite (IH (S i) _ _ n);
      [| cbn [state push_exchange with_page files]; lia
       | cbn [state push_exchange with_page files]; rewrite length_app; simpl; lia].
    unfold try_catch_finally, bind. now rewrite Hstep.
  - rewrite (try_bind_throw _ _ _ _ _ Hstep). reflexivity.
  - rewrite (try_bind_throw _ _ _ _ _ Hstep). reflexivity.
Qed.

Lemma handleProcess_try_loops (srv : Server) (w : World) :
  handleProcess_try srv w
  = bind (upload_loop srv (length (files (state w))) 0 []) (after_uploads srv) w.
Proof. reflexivity. Qed.

Lemma settle_run (srv : Server) (w : World) (n : nat) :
  (4 * length (files (state w)) <= n)%nat ->
  settle srv n (handleProcess_begin srv w) = (handleProcess srv w, None).
Proof.
  intros Hn. unfold handleProcess_begin, handleProcess.
  destruct (bool_decide (length (files (state w)) = 0%nat) || processing (state w)).
  { apply settle_ended. }
  rewrite (settle_upload srv (length (files (state w)))).
  - reflexivity.
  - cbn [state showLoading updateProcessButton with_page with_state
         set_processing files]. lia.
  - cbn [state showLoading updateProcessButton with_page with_state
         set_processing files length]. lia.
Qed.

Lemma live_step_settle (srv : Server) (w : World)
    (h : option (FetchOutcome unit)) (r : Suspended) :
  live_step srv (RunSettles 0) (mkLive w h [r])
  = mkLive (handleProcess_resume srv r w).1 h
      (option_list (handleProcess_resume srv r w).2).
Proof.
  unfold live_step. simpl.
  now destruct (handleProcess_resume srv r w) as [w' [r'|]].
Qed.

Lemma settle_turns (srv : Server) (n : nat) :
  forall (w : World) (h : option (FetchOutcome unit)) (r : option Suspended),
    fold_left (fun l t => live_step srv t l) (replicate n (RunSettles 0))
      (mkLive w h (option_list r))
    = mkLive (settle srv n (w, r)).1 h (option_list (settle srv n (w, r)).2).
Proof.
  induction n as [|n IH]; intros w h r; [reflexivity |].
  destruct r as [r|]; cbn [replicate fold_left].
  - change (option_list (Some r)) with [r].
    rewrite live_step_settle. cbn [settle].
    destruct (handleProcess_resume srv r w) as [w' next].
    exact (IH w' h next).
  - change (live_step srv (RunSettles 0) (mkLive w h (option_list None)))
      with (mkLive w h (option_list None)).
    rewrite (IH w h None), !settle_ended. reflexivity.
Qed.

(** X18. A run that nothing interrupts is the batch run taken as a whole:
    when the process action is handled with no run in flight and the run
    is then settled await after await with no other listener in between,
    four times per staged file being enough, the client ends with no run
    suspended and in the world that [handleProcess] gives in one piece. *)
Theorem uninterrupted_run (srv : Server) (w : World)
    (h : option (FetchOutcome unit)) (n : nat) :
  (4 * length (files (state w)) <= n)%nat ->
  fold_left (fun l t => live_step srv t l)
    (Handled ClickProcess :: replicate n (RunSettles 0)) (mkLive w h [])
  = mkLive (handleProcess srv w) h [].
Proof.
  intros Hn. cbn [fold_left live_step current in_flight health_check].
  destruct (handleProcess_begin srv w) as [w1 r] eqn:E.
  cbn [app]. rewrite settle_turns, <- E, (settle_run srv w n Hn). reflexivity.
Qed.

Lemma turns_uninterrupted (srv : Server) (e : Event) (w : World)
    (h : option (FetchOutcome unit)) (n : nat) :
  (4 * length (files (state w)) <= n)%nat ->
  fold_left (fun l t => live_step srv t l)
    (Handled e :: replicate n (RunSettles 0)) (mkLive w h [])
  = mkLive (dispatch srv e w) h [].
Proof.
  intros Hn. cbn [fold_left].
  assert (Hidle : forall w',
            fold_left (fun l t => live_step srv t l)
              (replicate n (RunSettles 0)) (mkLive w' h [])
            = mkLive w' h []).
  { intros w'. pose proof (settle_turns srv n w' h None) as H.
    now rewrite settle_ended in H. }
  destruct e; cbn [live_step current in_flight health_check dispatch];
    try apply Hidle.
  destruct (handleProcess_begin srv w) as [w1 r] eqn:E.
  cbn [app]. rewrite settle_turns, <- E, (settle_run srv w n Hn). reflexivity.
Qed.

Lemma events_of_settles (n k : nat) : events_of (replicate n (RunSettles k)) = [].
Proof. induction n as [|n IH]; [reflexivity | exact IH]. Qed.

Lemma live_session_app (srv : Server) (d : DOM) (turns more : list Turn) :
  live_session srv d (turns ++ more)
  = fold_left (fun l t => live_step srv t l) more (live_session srv d turns).
Proof. unfold live_session. apply fold_left_app. Qed.

Lemma live_init_settled (srv : Server) (d : DOM) :
  live_session srv d [HealthSettles] = mkLive (init srv d) None [].
Proof. reflexivity. Qed.

(** X19. A session in which every run is taken to its end before the next
    event is one of the sessions of the client: for every sequence of
    events there are turns of the event loop with exactly these events,
    in this order, the health check and every run being settled before
    the next event, after which no promise is pending and the world is
    the one the session reaches with its runs taken as a whole. *)
Theorem session_is_live_session (srv : Server) (d : DOM) (es : list Event) :
  exists turns : list Turn,
    events_of turns = es
    /\ live_session srv d turns = mkLive (session srv d es) None [].
Proof.
  induction es as [|e es (turns & Hev & Hlive)] using rev_ind.
  - exists [HealthSettles]. split; [reflexivity | apply live_init_settled].
  - exists (turns ++ Handled e
              :: replicate (4 * length (files (state (session srv d es))))
                   (RunSettles 0))%list.
    split.
    + unfold events_of. rewrite omap_app. fold (events_of turns). rewrite Hev.
      cbn [omap list_omap]. f_equal.
      change (e :: events_of (replicate
                (4 * length (files (state (session srv d es)))) (RunSettles 0))
              = [e]).
      now rewrite events_of_settles.
    + rewrite live_session_app, Hlive, session_snoc.
      now apply turns_uninterrupted.
Qed.

(** ** What holds between any two turns *)

Lemma run_throws_keeps (message : string) (w : World) :
  run_keeps w (run_throws message w).
Proof. repeat split. Qed.

Lemma run_completes_keeps (prs : list ProcessEntry) (w : World) :
  run_keeps w (run_completes prs w).
Proof.
  unfold run_keeps, run_completes. cbn [fst snd].
  cbn [state handleProcess_finally hideLoading updateProcessButton with_page
       with_state showToast push_toast set_processing files uploadedFileIds
       processing].
  destruct prs as [|first prs]; [repeat split |].
  destruct (displayResult_frame (pe_result first) w) as (-> & _).
  repeat split.
Qed.

Lemma process_from_keeps (srv : Server) (ups : list UploadResult) (i : nat)
    (prs : list ProcessEntry) (w : World) :
  run_keeps w (process_from srv ups i prs w).
Proof.
  unfold process_from.
  destruct (ups !! i) as [[index fileId name]|];
    [repeat split | apply run_completes_keeps].
Qed.

Lemma upload_from_keeps (srv : Server) (i : nat) (ups : list UploadResult)
    (w : World) :
  run_keeps w (upload_from srv i ups w).
Proof.
  unfold upload_from.
  destruct (files (state w) !! i) as [file|];
    [repeat split | apply process_from_keeps].
Qed.

Lemma handleProcess_resume_keeps (srv : Server) (r : Suspended) (w : World) :
  run_keeps w (handleProcess_resume srv r w).
Proof.
  destruct r as [i ups [m | [|] st body] | i ups [m | result]
                | ups i prs index [m | [|] st body]
                | ups i prs index [m | result]];
    cbn [handleProcess_resume negb];
    first [ apply run_throws_keeps | apply upload_from_keeps
          | apply process_from_keeps | repeat split ].
Qed.

Lemma handleProcess_begin_cases (srv : Server) (w : World) :
  ((files (state w) = [] \/ processing (state w) = true)
   /\ handleProcess_begin srv w = (w, None))
  \/ (processing (state w) = false
      /\ exists w' r,
           handleProcess_begin srv w = (w', Some r)
           /\ files (state w') = files (state w)
           /\ uploadedFileIds (state w') = uploadedFileIds (state w)
           /\ processing (state w') = true
           /\ processBtn_disabled (page w') = true).
Proof.
  unfold handleProcess_begin. rewrite length_zero_decide.
  destruct (files (state w)) as [|file rest] eqn:Ef.
  { left. split; [now left | reflexivity]. }
  rewrite bool_decide_eq_false_2 by discriminate.
  destruct (processing (state w)) eqn:Ep.
  { left. split; [now right | reflexivity]. }
  right. split; [reflexivity |].
  unfold upload_from.
  cbn [state showLoading updateProcessButton with_page with_state
       set_processing files orb].
  rewrite Ef. cbn [lookup list_lookup].
  do 2 eexists. split; [reflexivity |].
  cbn. rewrite Ef. repeat split.
Qed.

Lemma dispatch_processing (srv : Server) (e : Event) (w : World) :
  e <> ClickProcess ->
  processing (state (dispatch srv e w)) = processing (state w).
Proof.
  intros H. destruct e; cbn [dispatch]; try reflexivity; try congruence.
  - unfold handleFileSelect. cbn [state with_page]. apply addFiles_rest.
  - unfold handleDrop.
    now destruct (addFiles_rest dropped
      (with_page (set_uploadArea_dragover false) w)) as (_ & -> & _).
  - apply removeFile_frame.
  - now rewrite reader_onload_state.
Qed.

Lemma checkServerStatus_resume_frame (o : FetchOutcome unit) (w : World) :
  state (checkServerStatus_resume o w) = state w
  /\ page (checkServerStatus_resume o w) = page w.
Proof. now destruct o as [m | [|] st b]. Qed.

Lemma live_step_locked (srv : Server) (t : Turn) (l : Live) :
  locked l -> locked (live_step srv t l).
Proof.
  destruct l as [w h rs]. unfold locked. cbn [current in_flight].
  intros (Hlen & Hbtn).
  destruct t as [e | | k].
  - assert (He : e = ClickProcess
                 \/ (e <> ClickProcess
                     /\ live_step srv (Handled e) (mkLive w h rs)
                        = mkLive (dispatch srv e w) h rs))
      by (destruct e; first [now left | right; split; [discriminate | reflexivity]]).
    destruct He as [-> | (He & Hstep)].
    + cbn [live_step current in_flight health_check].
      destruct (handleProcess_begin_cases srv w)
        as [(_ & ->) | (Hp & w' & r & -> & _ & _ & Hp' & Hb')].
      * cbn [current in_flight option_list]. now rewrite app_nil_r.
      * cbn [current in_flight]. rewrite Hp', length_app, Hlen, Hp.
        split; [reflexivity | intros _; exact Hb'].
    + rewrite Hstep. cbn [current in_flight].
      rewrite (dispatch_processing srv e w He).
      split; [exact Hlen |]. intros Hp.
      now apply (dispatch_in_flight srv e w Hp (Hbtn Hp)).
  - cbn [live_step health_check].
    destruct h as [o|]; cbn [current in_flight]; [| now split].
    destruct (checkServerStatus_resume_frame o w) as (-> & ->). now split.
  - cbn [live_step in_flight current health_check].
    destruct (rs !! k) as [r|] eqn:Ek; cbn [current in_flight]; [| now split].
    pose proof (handleProcess_resume_keeps srv r w) as (_ & _ & Hk).
    destruct (handleProcess_resume srv r w) as [w' [r'|]];
      cbn [fst snd current in_flight] in *.
    + destruct Hk as (-> & ->). now rewrite length_insert.
    + rewrite Hk, length_delete by (now exists r).
      split; [| discriminate].
      destruct (processing (state w)); [now rewrite Hlen |].
      apply lookup_lt_Some in Ek. lia.
Qed.

Lemma live_init_locked (srv : Server) (d : DOM) : locked (live_init srv d).
Proof. split; [reflexivity | discriminate]. Qed.

(** X20. One run at a time.  Between any two turns of a session, with
    listeners handled while runs wait at their awaits, exactly one run
    is suspended when the processing flag is true and none when it is
    false, and while the flag is true the trigger is disabled; every turn
    keeps this, from any client in that condition.  With the flag true the
    process action leaves the client as it is: no second run starts. *)
Theorem one_run_at_a_time (srv : Server) (d : DOM) (turns : list Turn) :
  locked (live_session srv d turns)
  /\ (forall (t : Turn) (l : Live), locked l -> locked (live_step srv t l))
  /\ (forall l : Live,
        processing (state (current l)) = true ->
        live_step srv (Handled ClickProcess) l = l).
Proof.
  split; [| split].
  - induction turns as [|t turns IH] using rev_ind.
    + apply live_init_locked.
    + rewrite live_session_app. cbn [fold_left]. now apply live_step_locked.
  - intros t l. apply live_step_locked.
  - intros [w h rs] Hp. cbn [current] in Hp.
    cbn [live_step current in_flight health_check].
    destruct (handleProcess_begin_cases srv w)
      as [(_ & ->) | (Hq & _)]; [| congruence].
    cbn [option_list]. now rewrite app_nil_r.
Qed.

Lemma live_step_staged (srv : Server) (t : Turn) (l : Live) :
  exists e : Event,
    files (state (current (live_step srv t l)))
    = files (state (dispatch srv e (current l)))
    /\ uploadedFileIds (state (current (live_step srv t l)))
       = uploadedFileIds (state (dispatch srv e (current l))).
Proof.
  destruct l as [w h rs]. cbn [current].
  destruct t as [e | | k].
  - exists e.
    destruct e; try (split; reflexivity).
    cbn [live_step current in_flight health_check dispatch].
    destruct (handleProcess_state srv w) as (-> & ->).
    destruct (handleProcess_begin_cases srv w)
      as [(_ & ->) | (_ & w' & r & -> & Hf & Hc & _)]; now split.
  - exists DragOver. cbn [live_step health_check dispatch].
    destruct h as [o|]; cbn [current]; [| now split].
    now destruct (checkServerStatus_resume_frame o w) as (-> & _).
  - exists DragOver. cbn [live_step in_flight current health_check dispatch].
    destruct (rs !! k) as [r|]; cbn [current]; [| now split].
    pose proof (handleProcess_resume_keeps srv r w) as (Hf & Hc & _).
    destruct (handleProcess_resume srv r w) as [w' next].
    cbn [fst current] in *. now split.
Qed.

(** X21. What listeners do while a run waits does not break the staged
    list: between any two turns of a session the staged files are pairwise
    different in name and size, each of an accepted type and of at most
    10 MiB, and the upload-identifier cache is empty.  A run, from one
    await to the next or to its end, leaves the list and the cache alone;
    it keeps the flag and the trigger while it goes on and leaves the flag
    false when it ends. *)
Theorem live_session_staged_list (srv : Server) (d : DOM) (turns : list Turn) :
  NoDup (fileKey <$> files (state (current (live_session srv d turns))))
  /\ Forall (fun f => accepted_type (file_type f)
                      /\ (file_size f <= 10 * 1024 * 1024)%Z)
       (files (state (current (live_session srv d turns))))
  /\ uploadedFileIds (state (current (live_session srv d turns))) = ∅
  /\ (forall (r : Suspended) (w : World),
        run_keeps w (handleProcess_resume srv r w)).
Proof.
  assert (H : NoDup (fileKey <$> files (state (current (live_session srv d turns))))
              /\ Forall (fun f => ~ spec_rejects f)
                   (files (state (current (live_session srv d turns))))
              /\ uploadedFileIds (state (current (live_session srv d turns))) = ∅).
  { induction turns as [|t turns (IH1 & IH2 & IH3)] using rev_ind.
    - split; [apply NoDup_nil_2 |]. split; [constructor | reflexivity].
    - rewrite live_session_app. cbn [fold_left].
      destruct (live_step_staged srv t (live_session srv d turns))
        as (e & -> & ->).
      split; [now apply dispatch_NoDup |].
      split; [now apply dispatch_staged_valid |].
      rewrite dispatch_uploadedFileIds, IH3.
      destruct e; first [reflexivity | apply delete_empty]. }
  destruct H as (H1 & H2 & H3).
  split; [exact H1 |].
  split; [eapply Forall_impl; [exact H2 | intros f; apply spec_accepts_iff] |].
  split; [exact H3 | apply handleProcess_resume_keeps].
Qed.

(** ** Listeners handled while a run waits *)

(** Two files are staged and the run is started; while the first upload
    is awaited the first file is removed.  The loop tests its condition
    against the list as it is by then: the second file is never uploaded,
    one file is reported as processed, and the second file stays staged
    with the trigger enabled. *)
Example live_session_remove_example :
  let l := live_session example_backend example_page
             [HealthSettles; Handled (FileSelect [example_png; example_jpg]);
              Handled ClickProcess; Handled (ClickRemove 0);
              RunSettles 0; RunSettles 0; RunSettles 0; RunSettles 0] in
  files (state (current l)) = [example_jpg]
  /\ in_flight l = []
  /\ req_url ∘ request_of <$> network (current l)
     = ["http://localhost:8000/health"; "http://localhost:8000/upload";
        "http://localhost:8000/process?file_id=a1&filename=x.png"]
  /\ text <$> toasts (current l) = ["成功处理 1 个文件"]
  /\ processing (state (current l)) = false
  /\ processBtn_disabled (page (current l)) = false.
Proof. vm_compute. repeat split. Qed.

(** The list is cleared while the only upload is awaited: the run goes on
    with what it has sent, and its result is shown over the cleared
    page. *)
Example live_session_clear_example :
  let l := live_session example_backend example_page
             [HealthSettles; Handled (FileSelect [example_png]);
              Handled ClickProcess; Handled ClickClear;
              RunSettles 0; RunSettles 0; RunSettles 0; RunSettles 0] in
  files (state (current l)) = []
  /\ in_flight l = []
  /\ tablePreview_innerHTML (page (current l))
     = "<table><tr><th>H1</th><th>H2</th></tr><tr><td>v1</td><td>v2</td></tr></table>"
  /\ resultSection_display (page (current l)) = "block"
  /\ text <$> toasts (current l) = ["成功处理 1 个文件"]
  /\ processBtn_disabled (page (current l)) = true.
Proof. vm_compute. repeat split. Qed.

(** With a run suspended the flag is true and a second process action
    starts nothing. *)
Example live_session_second_click_example :
  let l := live_session example_backend example_page
             [Handled (FileSelect [example_png]); Handled ClickProcess] in
  length (in_flight l) = 1%nat
  /\ processing (state (current l)) = true
  /\ live_step example_backend (Handled ClickProcess) l = l.
Proof. vm_compute. repeat split. Qed.

Lemma uninterrupted_run_witness :
  fold_left (fun l t => live_step example_backend t l)
    (Handled ClickProcess :: replicate 4 (RunSettles 0))
    (mkLive example_single None [])
  = mkLive (handleProcess example_backend example_single) None [].
Proof.
  apply (uninterrupted_run example_backend example_single None 4).
  vm_compute. constructor.
Defined.
